(** * go-pagerduty, incident.go: the incident resource operations

    A shallow embedding of [incident.go] of the PagerDuty client: the option
    structs and their query-string encoding, the request each operation hands
    to the HTTP gateway (verb, context, path, body, headers), and the way each
    operation unwraps the response envelope.

    Strings are byte strings ([string], one [ascii] per byte), Go's [uint] is
    [N] (no arithmetic is done on it here), Go maps are [gmap]s, slices are
    lists (a nil slice and an empty slice are both [[]]; the code only ranges
    over them and takes their length). *)

From Stdlib Require Import NArith Ascii String Decimal DecimalString DecimalPos DecimalN.
From stdpp Require Import base option strings list gmap sorting.

Local Open Scope N_scope.
Set Warnings "-register-all".

(** ** net/url: query values, escaping and encoding *)

Module url.

(** [type Values map[string][]string]. *)
Abbreviation Values := (gmap string (list string)).

(** [func (v Values) Add(key, value string)]: append to the key's values. *)
Definition Add (key value : string) (v : Values) : Values :=
  <[key := default [] (v !! key) ++ [value]]> v.

(** [func (v Values) Get(key string) string]: the first value of the key,
    or the empty string. *)
Definition Get (key : string) (v : Values) : string :=
  match v !! key with
  | Some (x :: _) => x
  | _ => ""
  end.

Definition upperhex : string := "0123456789ABCDEF".

Definition hexdigit (n : N) : ascii :=
  default "0"%char (String.get (N.to_nat n) upperhex).

Definition between (lo hi : ascii) (c : ascii) : bool :=
  (N_of_ascii lo <=? N_of_ascii c) && (N_of_ascii c <=? N_of_ascii hi).

(** [shouldEscape(c, encodeQueryComponent)]: letters, digits and [-_.~] are
    written as they are; every other byte is escaped (the reserved bytes
    [$&+,/:;=?@] are escaped in a query component). *)
Definition shouldEscape (c : ascii) : bool :=
  if between "a" "z" c || between "A" "Z" c || between "0" "9" c then false
  else if (Ascii.eqb c "-" || Ascii.eqb c "_" || Ascii.eqb c "." || Ascii.eqb c "~")%char
  then false
  else true.

(** One byte of [escape(s, encodeQueryComponent)]: a space becomes [+], an
    escaped byte becomes [%XY] in upper-case hexadecimal. *)
Definition escapeByte (c : ascii) : string :=
  if shouldEscape c then
    if Ascii.eqb c " " then "+"
    else String "%" (String (hexdigit (N_of_ascii c / 16))
                       (String (hexdigit (N_of_ascii c mod 16)) ""))
  else String c "".

Fixpoint QueryEscape (s : string) : string :=
  match s with
  | EmptyString => EmptyString
  | String c s' => escapeByte c +:+ QueryEscape s'
  end.

Definition ishex (c : ascii) : bool :=
  between "0" "9" c || between "a" "f" c || between "A" "F" c.

Definition unhex (c : ascii) : N :=
  if between "0" "9" c then N_of_ascii c - N_of_ascii "0"
  else if between "a" "f" c then N_of_ascii c - N_of_ascii "a" + 10
  else if between "A" "F" c then N_of_ascii c - N_of_ascii "A" + 10
  else 0.

(** [QueryUnescape]: [%XY] is a byte, [+] is a space; a [%] that is not
    followed by two hexadecimal digits is an error ([None]). *)
Fixpoint QueryUnescape (s : string) : option string :=
  match s with
  | EmptyString => Some EmptyString
  | String c rest =>
      if Ascii.eqb c "%" then
        match rest with
        | String a (String b rest') =>
            if ishex a && ishex b
            then String (ascii_of_N (unhex a * 16 + unhex b)) <$> QueryUnescape rest'
            else None
        | _ => None
        end
      else if Ascii.eqb c "+" then String " " <$> QueryUnescape rest
      else String c <$> QueryUnescape rest
  end.

(** The body of [Encode]'s inner loop: [buf] is the builder's content. *)
Definition writePair (keyEscaped : string) (buf : string) (value : string) : string :=
  (if String.eqb buf "" then buf else buf +:+ "&")
    +:+ keyEscaped +:+ "=" +:+ QueryEscape value.

(** [func (v Values) Encode() string], with the order in which [range v]
    yielded the keys made explicit: the keys are sorted ([sort.Strings],
    byte order) before anything is written. *)
Definition EncodeRange (ranged : list string) (v : Values) : string :=
  foldl (fun buf k => foldl (writePair (QueryEscape k)) buf (default [] (v !! k)))
        "" (merge_sort String.le ranged).

Definition Encode (v : Values) : string :=
  EncodeRange (map_to_list v).*1 v.

(** [strings.Split(s, sep)] for a one-byte separator. *)
Fixpoint Split (sep : ascii) (s : string) : list string :=
  match s with
  | EmptyString => [EmptyString]
  | String c s' =>
      if Ascii.eqb c sep then EmptyString :: Split sep s'
      else match Split sep s' with
           | h :: t => String c h :: t
           | [] => [String c EmptyString]
           end
  end.

(** [strings.Cut(s, sep)] without the found flag. *)
Fixpoint Cut (sep : ascii) (s : string) : string * string :=
  match s with
  | EmptyString => (EmptyString, EmptyString)
  | String c s' =>
      if Ascii.eqb c sep then (EmptyString, s')
      else let '(before, after) := Cut sep s' in (String c before, after)
  end.

Fixpoint Contains (s : string) (c : ascii) : bool :=
  match s with
  | EmptyString => false
  | String c' s' => Ascii.eqb c' c || Contains s' c
  end.

(** The decoding direction, as [ParseQuery] reads a query string: the
    [&]-separated settings in the order they stand in the string, empty
    settings skipped, each cut at its first [=] and unescaped. A setting
    with a semicolon or a bad escape is an error ([None]). *)
Definition parseSetting (setting : string) : option (string * string) :=
  if Contains setting ";" then None
  else
    let '(key, value) := Cut "=" setting in
    k ← QueryUnescape key; x ← QueryUnescape value; Some (k, x).

Definition parsePairs (query : string) : option (list (string * string)) :=
  mapM parseSetting (filter (fun s => s ≠ EmptyString) (Split "&" query)).

Definition ParseQuery (query : string) : option Values :=
  foldl (fun m kv => Add kv.1 kv.2 m) ∅ <$> parsePairs query.

End url.

(** ** The option structs of the list endpoints *)

(** Modelled from the spec: the pagination descriptor [APIListObject],
    embedded in every list-options and list-response struct but declared
    outside incident.go: offset and limit, the [more] flag and the total
    count, each left out of a query when it is zero. *)
Record APIListObject := {
  APIListObject_Limit : N;
  APIListObject_Offset : N;
  APIListObject_More : bool;
  APIListObject_Total : N;
}.

Record ListIncidentsOptions := {
  ListIncidentsOptions_APIListObject : APIListObject;
  ListIncidentsOptions_Since : string;
  ListIncidentsOptions_Until : string;
  ListIncidentsOptions_DateRange : string;
  ListIncidentsOptions_Statuses : list string;
  ListIncidentsOptions_IncidentKey : string;
  ListIncidentsOptions_ServiceIDs : list string;
  ListIncidentsOptions_TeamIDs : list string;
  ListIncidentsOptions_UserIDs : list string;
  ListIncidentsOptions_Urgencies : list string;
  ListIncidentsOptions_TimeZone : string;
  ListIncidentsOptions_SortBy : string;
  ListIncidentsOptions_Includes : list string;
}.

Record ListIncidentAlertsOptions := {
  ListIncidentAlertsOptions_APIListObject : APIListObject;
  ListIncidentAlertsOptions_Statuses : list string;
  ListIncidentAlertsOptions_SortBy : string;
  ListIncidentAlertsOptions_Includes : list string;
}.

Record ListIncidentLogEntriesOptions := {
  ListIncidentLogEntriesOptions_APIListObject : APIListObject;
  ListIncidentLogEntriesOptions_Includes : list string;
  ListIncidentLogEntriesOptions_IsOverview : bool;
  ListIncidentLogEntriesOptions_TimeZone : string;
  ListIncidentLogEntriesOptions_Since : string;
  ListIncidentLogEntriesOptions_Until : string;
}.

(** ** strconv: numbers and booleans as text *)

Module strconv.

(** [FormatUint(n, 10)] *)
Definition FormatUint (n : N) : string := NilEmpty.string_of_uint (N.to_uint n).

(** [ParseUint(s, 10, 64)]: a non-empty sequence of digits below 2^64. *)
Definition ParseUint (s : string) : option N :=
  if String.eqb s "" then None
  else
    d ← NilEmpty.uint_of_string s;
    if N.of_uint d <? 2 ^ 64 then Some (N.of_uint d) else None.

(** [ParseBool(s)] *)
Definition ParseBool (s : string) : option bool :=
  if bool_decide (s ∈ ["1"; "t"; "T"; "TRUE"; "true"; "True"]) then Some true
  else if bool_decide (s ∈ ["0"; "f"; "F"; "FALSE"; "false"; "False"]) then Some false
  else None.

End strconv.

(** ** go-querystring: [query.Values] over the [url] struct tags *)

Module query.

(** A string field tagged [url:"name,omitempty"]. *)
Definition addString (name : string) (s : string) (v : url.Values) : url.Values :=
  if String.eqb s "" then v else url.Add name s v.

(** A [uint] field tagged [url:"name,omitempty"]. *)
Definition addUint (name : string) (n : N) (v : url.Values) : url.Values :=
  if n =? 0 then v else url.Add name (strconv.FormatUint n) v.

(** A [bool] field tagged [url:"name,omitempty"]. *)
Definition addBool (name : string) (b : bool) (v : url.Values) : url.Values :=
  if b then url.Add name "true" v else v.

(** A [[]string] field tagged [url:"name,omitempty,brackets"]: skipped when
    its length is zero, else one [Add] of [name[]] per element, in order. *)
Definition addBrackets (name : string) (l : list string) (v : url.Values) : url.Values :=
  if (length l =? 0)%nat then v
  else foldl (fun v x => url.Add (name +:+ "[]") x v) v l.

(** The embedded [APIListObject]: its fields are reflected like the outer
    struct's, after them. *)
Definition reflectAPIListObject (p : APIListObject) (v : url.Values) : url.Values :=
  addUint "total" (APIListObject_Total p)
    (addBool "more" (APIListObject_More p)
       (addUint "offset" (APIListObject_Offset p)
          (addUint "limit" (APIListObject_Limit p) v))).

(** [query.Values(o)] for each options struct: the tagged fields in
    declaration order, then the embedded struct. The call cannot fail on a
    struct value, so no error is returned. *)
Definition ValuesListIncidentsOptions (o : ListIncidentsOptions) : url.Values :=
  let v := (∅ : url.Values) in
  let v := addString "since" (ListIncidentsOptions_Since o) v in
  let v := addString "until" (ListIncidentsOptions_Until o) v in
  let v := addString "date_range" (ListIncidentsOptions_DateRange o) v in
  let v := addBrackets "statuses" (ListIncidentsOptions_Statuses o) v in
  let v := addString "incident_key" (ListIncidentsOptions_IncidentKey o) v in
  let v := addBrackets "service_ids" (ListIncidentsOptions_ServiceIDs o) v in
  let v := addBrackets "team_ids" (ListIncidentsOptions_TeamIDs o) v in
  let v := addBrackets "user_ids" (ListIncidentsOptions_UserIDs o) v in
  let v := addBrackets "urgencies" (ListIncidentsOptions_Urgencies o) v in
  let v := addString "time_zone" (ListIncidentsOptions_TimeZone o) v in
  let v := addString "sort_by" (ListIncidentsOptions_SortBy o) v in
  let v := addBrackets "include" (ListIncidentsOptions_Includes o) v in
  reflectAPIListObject (ListIncidentsOptions_APIListObject o) v.

Definition ValuesListIncidentAlertsOptions (o : ListIncidentAlertsOptions) : url.Values :=
  let v := (∅ : url.Values) in
  let v := addBrackets "statuses" (ListIncidentAlertsOptions_Statuses o) v in
  let v := addString "sort_by" (ListIncidentAlertsOptions_SortBy o) v in
  let v := addBrackets "include" (ListIncidentAlertsOptions_Includes o) v in
  reflectAPIListObject (ListIncidentAlertsOptions_APIListObject o) v.

Definition ValuesListIncidentLogEntriesOptions (o : ListIncidentLogEntriesOptions) : url.Values :=
  let v := (∅ : url.Values) in
  let v := addBrackets "include" (ListIncidentLogEntriesOptions_Includes o) v in
  let v := addBool "is_overview" (ListIncidentLogEntriesOptions_IsOverview o) v in
  let v := addString "time_zone" (ListIncidentLogEntriesOptions_TimeZone o) v in
  let v := addString "since" (ListIncidentLogEntriesOptions_Since o) v in
  let v := addString "until" (ListIncidentLogEntriesOptions_Until o) v in
  reflectAPIListObject (ListIncidentLogEntriesOptions_APIListObject o) v.

End query.

(** ** JSON documents, as the service sends them *)

Inductive json :=
| JNull
| JBool (b : bool)
| JNumber (literal : string)
| JString (s : string)
| JArray (elements : list json)
| JObject (members : list (string * json)).

(** ** The data model of incident.go *)

(** Go's zero value of a type. *)
Class Zero (T : Type) := zero : T.
Global Hint Mode Zero ! : typeclass_instances.
Global Instance string_zero : Zero string := EmptyString.
Global Instance uint_zero : Zero N := 0.
Global Instance bool_zero : Zero bool := false.
Global Instance slice_zero {T} : Zero (list T) := [].
Global Instance pointer_zero {T} : Zero (option T) := None.
Global Instance map_zero {T} : Zero (gmap string T) := (∅ : gmap string T).

(** Modelled from the spec: the reference to another entity (a user, a
    service, an escalation policy, a team), declared outside incident.go as
    [APIObject]: an opaque identifier, a type tag and a human-readable
    summary, with the links to the entity. incident.go reads only
    [Summary]. *)
Record APIObject := {
  APIObject_ID : string;
  APIObject_Type : string;
  APIObject_Summary : string;
  APIObject_Self : string;
  APIObject_HTMLURL : string;
}.
Global Instance APIObject_zero : Zero APIObject := Build_APIObject "" "" "" "" "".

(** Modelled from the spec: the bare reference of a write payload
    ([APIReference], declared outside incident.go): identifier and type. *)
Record APIReference := {
  APIReference_ID : string;
  APIReference_Type : string;
}.
Global Instance APIReference_zero : Zero APIReference := Build_APIReference "" "".

(** Modelled from the spec: the body of an incident being created
    ([APIDetails], declared outside incident.go): type and details. *)
Record APIDetails := {
  APIDetails_Type : string;
  APIDetails_Details : string;
}.

(** Modelled from the spec: entities of other resources that incident.go
    embeds but never inspects ([CommonLogEntryField], [LogEntry] and [User],
    declared outside incident.go), kept as the JSON document received. *)
Record CommonLogEntryField := { CommonLogEntryField_document : json }.
Record LogEntry := { LogEntry_document : json }.
Record User := { User_document : json }.
Global Instance CommonLogEntryField_zero : Zero CommonLogEntryField := Build_CommonLogEntryField JNull.
Global Instance LogEntry_zero : Zero LogEntry := Build_LogEntry JNull.
Global Instance User_zero : Zero User := Build_User JNull.

Record Acknowledgement := {
  Acknowledgement_At : string;
  Acknowledgement_Acknowledger : APIObject;
}.

Record PendingAction := {
  PendingAction_Type : string;
  PendingAction_At : string;
}.

Record Assignment := {
  Assignment_At : string;
  Assignment_Assignee : APIObject;
}.

Record AlertCounts := {
  AlertCounts_Triggered : N;
  AlertCounts_Resolved : N;
  AlertCounts_All : N;
}.
Global Instance AlertCounts_zero : Zero AlertCounts := Build_AlertCounts 0 0 0.

Record Priority := {
  Priority_APIObject : APIObject;
  Priority_Name : string;
  Priority_Description : string;
}.

Record ResolveReason := {
  ResolveReason_Type : string;
  ResolveReason_Incident : APIObject;
}.
Global Instance ResolveReason_zero : Zero ResolveReason := Build_ResolveReason "" zero.

Record IncidentBody := {
  IncidentBody_Type : string;
  IncidentBody_Details : string;
}.
Global Instance IncidentBody_zero : Zero IncidentBody := Build_IncidentBody "" "".

Record Assignee := {
  Assignee_Assignee : APIObject;
}.

Record FirstTriggerLogEntry := {
  FirstTriggerLogEntry_CommonLogEntryField : CommonLogEntryField;
  FirstTriggerLogEntry_Incident : APIObject;
}.
Global Instance FirstTriggerLogEntry_zero : Zero FirstTriggerLogEntry :=
  Build_FirstTriggerLogEntry zero zero.

Record ConferenceBridge := {
  ConferenceBridge_ConferenceNumber : string;
  ConferenceBridge_ConferenceURL : string;
}.

Record Incident := {
  Incident_APIObject : APIObject;
  Incident_IncidentNumber : N;
  Incident_Title : string;
  Incident_Description : string;
  Incident_CreatedAt : string;
  Incident_PendingActions : list PendingAction;
  Incident_IncidentKey : string;
  Incident_Service : APIObject;
  Incident_Assignments : list Assignment;
  Incident_Acknowledgements : list Acknowledgement;
  Incident_LastStatusChangeAt : string;
  Incident_LastStatusChangeBy : APIObject;
  Incident_FirstTriggerLogEntry : FirstTriggerLogEntry;
  Incident_EscalationPolicy : APIObject;
  Incident_Teams : list APIObject;
  Incident_Priority : option Priority;
  Incident_Urgency : string;
  Incident_Status : string;
  Incident_Id : string;
  Incident_ResolveReason : ResolveReason;
  Incident_AlertCounts : AlertCounts;
  Incident_Body : IncidentBody;
  Incident_IsMergeable : bool;
  Incident_ConferenceBridge : option ConferenceBridge;
}.
Global Instance Incident_zero : Zero Incident :=
  Build_Incident zero zero zero zero zero zero zero zero zero zero zero zero
                 zero zero zero zero zero zero zero zero zero zero zero zero.

Record ListIncidentsResponse := {
  ListIncidentsResponse_APIListObject : APIListObject;
  ListIncidentsResponse_Incidents : list Incident;
}.
Global Instance APIListObject_zero : Zero APIListObject := Build_APIListObject 0 0 false 0.
Global Instance ListIncidentsResponse_zero : Zero ListIncidentsResponse :=
  Build_ListIncidentsResponse zero zero.

Record createIncidentResponse := {
  createIncidentResponse_Incident : Incident;
}.
Global Instance createIncidentResponse_zero : Zero createIncidentResponse :=
  Build_createIncidentResponse zero.

Record CreateIncidentOptions := {
  CreateIncidentOptions_Type : string;
  CreateIncidentOptions_Title : string;
  CreateIncidentOptions_Service : option APIReference;
  CreateIncidentOptions_Priority : option APIReference;
  CreateIncidentOptions_Urgency : string;
  CreateIncidentOptions_IncidentKey : string;
  CreateIncidentOptions_Body : option APIDetails;
  CreateIncidentOptions_EscalationPolicy : option APIReference;
  CreateIncidentOptions_Assignments : list Assignee;
}.

Record ManageIncidentsOptions := {
  ManageIncidentsOptions_ID : string;
  ManageIncidentsOptions_Type : string;
  ManageIncidentsOptions_Status : string;
  ManageIncidentsOptions_Priority : option APIReference;
  ManageIncidentsOptions_Assignments : list Assignee;
  ManageIncidentsOptions_Resolution : string;
}.

Record MergeIncidentsOptions := {
  MergeIncidentsOptions_ID : string;
  MergeIncidentsOptions_Type : string;
}.

Record IncidentNote := {
  IncidentNote_ID : string;
  IncidentNote_User : APIObject;
  IncidentNote_Content : string;
  IncidentNote_CreatedAt : string;
}.
Global Instance IncidentNote_zero : Zero IncidentNote := Build_IncidentNote "" zero "" "".

Record CreateIncidentNoteResponse := {
  CreateIncidentNoteResponse_IncidentNote : IncidentNote;
}.
Global Instance CreateIncidentNoteResponse_zero : Zero CreateIncidentNoteResponse :=
  Build_CreateIncidentNoteResponse zero.

Record IncidentAlert := {
  IncidentAlert_APIObject : APIObject;
  IncidentAlert_CreatedAt : string;
  IncidentAlert_Status : string;
  IncidentAlert_AlertKey : string;
  IncidentAlert_Service : APIObject;
  IncidentAlert_Body : gmap string json;
  IncidentAlert_Incident : APIReference;
  IncidentAlert_Suppressed : bool;
  IncidentAlert_Severity : string;
  IncidentAlert_Integration : APIObject;
}.
Global Instance IncidentAlert_zero : Zero IncidentAlert :=
  Build_IncidentAlert zero zero zero zero zero zero zero zero zero zero.

Record IncidentAlertResponse := {
  IncidentAlertResponse_IncidentAlert : option IncidentAlert;
}.
Global Instance IncidentAlertResponse_zero : Zero IncidentAlertResponse :=
  Build_IncidentAlertResponse None.

Record IncidentAlertList := {
  IncidentAlertList_Alerts : list IncidentAlert;
}.

Record ListAlertsResponse := {
  ListAlertsResponse_APIListObject : APIListObject;
  ListAlertsResponse_Alerts : list IncidentAlert;
}.
Global Instance ListAlertsResponse_zero : Zero ListAlertsResponse :=
  Build_ListAlertsResponse zero zero.

Record ListIncidentLogEntriesResponse := {
  ListIncidentLogEntriesResponse_APIListObject : APIListObject;
  ListIncidentLogEntriesResponse_LogEntries : list LogEntry;
}.
Global Instance ListIncidentLogEntriesResponse_zero : Zero ListIncidentLogEntriesResponse :=
  Build_ListIncidentLogEntriesResponse zero zero.

Record IncidentResponders := {
  IncidentResponders_State : string;
  IncidentResponders_User : APIObject;
  IncidentResponders_Incident : APIObject;
  IncidentResponders_UpdatedAt : string;
  IncidentResponders_Message : string;
  IncidentResponders_Requester : APIObject;
  IncidentResponders_RequestedAt : string;
}.
Global Instance IncidentResponders_zero : Zero IncidentResponders :=
  Build_IncidentResponders "" zero zero "" "" zero "".

Record ResponderRequestTarget := {
  ResponderRequestTarget_APIObject : APIObject;
  ResponderRequestTarget_Responders : IncidentResponders;
}.
Global Instance ResponderRequestTarget_zero : Zero ResponderRequestTarget :=
  Build_ResponderRequestTarget zero zero.

Record ResponderRequestTargets := {
  ResponderRequestTargets_Target : ResponderRequestTarget;
}.
Global Instance ResponderRequestTargets_zero : Zero ResponderRequestTargets :=
  Build_ResponderRequestTargets zero.

Record ResponderRequestOptions := {
  ResponderRequestOptions_From : string;
  ResponderRequestOptions_Message : string;
  ResponderRequestOptions_RequesterID : string;
  ResponderRequestOptions_Targets : list ResponderRequestTarget;
}.

Record ResponderRequest := {
  ResponderRequest_Incident : Incident;
  ResponderRequest_Requester : User;
  ResponderRequest_RequestedAt : string;
  ResponderRequest_Message : string;
  ResponderRequest_Targets : ResponderRequestTargets;
}.
Global Instance ResponderRequest_zero : Zero ResponderRequest :=
  Build_ResponderRequest zero zero "" "" zero.

Record ResponderRequestResponse := {
  ResponderRequestResponse_ResponderRequest : ResponderRequest;
}.
Global Instance ResponderRequestResponse_zero : Zero ResponderRequestResponse :=
  Build_ResponderRequestResponse zero.

(** ** Errors and results *)

(** What an operation can return as its [error]: the gateway's errors
    (cancellation, transport and status failures, passed on unchanged), a
    decoding failure of [decodeJSON], or an error that incident.go itself
    makes with [fmt.Errorf]. *)
Inductive error :=
| Canceled
| DeadlineExceeded
| TransportError (msg : string)
| HTTPStatusError (code : N) (body : string)
| DecodeError (msg : string)
| Errorf (msg : string).

(** A Go result pair [(value, error)] with exactly one side set. *)
Inductive result (T : Type) :=
| Ok (value : T)
| Err (err : error).
Arguments Ok {T} value.
Arguments Err {T} err.

Definition andThen {A B} (r : result A) (k : A -> result B) : result B :=
  match r with
  | Ok a => k a
  | Err e => Err e
  end.

(** ** encoding/json: decoding into typed targets *)

(** [json.Unmarshal(document, &target)]: the target is updated in place, so
    the decoder takes the target's current value. *)
Class Unmarshal (T : Type) := unmarshal : json -> T -> result T.
Global Hint Mode Unmarshal ! : typeclass_instances.

Definition typeError {T} (what : string) : result T :=
  Err (DecodeError ("json: cannot unmarshal into Go value of type " +:+ what)).

Global Instance unmarshal_bool : Unmarshal bool := fun j b =>
  match j with
  | JBool b' => Ok b'
  | JNull => Ok b
  | _ => typeError "bool"
  end.

Global Instance unmarshal_string : Unmarshal string := fun j s =>
  match j with
  | JString s' => Ok s'
  | JNull => Ok s
  | _ => typeError "string"
  end.

(** A [uint] takes a number literal that is a sequence of digits below
    2^64. *)
Global Instance unmarshal_uint : Unmarshal N := fun j n =>
  match j with
  | JNumber literal =>
      match NilEmpty.uint_of_string literal with
      | Some d => if N.of_uint d <? 2 ^ 64 then Ok (N.of_uint d) else typeError "uint"
      | None => typeError "uint"
      end
  | JNull => Ok n
  | _ => typeError "uint"
  end.

(** A slice: element [i] of the array is decoded into element [i] of the
    slice when it has one, else into a zero value; [null] gives nil. *)
Fixpoint unmarshalElements {T} `{Zero T, Unmarshal T}
    (elements : list json) (old : list T) : result (list T) :=
  match elements with
  | [] => Ok []
  | j :: elements' =>
      andThen (unmarshal j (default zero (head old))) (fun x =>
      andThen (unmarshalElements elements' (tail old)) (fun xs => Ok (x :: xs)))
  end.

Global Instance unmarshal_slice {T} `{Zero T, Unmarshal T} : Unmarshal (list T) := fun j old =>
  match j with
  | JArray elements => unmarshalElements elements old
  | JNull => Ok []
  | _ => typeError "slice"
  end.

(** A pointer: [null] gives nil, anything else is decoded into the value
    pointed to (a new zero value when the pointer is nil). *)
Global Instance unmarshal_pointer {T} `{Zero T, Unmarshal T} : Unmarshal (option T) := fun j p =>
  match j with
  | JNull => Ok None
  | _ => andThen (unmarshal j (default zero p)) (fun x => Ok (Some x))
  end.

(** A [map[string]T]: every member of the object is decoded into a zero [T]
    and stored under its key, the entries already there are kept. *)
Fixpoint unmarshalEntries {T} `{Zero T, Unmarshal T}
    (members : list (string * json)) (m : gmap string T) : result (gmap string T) :=
  match members with
  | [] => Ok m
  | (key, j) :: members' =>
      andThen (unmarshal j zero) (fun x => unmarshalEntries members' (<[key := x]> m))
  end.

Global Instance unmarshal_map {T} `{Zero T, Unmarshal T} : Unmarshal (gmap string T) := fun j m =>
  match j with
  | JObject members => unmarshalEntries members m
  | JNull => Ok ∅
  | _ => typeError "map"
  end.

Definition toLower (c : ascii) : ascii :=
  if url.between "A" "Z" c then ascii_of_N (N_of_ascii c + 32) else c.

(** The case folding under which encoding/json matches an object key with a
    field name, for field names that are ASCII, as all names decoded here
    are: two keys name the same field when they are equal up to Unicode
    simple case folding, and the only runes that fold to an ASCII letter
    are the letter in its other case, U+017F (long s, the bytes 197 191)
    for [s] and U+212A (the Kelvin sign, the bytes 226 132 170) for [k].
    Every other byte is kept. *)
Fixpoint foldName (s : string) : string :=
  match s with
  | String "197" (String "191" s') => String "s" (foldName s')
  | String "226" (String "132" (String "170" s')) => String "k" (foldName s')
  | String c s' => String (toLower c) (foldName s')
  | EmptyString => EmptyString
  end.

(** A struct field as the decoder sees it: its JSON name and how a document
    is decoded into it. *)
Definition fieldDecoder (T : Type) : Type := string * (json -> T -> result T).

(** The field an object key goes to: the field with exactly that name, else
    the first whose name equals it up to case folding; a key that matches
    no field is skipped. *)
Definition findField {T} (fields : list (fieldDecoder T)) (key : string)
    : option (json -> T -> result T) :=
  match List.find (fun f => String.eqb f.1 key) fields with
  | Some f => Some f.2
  | None => snd <$> List.find (fun f => String.eqb (foldName f.1) (foldName key)) fields
  end.

Fixpoint unmarshalMembers {T} (fields : list (fieldDecoder T))
    (members : list (string * json)) (t : T) : result T :=
  match members with
  | [] => Ok t
  | (key, j) :: members' =>
      match findField fields key with
      | Some decode => andThen (decode j t) (unmarshalMembers fields members')
      | None => unmarshalMembers fields members' t
      end
  end.

(** A struct: the members of the object are taken in order, each decoded
    into the field it names; a field no member names keeps its value, and
    [null] leaves the struct as it is. *)
Definition unmarshalStruct {T} (fields : list (fieldDecoder T)) (name : string)
    (j : json) (t : T) : result T :=
  match j with
  | JObject members => unmarshalMembers fields members t
  | JNull => Ok t
  | _ => typeError name
  end.

(** A field decoder from the field's getter and setter. *)
Definition fieldOf {T F} `{Unmarshal F} (name : string) (get : T -> F) (set : F -> T -> T)
    : fieldDecoder T :=
  (name, fun j t => andThen (unmarshal j (get t)) (fun x => Ok (set x t))).

(** The promoted fields of the embedded pagination struct. *)
Definition paginationFields {T} (get : T -> APIListObject) (set : APIListObject -> T -> T)
    : list (fieldDecoder T) :=
  [ fieldOf "limit" (fun t => APIListObject_Limit (get t))
      (fun x t => let p := get t in
         set (Build_APIListObject x (APIListObject_Offset p) (APIListObject_More p) (APIListObject_Total p)) t);
    fieldOf "offset" (fun t => APIListObject_Offset (get t))
      (fun x t => let p := get t in
         set (Build_APIListObject (APIListObject_Limit p) x (APIListObject_More p) (APIListObject_Total p)) t);
    fieldOf "more" (fun t => APIListObject_More (get t))
      (fun x t => let p := get t in
         set (Build_APIListObject (APIListObject_Limit p) (APIListObject_Offset p) x (APIListObject_Total p)) t);
    fieldOf "total" (fun t => APIListObject_Total (get t))
      (fun x t => let p := get t in
         set (Build_APIListObject (APIListObject_Limit p) (APIListObject_Offset p) (APIListObject_More p) x) t) ].

(** The entities whose fields incident.go never reads are decoded by
    encoding/json from their own struct tags; their decoders are taken as
    given. The envelope structs of incident.go are decoded from the tags
    written there. *)
Section Envelopes.
Context {unmarshal_Incident : Unmarshal Incident}.
Context {unmarshal_IncidentNote : Unmarshal IncidentNote}.
Context {unmarshal_IncidentAlert : Unmarshal IncidentAlert}.
Context {unmarshal_LogEntry : Unmarshal LogEntry}.
Context {unmarshal_ResponderRequest : Unmarshal ResponderRequest}.

(** [Incident Incident `json:"incident"`] *)
Global Instance unmarshal_createIncidentResponse : Unmarshal createIncidentResponse :=
  unmarshalStruct
    [ fieldOf "incident" createIncidentResponse_Incident
        (fun x _ => Build_createIncidentResponse x) ]
    "createIncidentResponse".

(** [IncidentNote IncidentNote `json:"note"`] *)
Global Instance unmarshal_CreateIncidentNoteResponse : Unmarshal CreateIncidentNoteResponse :=
  unmarshalStruct
    [ fieldOf "note" CreateIncidentNoteResponse_IncidentNote
        (fun x _ => Build_CreateIncidentNoteResponse x) ]
    "CreateIncidentNoteResponse".

(** [ResponderRequest ResponderRequest `json:"responder_request"`] *)
Global Instance unmarshal_ResponderRequestResponse : Unmarshal ResponderRequestResponse :=
  unmarshalStruct
    [ fieldOf "responder_request" ResponderRequestResponse_ResponderRequest
        (fun x _ => Build_ResponderRequestResponse x) ]
    "ResponderRequestResponse".

(** [IncidentAlert *IncidentAlert `json:"alert,omitempty"`] *)
Global Instance unmarshal_IncidentAlertResponse : Unmarshal IncidentAlertResponse :=
  unmarshalStruct
    [ fieldOf "alert" IncidentAlertResponse_IncidentAlert
        (fun x _ => Build_IncidentAlertResponse x) ]
    "IncidentAlertResponse".

(** [APIListObject] and [Incidents []Incident `json:"incidents,omitempty"`] *)
Global Instance unmarshal_ListIncidentsResponse : Unmarshal ListIncidentsResponse :=
  unmarshalStruct
    (fieldOf "incidents" ListIncidentsResponse_Incidents
       (fun x t => Build_ListIncidentsResponse (ListIncidentsResponse_APIListObject t) x)
     :: paginationFields ListIncidentsResponse_APIListObject
          (fun p t => Build_ListIncidentsResponse p (ListIncidentsResponse_Incidents t)))
    "ListIncidentsResponse".

(** [APIListObject] and [Alerts []IncidentAlert `json:"alerts,omitempty"`] *)
Global Instance unmarshal_ListAlertsResponse : Unmarshal ListAlertsResponse :=
  unmarshalStruct
    (fieldOf "alerts" ListAlertsResponse_Alerts
       (fun x t => Build_ListAlertsResponse (ListAlertsResponse_APIListObject t) x)
     :: paginationFields ListAlertsResponse_APIListObject
          (fun p t => Build_ListAlertsResponse p (ListAlertsResponse_Alerts t)))
    "ListAlertsResponse".

(** [APIListObject] and [LogEntries []LogEntry `json:"log_entries,omitempty"`] *)
Global Instance unmarshal_ListIncidentLogEntriesResponse :
    Unmarshal ListIncidentLogEntriesResponse :=
  unmarshalStruct
    (fieldOf "log_entries" ListIncidentLogEntriesResponse_LogEntries
       (fun x t => Build_ListIncidentLogEntriesResponse
                     (ListIncidentLogEntriesResponse_APIListObject t) x)
     :: paginationFields ListIncidentLogEntriesResponse_APIListObject
          (fun p t => Build_ListIncidentLogEntriesResponse p
                        (ListIncidentLogEntriesResponse_LogEntries t)))
    "ListIncidentLogEntriesResponse".

End Envelopes.

(** ** The HTTP gateway *)

(** A [context.Context] as an operation sees it: which context it is, and
    what its [Err()] reports (nil, [Canceled] or [DeadlineExceeded]). *)
Record Context := {
  Context_name : string;
  Context_Err : option error;
}.

(** [context.Background()]: never cancelled, no deadline. *)
Definition Background : Context := {| Context_name := "background"; Context_Err := None |}.

Inductive Method := GET | POST | PUT.

(** The [interface{}] payloads that incident.go hands to [post] and [put],
    by their dynamic type. *)
Inductive Payload :=
| map_CreateIncidentOptions (d : gmap string (option CreateIncidentOptions))
| map_ManageIncidentsOptions (d : gmap string (list ManageIncidentsOptions))
| map_MergeIncidentsOptions (d : gmap string (list MergeIncidentsOptions))
| map_IncidentNote (d : gmap string IncidentNote)
| map_uint (d : gmap string N)
| struct_ResponderRequestOptions (o : ResponderRequestOptions)
| pointer_IncidentAlertList (alerts : option IncidentAlertList).

(** One call of a gateway verb with its arguments. [get] takes neither a
    payload nor headers; a nil header map has no entries. *)
Record Request := {
  Request_Method : Method;
  Request_Context : Context;
  Request_Path : string;
  Request_Payload : option Payload;
  Request_Headers : gmap string string;
}.

(** The [*http.Response] of a successful call; its body is a well-formed
    JSON document or it is not ([None]). *)
Record Response := {
  Response_StatusCode : N;
  Response_Body : option json;
}.

(** The keys of the JSON object a payload is marshalled to (encoding/json,
    from the map keys or the [json] struct tags), or [None] when it is not
    marshalled to an object: a map gives its keys, [ResponderRequestOptions]
    gives its three tagged fields ([From] is tagged [-]), a nil
    [*IncidentAlertList] gives [null], and [IncidentAlertList] leaves out an
    empty [alerts]. *)
Definition payloadKeys (p : Payload) : option (list string) :=
  match p with
  | map_CreateIncidentOptions d => Some (merge_sort String.le (map_to_list d).*1)
  | map_ManageIncidentsOptions d => Some (merge_sort String.le (map_to_list d).*1)
  | map_MergeIncidentsOptions d => Some (merge_sort String.le (map_to_list d).*1)
  | map_IncidentNote d => Some (merge_sort String.le (map_to_list d).*1)
  | map_uint d => Some (merge_sort String.le (map_to_list d).*1)
  | struct_ResponderRequestOptions _ =>
      Some ["message"; "requester_id"; "responder_request_targets"]
  | pointer_IncidentAlertList None => None
  | pointer_IncidentAlertList (Some l) =>
      Some (if (length (IncidentAlertList_Alerts l) =? 0)%nat then [] else ["alerts"])
  end.

(** A payload is wrapped under [key] when it is marshalled to an object
    with that key and no other. *)
Definition wrappedUnder (key : string) (p : Payload) : Prop :=
  payloadKeys p = Some [key].

Global Instance wrappedUnder_dec key p : Decision (wrappedUnder key p).
Proof. unfold wrappedUnder. apply _. Defined.

Section Client.

(** The gateway at work: what it answers to a call, given the calls made
    before it. Its verbs [get], [post] and [put] and its [decodeJSON] are
    declared outside incident.go. *)
Variable gateway : list Request -> Request -> result Response.

Context {unmarshal_Incident : Unmarshal Incident}.
Context {unmarshal_IncidentNote : Unmarshal IncidentNote}.
Context {unmarshal_IncidentAlert : Unmarshal IncidentAlert}.
Context {unmarshal_LogEntry : Unmarshal LogEntry}.
Context {unmarshal_ResponderRequest : Unmarshal ResponderRequest}.

(** A method of [*Client]: it runs against the calls made so far and
    returns its Go result together with the calls made by then. *)
Definition Client (T : Type) : Type := list Request -> result T * list Request.

Definition ret {T} (value : T) : Client T := fun calls => (Ok value, calls).

Definition fail {T} (err : error) : Client T := fun calls => (Err err, calls).

(** [x, err := m; if err != nil { return nil, err }; k x] *)
Definition bind {A B} (m : Client A) (k : A -> Client B) : Client B := fun calls =>
  match m calls with
  | (Ok a, calls') => k a calls'
  | (Err e, calls') => (Err e, calls')
  end.

Notation "x <- m ;; k" := (bind m (fun x => k))
  (at level 100, m at next level, right associativity).

Definition call (req : Request) : Client Response := fun calls =>
  (gateway calls req, calls ++ [req]).

(** [c.get(ctx, path)] *)
Definition c_get (ctx : Context) (path : string) : Client Response :=
  call {| Request_Method := GET; Request_Context := ctx; Request_Path := path;
          Request_Payload := None; Request_Headers := ∅ |}.

(** [c.post(ctx, path, payload, headers)] *)
Definition c_post (ctx : Context) (path : string) (payload : Payload)
    (headers : gmap string string) : Client Response :=
  call {| Request_Method := POST; Request_Context := ctx; Request_Path := path;
          Request_Payload := Some payload; Request_Headers := headers |}.

(** [c.put(ctx, path, payload, headers)] *)
Definition c_put (ctx : Context) (path : string) (payload : Payload)
    (headers : gmap string string) : Client Response :=
  call {| Request_Method := PUT; Request_Context := ctx; Request_Path := path;
          Request_Payload := Some payload; Request_Headers := headers |}.

(** Modelled from the spec: [c.decodeJSON(resp, &target)], declared outside
    incident.go, is the JSON (de)serialization collaborator: malformed JSON
    or a field-type mismatch is a decode error, else the document is decoded
    into the target by its type. *)
Definition decodeJSON {T} `{Unmarshal T} (resp : Response) (target : T) : Client T := fun calls =>
  match Response_Body resp with
  | None => (Err (DecodeError "invalid character"), calls)
  | Some document => (unmarshal document target, calls)
  end.

(** ** The operations of incident.go *)

Definition ListIncidentsWithContext (ctx : Context) (o : ListIncidentsOptions)
    : Client ListIncidentsResponse :=
  let v := query.ValuesListIncidentsOptions o in
  resp <- c_get ctx ("/incidents?" +:+ url.Encode v) ;;
  result <- decodeJSON resp (zero : ListIncidentsResponse) ;;
  ret result.

Definition ListIncidents (o : ListIncidentsOptions) : Client ListIncidentsResponse :=
  ListIncidentsWithContext Background o.

Definition CreateIncidentWithContext (ctx : Context) (from : string)
    (o : option CreateIncidentOptions) : Client Incident :=
  let h : gmap string string := {[ "From" := from ]} in
  let d : gmap string (option CreateIncidentOptions) := {[ "incident" := o ]} in
  resp <- c_post ctx "/incidents" (map_CreateIncidentOptions d) h ;;
  ii <- decodeJSON resp (zero : createIncidentResponse) ;;
  ret (createIncidentResponse_Incident ii).

Definition CreateIncident (from : string) (o : option CreateIncidentOptions) : Client Incident :=
  CreateIncidentWithContext Background from o.

Definition ManageIncidentsWithContext (ctx : Context) (from : string)
    (incidents : list ManageIncidentsOptions) : Client ListIncidentsResponse :=
  let d : gmap string (list ManageIncidentsOptions) := {[ "incidents" := incidents ]} in
  let h : gmap string string := {[ "From" := from ]} in
  resp <- c_put ctx "/incidents" (map_ManageIncidentsOptions d) h ;;
  result <- decodeJSON resp (zero : ListIncidentsResponse) ;;
  ret result.

Definition ManageIncidents (from : string) (incidents : list ManageIncidentsOptions)
    : Client ListIncidentsResponse :=
  ManageIncidentsWithContext Background from incidents.

Definition MergeIncidentsWithContext (ctx : Context) (from id : string)
    (sourceIncidents : list MergeIncidentsOptions) : Client Incident :=
  let d : gmap string (list MergeIncidentsOptions) := {[ "source_incidents" := sourceIncidents ]} in
  let h : gmap string string := {[ "From" := from ]} in
  resp <- c_put ctx ("/incidents/" +:+ id +:+ "/merge") (map_MergeIncidentsOptions d) h ;;
  result <- decodeJSON resp (zero : createIncidentResponse) ;;
  ret (createIncidentResponse_Incident result).

Definition MergeIncidents (from id : string) (sourceIncidents : list MergeIncidentsOptions)
    : Client Incident :=
  MergeIncidentsWithContext Background from id sourceIncidents.

Definition GetIncidentWithContext (ctx : Context) (id : string) : Client Incident :=
  resp <- c_get ctx ("/incidents/" +:+ id) ;;
  result <- decodeJSON resp (zero : gmap string Incident) ;;
  match result !! "incident" with
  | None => fail (Errorf "JSON response does not have incident field")
  | Some i => ret i
  end.

Definition GetIncident (id : string) : Client Incident :=
  GetIncidentWithContext Background id.

Definition ListIncidentNotesWithContext (ctx : Context) (id : string)
    : Client (list IncidentNote) :=
  resp <- c_get ctx ("/incidents/" +:+ id +:+ "/notes") ;;
  result <- decodeJSON resp (zero : gmap string (list IncidentNote)) ;;
  match result !! "notes" with
  | None => fail (Errorf "JSON response does not have notes field")
  | Some notes => ret notes
  end.

Definition ListIncidentNotes (id : string) : Client (list IncidentNote) :=
  ListIncidentNotesWithContext Background id.

Definition ListIncidentAlertsWithContext (ctx : Context) (id : string)
    (o : ListIncidentAlertsOptions) : Client ListAlertsResponse :=
  let v := query.ValuesListIncidentAlertsOptions o in
  resp <- c_get ctx ("/incidents/" +:+ id +:+ "/alerts?" +:+ url.Encode v) ;;
  result <- decodeJSON resp (zero : ListAlertsResponse) ;;
  ret result.

Definition ListIncidentAlerts (id : string) : Client ListAlertsResponse :=
  ListIncidentAlertsWithContext Background id
    {| ListIncidentAlertsOptions_APIListObject := zero;
       ListIncidentAlertsOptions_Statuses := zero;
       ListIncidentAlertsOptions_SortBy := zero;
       ListIncidentAlertsOptions_Includes := zero |}.

Definition ListIncidentAlertsWithOpts (id : string) (o : ListIncidentAlertsOptions)
    : Client ListAlertsResponse :=
  ListIncidentAlertsWithContext Background id o.

Definition CreateIncidentNoteWithContext (ctx : Context) (id : string) (note : IncidentNote)
    : Client IncidentNote :=
  let d : gmap string IncidentNote := {[ "note" := note ]} in
  let h : gmap string string := {[ "From" := APIObject_Summary (IncidentNote_User note) ]} in
  resp <- c_post ctx ("/incidents/" +:+ id +:+ "/notes") (map_IncidentNote d) h ;;
  result <- decodeJSON resp (zero : CreateIncidentNoteResponse) ;;
  ret (CreateIncidentNoteResponse_IncidentNote result).

Definition CreateIncidentNoteWithResponse (id : string) (note : IncidentNote)
    : Client IncidentNote :=
  CreateIncidentNoteWithContext Background id note.

(** Deprecated in the source; returns the error only. *)
Definition CreateIncidentNote (id : string) (note : IncidentNote) : Client unit :=
  let data : gmap string IncidentNote := ∅ in
  let headers : gmap string string := ∅ in
  let headers := <["From" := APIObject_Summary (IncidentNote_User note)]> headers in
  let data := <["note" := note]> data in
  _ <- c_post Background ("/incidents/" +:+ id +:+ "/notes") (map_IncidentNote data) headers ;;
  ret tt.

Definition SnoozeIncidentWithContext (ctx : Context) (id : string) (duration : N)
    : Client Incident :=
  let d : gmap string N := {[ "duration" := duration ]} in
  resp <- c_post ctx ("/incidents/" +:+ id +:+ "/snooze") (map_uint d) ∅ ;;
  result <- decodeJSON resp (zero : createIncidentResponse) ;;
  ret (createIncidentResponse_Incident result).

Definition SnoozeIncidentWithResponse (id : string) (duration : N) : Client Incident :=
  SnoozeIncidentWithContext Background id duration.

(** Deprecated in the source; returns the error only. *)
Definition SnoozeIncident (id : string) (duration : N) : Client unit :=
  let data : gmap string N := ∅ in
  let data := <["duration" := duration]> data in
  _ <- c_post Background ("/incidents/" +:+ id +:+ "/snooze") (map_uint data) ∅ ;;
  ret tt.

Definition ListIncidentLogEntriesWithContext (ctx : Context) (id : string)
    (o : ListIncidentLogEntriesOptions) : Client ListIncidentLogEntriesResponse :=
  let v := query.ValuesListIncidentLogEntriesOptions o in
  resp <- c_get ctx ("/incidents/" +:+ id +:+ "/log_entries?" +:+ url.Encode v) ;;
  result <- decodeJSON resp (zero : ListIncidentLogEntriesResponse) ;;
  ret result.

Definition ListIncidentLogEntries (id : string) (o : ListIncidentLogEntriesOptions)
    : Client ListIncidentLogEntriesResponse :=
  ListIncidentLogEntriesWithContext Background id o.

Definition ResponderRequestWithContext (ctx : Context) (id : string)
    (o : ResponderRequestOptions) : Client ResponderRequestResponse :=
  let h : gmap string string := {[ "From" := ResponderRequestOptions_From o ]} in
  resp <- c_post ctx ("/incidents/" +:+ id +:+ "/responder_requests")
            (struct_ResponderRequestOptions o) h ;;
  result <- decodeJSON resp (zero : ResponderRequestResponse) ;;
  ret result.

Definition ResponderRequest_ (id : string) (o : ResponderRequestOptions)
    : Client ResponderRequestResponse :=
  ResponderRequestWithContext Background id o.

Definition getIncidentAlertWithContext (ctx : Context) (incidentID alertID : string)
    : Client (IncidentAlertResponse * Response) :=
  resp <- c_get ctx ("/incidents/" +:+ incidentID +:+ "/alerts/" +:+ alertID) ;;
  result <- decodeJSON resp (zero : IncidentAlertResponse) ;;
  ret (result, resp).

Definition GetIncidentAlert (incidentID alertID : string)
    : Client (IncidentAlertResponse * Response) :=
  getIncidentAlertWithContext Background incidentID alertID.

(** The context handed on is [context.Background()], not [ctx]. *)
Definition GetIncidentAlertWithContext (ctx : Context) (incidentID alertID : string)
    : Client IncidentAlertResponse :=
  iar <- getIncidentAlertWithContext Background incidentID alertID ;;
  ret iar.1.

Definition manageIncidentAlertsWithContext (ctx : Context) (incidentID : string)
    (alerts : option IncidentAlertList) : Client (ListAlertsResponse * Response) :=
  resp <- c_put ctx ("/incidents/" +:+ incidentID +:+ "/alerts/")
            (pointer_IncidentAlertList alerts) ∅ ;;
  result <- decodeJSON resp (zero : ListAlertsResponse) ;;
  ret (result, resp).

Definition ManageIncidentAlerts (incidentID : string) (alerts : option IncidentAlertList)
    : Client (ListAlertsResponse * Response) :=
  manageIncidentAlertsWithContext Background incidentID alerts.

(** The context handed on is [context.Background()], not [ctx]. *)
Definition ManageIncidentAlertsWithContext (ctx : Context) (incidentID : string)
    (alerts : option IncidentAlertList) : Client ListAlertsResponse :=
  lar <- manageIncidentAlertsWithContext Background incidentID alerts ;;
  ret lar.1.

End Client.

(** ** The query string as a sequence of settings *)

(** One [key=value] setting as [Encode] writes it. *)
Definition setting (kv : string * string) : string :=
  url.QueryEscape kv.1 +:+ "=" +:+ url.QueryEscape kv.2.

Fixpoint joinSettings (settings : list string) : string :=
  match settings with
  | [] => ""
  | [s] => s
  | s :: rest => s +:+ "&" +:+ joinSettings rest
  end.

(** The pairs of a [Values], key by key in the given order, each key's
    values in their order. *)
Definition pairsOf (keys : list string) (v : url.Values) : list (string * string) :=
  k ← keys; pair k <$> default [] (v !! k).

(** The values that a sequence of pairs gives a key, in order. *)
Definition valuesFor (key : string) (pairs : list (string * string)) : list string :=
  (filter (fun kv => kv.1 = key) pairs).*2.

(** No key of a [Values] built by [Add] has an empty list of values. *)
Definition populated (v : url.Values) : Prop :=
  forall k xs, v !! k = Some xs -> xs <> [].

(** [Encode]'s two loops as one loop over the pairs. *)
Definition writeAll (buf : string) (pairs : list (string * string)) : string :=
  foldl (fun buf kv => url.writePair (url.QueryEscape kv.1) buf kv.2) buf pairs.

(** What [writePair] puts before a setting. *)
Definition sepPrefix (buf : string) : string :=
  if String.eqb buf "" then "" else buf +:+ "&".

(** [ParseQuery]'s collecting loop. *)
Definition addAll (m : url.Values) (pairs : list (string * string)) : url.Values :=
  foldl (fun m kv => url.Add kv.1 kv.2 m) m pairs.

(** ** Reading a filter set back from query values

    incident.go only encodes; this is the decoding direction that the
    round-trip property of the specification speaks of: every field is read
    back from the key of its [url] tag, an absent key giving the zero
    value. *)

Definition getUint (key : string) (v : url.Values) : option N :=
  match v !! key with
  | None => Some 0
  | Some _ => strconv.ParseUint (url.Get key v)
  end.

Definition getBool (key : string) (v : url.Values) : option bool :=
  match v !! key with
  | None => Some false
  | Some _ => strconv.ParseBool (url.Get key v)
  end.

Definition getStrings (key : string) (v : url.Values) : list string :=
  default [] (v !! key).

Definition decodeAPIListObject (v : url.Values) : option APIListObject :=
  limit ← getUint "limit" v;
  offset ← getUint "offset" v;
  more ← getBool "more" v;
  total ← getUint "total" v;
  Some (Build_APIListObject limit offset more total).

Definition decodeListIncidentsOptions (v : url.Values) : option ListIncidentsOptions :=
  p ← decodeAPIListObject v;
  Some {| ListIncidentsOptions_APIListObject := p;
          ListIncidentsOptions_Since := url.Get "since" v;
          ListIncidentsOptions_Until := url.Get "until" v;
          ListIncidentsOptions_DateRange := url.Get "date_range" v;
          ListIncidentsOptions_Statuses := getStrings "statuses[]" v;
          ListIncidentsOptions_IncidentKey := url.Get "incident_key" v;
          ListIncidentsOptions_ServiceIDs := getStrings "service_ids[]" v;
          ListIncidentsOptions_TeamIDs := getStrings "team_ids[]" v;
          ListIncidentsOptions_UserIDs := getStrings "user_ids[]" v;
          ListIncidentsOptions_Urgencies := getStrings "urgencies[]" v;
          ListIncidentsOptions_TimeZone := url.Get "time_zone" v;
          ListIncidentsOptions_SortBy := url.Get "sort_by" v;
          ListIncidentsOptions_Includes := getStrings "include[]" v |}.

(** A [uint] is below 2^64. *)
Definition uintRange (p : APIListObject) : Prop :=
  APIListObject_Limit p < 2 ^ 64 /\ APIListObject_Offset p < 2 ^ 64
  /\ APIListObject_Total p < 2 ^ 64.

(** The sequence-valued filters of [ListIncidentsOptions], each with the
    name of its [url] tag. *)
Definition sequenceFilters (o : ListIncidentsOptions) : list (string * list string) :=
  [ ("statuses", ListIncidentsOptions_Statuses o);
    ("service_ids", ListIncidentsOptions_ServiceIDs o);
    ("team_ids", ListIncidentsOptions_TeamIDs o);
    ("user_ids", ListIncidentsOptions_UserIDs o);
    ("urgencies", ListIncidentsOptions_Urgencies o);
    ("include", ListIncidentsOptions_Includes o) ].

(** ** The path scheme *)

(** Modelled from the spec: the four shapes of a request path that the path
    builder of the specification produces; incident.go writes its paths out
    by hand. *)
Definition collectionPath (resource : string) : string :=
  "/" +:+ resource.

Definition itemPath (resource id : string) : string :=
  "/" +:+ resource +:+ "/" +:+ id.

Definition subCollectionPath (resource id subresource : string) : string :=
  "/" +:+ resource +:+ "/" +:+ id +:+ "/" +:+ subresource.

Definition subItemPath (resource id subresource subId : string) : string :=
  "/" +:+ resource +:+ "/" +:+ id +:+ "/" +:+ subresource +:+ "/" +:+ subId.

(** ** Worked examples: a service and decoders to run the operations on *)

(** Decoders for the examples: an incident takes its [id], [title] and
    [status], a note its [id] and [content]; the other entities take any
    object and keep their value. *)
Definition sampleIncident : Unmarshal Incident :=
  unmarshalStruct
    [ fieldOf "id" Incident_Id
        (fun x i => let '(Build_Incident a b c d e f g h k l m n o p q r s t _ v w y z aa) := i in
                    Build_Incident a b c d e f g h k l m n o p q r s t x v w y z aa);
      fieldOf "title" Incident_Title
        (fun x i => let '(Build_Incident a b _ d e f g h k l m n o p q r s t u v w y z aa) := i in
                    Build_Incident a b x d e f g h k l m n o p q r s t u v w y z aa);
      fieldOf "status" Incident_Status
        (fun x i => let '(Build_Incident a b c d e f g h k l m n o p q r s _ u v w y z aa) := i in
                    Build_Incident a b c d e f g h k l m n o p q r s x u v w y z aa) ]
    "Incident".

Definition sampleIncidentNote : Unmarshal IncidentNote :=
  unmarshalStruct
    [ fieldOf "id" IncidentNote_ID
        (fun x n => Build_IncidentNote x (IncidentNote_User n) (IncidentNote_Content n)
                      (IncidentNote_CreatedAt n));
      fieldOf "content" IncidentNote_Content
        (fun x n => Build_IncidentNote (IncidentNote_ID n) (IncidentNote_User n) x
                      (IncidentNote_CreatedAt n)) ]
    "IncidentNote".

Definition sampleIncidentAlert : Unmarshal IncidentAlert := unmarshalStruct [] "IncidentAlert".

Definition sampleLogEntry : Unmarshal LogEntry := fun j _ => Ok (Build_LogEntry j).

Definition sampleResponderRequest : Unmarshal ResponderRequest :=
  unmarshalStruct [] "ResponderRequest".

(** A gateway that honours the context: a call under a context that is done
    fails with the context's error, any other call gets [answer]. *)
Definition honouring (answer : Request -> result Response)
    (calls : list Request) (req : Request) : result Response :=
  match Context_Err (Request_Context req) with
  | Some err => Err err
  | None => answer req
  end.

(** A service that answers every request with status 200 and [document]. *)
Definition answering (document : json) : Request -> result Response :=
  fun _ => Ok {| Response_StatusCode := 200; Response_Body := Some document |}.

Definition cancelled : Context :=
  {| Context_name := "request"; Context_Err := Some Canceled |}.

Global Instance ListIncidentsOptions_zero : Zero ListIncidentsOptions :=
  Build_ListIncidentsOptions zero zero zero zero zero zero zero zero zero zero zero zero zero.
Global Instance ListIncidentAlertsOptions_zero : Zero ListIncidentAlertsOptions :=
  Build_ListIncidentAlertsOptions zero zero zero zero.
Global Instance ListIncidentLogEntriesOptions_zero : Zero ListIncidentLogEntriesOptions :=
  Build_ListIncidentLogEntriesOptions zero zero zero zero zero zero.

(** The call of [c.get]. *)
Definition getCall (ctx : Context) (path : string) : Request :=
  {| Request_Method := GET; Request_Context := ctx; Request_Path := path;
     Request_Payload := None; Request_Headers := ∅ |}.

(** The call of [c.post] and [c.put]. *)
Definition writeCall (method : Method) (ctx : Context) (path : string) (payload : Payload)
    (headers : gmap string string) : Request :=
  {| Request_Method := method; Request_Context := ctx; Request_Path := path;
     Request_Payload := Some payload; Request_Headers := headers |}.

(** Options for the examples: three statuses, one service, a page size. *)
Definition sampleOptions : ListIncidentsOptions :=
  {| ListIncidentsOptions_APIListObject := Build_APIListObject 25 0 false 0;
     ListIncidentsOptions_Since := "2020-01-01T00:00:00Z";
     ListIncidentsOptions_Until := "";
     ListIncidentsOptions_DateRange := "";
     ListIncidentsOptions_Statuses := ["triggered"; "acknowledged"; "resolved"];
     ListIncidentsOptions_IncidentKey := "";
     ListIncidentsOptions_ServiceIDs := ["PIJ90N7"];
     ListIncidentsOptions_TeamIDs := [];
     ListIncidentsOptions_UserIDs := [];
     ListIncidentsOptions_Urgencies := [];
     ListIncidentsOptions_TimeZone := "";
     ListIncidentsOptions_SortBy := "created_at:desc";
     ListIncidentsOptions_Includes := [] |}.

(** ** All fields at their zero value *)

Definition isZeroAPIListObject (p : APIListObject) : bool :=
  (APIListObject_Limit p =? 0) && (APIListObject_Offset p =? 0)
  && negb (APIListObject_More p) && (APIListObject_Total p =? 0).

Definition isEmpty (l : list string) : bool := (length l =? 0)%nat.

Definition isZeroListIncidentsOptions (o : ListIncidentsOptions) : bool :=
  isZeroAPIListObject (ListIncidentsOptions_APIListObject o)
  && String.eqb (ListIncidentsOptions_Since o) ""
  && String.eqb (ListIncidentsOptions_Until o) ""
  && String.eqb (ListIncidentsOptions_DateRange o) ""
  && isEmpty (ListIncidentsOptions_Statuses o)
  && String.eqb (ListIncidentsOptions_IncidentKey o) ""
  && isEmpty (ListIncidentsOptions_ServiceIDs o)
  && isEmpty (ListIncidentsOptions_TeamIDs o)
  && isEmpty (ListIncidentsOptions_UserIDs o)
  && isEmpty (ListIncidentsOptions_Urgencies o)
  && String.eqb (ListIncidentsOptions_TimeZone o) ""
  && String.eqb (ListIncidentsOptions_SortBy o) ""
  && isEmpty (ListIncidentsOptions_Includes o).

Definition isZeroListIncidentAlertsOptions (o : ListIncidentAlertsOptions) : bool :=
  isZeroAPIListObject (ListIncidentAlertsOptions_APIListObject o)
  && isEmpty (ListIncidentAlertsOptions_Statuses o)
  && String.eqb (ListIncidentAlertsOptions_SortBy o) ""
  && isEmpty (ListIncidentAlertsOptions_Includes o).

Definition isZeroListIncidentLogEntriesOptions (o : ListIncidentLogEntriesOptions) : bool :=
  isZeroAPIListObject (ListIncidentLogEntriesOptions_APIListObject o)
  && isEmpty (ListIncidentLogEntriesOptions_Includes o)
  && negb (ListIncidentLogEntriesOptions_IsOverview o)
  && String.eqb (ListIncidentLogEntriesOptions_TimeZone o) ""
  && String.eqb (ListIncidentLogEntriesOptions_Since o) ""
  && String.eqb (ListIncidentLogEntriesOptions_Until o) "".

(** The query values of one of the three list-options structs. *)
Inductive queryValues : url.Values -> Prop :=
| queryValues_incidents (o : ListIncidentsOptions) :
    queryValues (query.ValuesListIncidentsOptions o)
| queryValues_alerts (o : ListIncidentAlertsOptions) :
    queryValues (query.ValuesListIncidentAlertsOptions o)
| queryValues_log_entries (o : ListIncidentLogEntriesOptions) :
    queryValues (query.ValuesListIncidentLogEntriesOptions o).

(** Payloads for the examples. *)
Definition sampleCreateOptions : CreateIncidentOptions :=
  {| CreateIncidentOptions_Type := "incident";
     CreateIncidentOptions_Title := "db down";
     CreateIncidentOptions_Service := Some (Build_APIReference "PIJ90N7" "service_reference");
     CreateIncidentOptions_Priority := None;
     CreateIncidentOptions_Urgency := "";
     CreateIncidentOptions_IncidentKey := "";
     CreateIncidentOptions_Body := None;
     CreateIncidentOptions_EscalationPolicy := None;
     CreateIncidentOptions_Assignments := [] |}.

Definition sampleResponderRequestOptions : ResponderRequestOptions :=
  {| ResponderRequestOptions_From := "ops@example.com";
     ResponderRequestOptions_Message := "please join";
     ResponderRequestOptions_RequesterID := "PUSER01";
     ResponderRequestOptions_Targets := [] |}.

(** The path of the call an operation makes, when it makes exactly one. *)
Definition pathOf {T} (m : Client T) (calls : list Request) : option string :=
  match drop (length calls) (m calls).2 with
  | [req] => Some (Request_Path req)
  | _ => None
  end.

(** The service of the examples: it honours the context and answers every
    request with the empty object. *)
Definition emptyObjectService : list Request -> Request -> result Response :=
  honouring (answering (JObject [])).

(** The incident [Q1] of the examples, acknowledged. *)
Definition incidentQ1 : Incident :=
  let '(Build_Incident a b c d e f g h k l m n o p q r s t _ v w y z aa) := zero in
  Build_Incident a b c d e f g h k l m n o p q r s "acknowledged" "Q1" v w y z aa.

Definition sampleManageOptions : ManageIncidentsOptions :=
  {| ManageIncidentsOptions_ID := "Q1";
     ManageIncidentsOptions_Type := "incident_reference";
     ManageIncidentsOptions_Status := "acknowledged";
     ManageIncidentsOptions_Priority := None;
     ManageIncidentsOptions_Assignments := [];
     ManageIncidentsOptions_Resolution := "" |}.

(** The contexts under which an operation calls the gateway. *)
Definition contextsOf {T} (m : Client T) (calls : list Request) : list Context :=
  Request_Context <$> drop (length calls) (m calls).2.

(** The incident [Q1] in its singular envelope. *)
Definition incidentEnvelope : json :=
  JObject [("incident", JObject [("id", JString "Q1"); ("status", JString "acknowledged")])].

Definition sampleNote : IncidentNote :=
  {| IncidentNote_ID := "";
     IncidentNote_User := Build_APIObject "PUSER01" "user_reference" "ops@example.com" "" "";
     IncidentNote_Content := "restarted the primary";
     IncidentNote_CreatedAt := "" |}.

(** ** Reading the other list options back, and what a query is made of *)

Definition decodeListIncidentAlertsOptions (v : url.Values) : option ListIncidentAlertsOptions :=
  p ← decodeAPIListObject v;
  Some {| ListIncidentAlertsOptions_APIListObject := p;
          ListIncidentAlertsOptions_Statuses := getStrings "statuses[]" v;
          ListIncidentAlertsOptions_SortBy := url.Get "sort_by" v;
          ListIncidentAlertsOptions_Includes := getStrings "include[]" v |}.

Definition decodeListIncidentLogEntriesOptions (v : url.Values)
    : option ListIncidentLogEntriesOptions :=
  p ← decodeAPIListObject v;
  overview ← getBool "is_overview" v;
  Some {| ListIncidentLogEntriesOptions_APIListObject := p;
          ListIncidentLogEntriesOptions_Includes := getStrings "include[]" v;
          ListIncidentLogEntriesOptions_IsOverview := overview;
          ListIncidentLogEntriesOptions_TimeZone := url.Get "time_zone" v;
          ListIncidentLogEntriesOptions_Since := url.Get "since" v;
          ListIncidentLogEntriesOptions_Until := url.Get "until" v |}.

(** The string-valued filters of [ListIncidentsOptions], each with the name
    of its [url] tag. *)
Definition scalarFilters (o : ListIncidentsOptions) : list (string * string) :=
  [ ("since", ListIncidentsOptions_Since o);
    ("until", ListIncidentsOptions_Until o);
    ("date_range", ListIncidentsOptions_DateRange o);
    ("incident_key", ListIncidentsOptions_IncidentKey o);
    ("time_zone", ListIncidentsOptions_TimeZone o);
    ("sort_by", ListIncidentsOptions_SortBy o) ].

(** Its pagination numbers. *)
Definition pageNumbers (o : ListIncidentsOptions) : list (string * N) :=
  [ ("limit", APIListObject_Limit (ListIncidentsOptions_APIListObject o));
    ("offset", APIListObject_Offset (ListIncidentsOptions_APIListObject o));
    ("total", APIListObject_Total (ListIncidentsOptions_APIListObject o)) ].

(** The keys that the [url] tags of [ListIncidentsOptions] and of the
    embedded pagination struct give rise to. *)
Definition queryKeys : list string :=
  [ "since"; "until"; "date_range"; "statuses[]"; "incident_key"; "service_ids[]";
    "team_ids[]"; "user_ids[]"; "urgencies[]"; "time_zone"; "sort_by"; "include[]";
    "limit"; "offset"; "more"; "total" ].

Fixpoint allBytes (P : ascii -> bool) (s : string) : bool :=
  match s with
  | EmptyString => true
  | String c s' => P c && allBytes P s'
  end.

(** The bytes a query string may hold without changing the meaning of the
    URL around it: the unreserved bytes, the escapes [%] and [+], and the
    separators [=] and [&]. *)
Definition querySafe (c : ascii) : bool :=
  negb (url.shouldEscape c)
  || Ascii.eqb c "%" || Ascii.eqb c "+" || Ascii.eqb c "=" || Ascii.eqb c "&".

(** The calls an operation makes. *)
Definition callsOf {T} (m : Client T) (calls : list Request) : list Request :=
  drop (length calls) (m calls).2.

(** A gateway whose answers are not JSON. *)
Definition garbled : list Request -> Request -> result Response :=
  fun _ _ => Ok {| Response_StatusCode := 200; Response_Body := None |}.

(** Options and answers for the examples. *)
Definition sampleAlertsOptions : ListIncidentAlertsOptions :=
  {| ListIncidentAlertsOptions_APIListObject := Build_APIListObject 10 20 false 0;
     ListIncidentAlertsOptions_Statuses := ["triggered"; "resolved"];
     ListIncidentAlertsOptions_SortBy := "created_at:asc";
     ListIncidentAlertsOptions_Includes := ["services"] |}.

Definition sampleLogEntriesOptions : ListIncidentLogEntriesOptions :=
  {| ListIncidentLogEntriesOptions_APIListObject := Build_APIListObject 0 0 false 0;
     ListIncidentLogEntriesOptions_Includes := ["channels"];
     ListIncidentLogEntriesOptions_IsOverview := true;
     ListIncidentLogEntriesOptions_TimeZone := "Europe/Paris";
     ListIncidentLogEntriesOptions_Since := "";
     ListIncidentLogEntriesOptions_Until := "" |}.

(** An answer that holds the incident [Q1] and, beside it, a member that is
    no incident. *)
Definition incidentAndMessage : json :=
  JObject [("incident", JObject [("id", JString "Q1"); ("status", JString "acknowledged")]);
           ("message", JString "ok")].

(** An answer with pagination only. *)
Definition pageWithoutItems : json :=
  JObject [("limit", JNumber "25"); ("more", JBool true)].

Definition noteN1 : IncidentNote :=
  Build_IncidentNote "N1" zero "restarted the primary" "".

Definition noteEnvelope : json :=
  JObject [("note", JObject [("id", JString "N1");
                             ("content", JString "restarted the primary")])].

(** What the gateway answers to the call an operation makes from [calls],
    when the operation makes exactly one call. *)
Definition answerOf {T} (gateway : list Request -> Request -> result Response)
    (m : Client T) (calls : list Request) : option (result Response) :=
  match callsOf m calls with
  | [req] => Some (gateway calls req)
  | _ => None
  end.

(** A service that answers by path: status 200 and the document of the
    first route with the path of the request, status 404 for a path with
    no route. *)
Definition routed (routes : list (string * json)) : list Request -> Request -> result Response :=
  fun _ req =>
    match List.find (fun route => String.eqb route.1 (Request_Path req)) routes with
    | Some route => Ok {| Response_StatusCode := 200; Response_Body := Some route.2 |}
    | None => Err (HTTPStatusError 404 "Not Found")
    end.

(** The answer of the bulk update in the specification's own shape, with
    the incident [Q1]. *)
Definition bulkUpdateAnswer : json :=
  JObject [("incidents",
            JArray [JObject [("id", JString "Q1"); ("status", JString "acknowledged")]]);
           ("offset", JNumber "0"); ("limit", JNumber "25"); ("more", JBool false)].

(** A service with the one incident [Q1]: it answers the calls on the
    collection, on the incident, a merge, a snooze and the creation of a
    note, each by its path, and knows no other path. *)
Definition incidentService : list Request -> Request -> result Response :=
  routed [("/incidents", bulkUpdateAnswer);
          ("/incidents/Q1", incidentEnvelope);
          ("/incidents/Q1/merge", incidentEnvelope);
          ("/incidents/Q1/snooze", incidentEnvelope);
          ("/incidents/Q1/notes", noteEnvelope)].

(** The UTF-8 encodings of U+017F (long s) and of U+212A (the Kelvin
    sign). *)
Definition longS : string := String "197" (String "191" "").
Definition kelvinSign : string := String "226" (String "132" (String "170" "")).

(** * Properties *)

(** ** Strings: appending, cutting and splitting *)

Lemma append_cons (c : ascii) (s t : string) : String c s +:+ t = String c (s +:+ t).
Proof. reflexivity. Qed.

Lemma append_nil_l (s : string) : "" +:+ s = s.
Proof. reflexivity. Qed.

Lemma append_nil_r (s : string) : s +:+ "" = s.
Proof. induction s as [|c s IH]; [done|]. by rewrite append_cons, IH. Qed.

Lemma append_assoc (s1 s2 s3 : string) : (s1 +:+ s2) +:+ s3 = s1 +:+ (s2 +:+ s3).
Proof. induction s1 as [|c s1 IH]; [done|]. by rewrite !append_cons, IH. Qed.

Lemma Contains_append (s1 s2 : string) (c : ascii) :
  url.Contains (s1 +:+ s2) c = url.Contains s1 c || url.Contains s2 c.
Proof.
  induction s1 as [|c1 s1 IH]; [done|]. rewrite append_cons. cbn. rewrite IH. by rewrite orb_assoc.
Qed.

Lemma Cut_append (sep : ascii) (s rest : string) :
  url.Contains s sep = false ->
  url.Cut sep (s +:+ String sep rest) = (s, rest).
Proof.
  induction s as [|c s IH]; rewrite ?append_cons, ?append_nil_l; cbn; intros Hs.
  - by rewrite Ascii.eqb_refl.
  - apply orb_false_iff in Hs as [Hc Hs]. rewrite Hc, (IH Hs). done.
Qed.

Lemma Split_absent (sep : ascii) (s : string) :
  url.Contains s sep = false -> url.Split sep s = [s].
Proof.
  induction s as [|c s IH]; cbn; intros Hs; [done|].
  apply orb_false_iff in Hs as [Hc Hs]. by rewrite Hc, (IH Hs).
Qed.

Lemma Split_append (sep : ascii) (s rest : string) :
  url.Contains s sep = false ->
  url.Split sep (s +:+ String sep rest) = s :: url.Split sep rest.
Proof.
  induction s as [|c s IH]; rewrite ?append_cons, ?append_nil_l; cbn; intros Hs.
  - by rewrite Ascii.eqb_refl.
  - apply orb_false_iff in Hs as [Hc Hs]. by rewrite Hc, (IH Hs).
Qed.

(** ** Escaping *)

Ltac each_byte c := destruct c as [[] [] [] [] [] [] [] []].

Lemma escapeByte_separators (c sep : ascii) :
  sep = "&"%char \/ sep = "="%char \/ sep = ";"%char ->
  url.Contains (url.escapeByte c) sep = false.
Proof. intros [-> | [-> | ->]]; each_byte c; reflexivity. Qed.

Lemma QueryEscape_separators (s : string) (sep : ascii) :
  sep = "&"%char \/ sep = "="%char \/ sep = ";"%char ->
  url.Contains (url.QueryEscape s) sep = false.
Proof.
  intros Hsep. induction s as [|c s IH]; [done|]. cbn.
  by rewrite Contains_append, IH, escapeByte_separators.
Qed.

Lemma QueryUnescape_escapeByte (c : ascii) (rest : string) :
  url.QueryUnescape (url.escapeByte c +:+ rest) = String c <$> url.QueryUnescape rest.
Proof. each_byte c; reflexivity. Qed.

Lemma QueryUnescape_QueryEscape (s : string) :
  url.QueryUnescape (url.QueryEscape s) = Some s.
Proof.
  induction s as [|c s IH]; [done|]. cbn.
  by rewrite QueryUnescape_escapeByte, IH.
Qed.

(** ** Encoding writes the settings joined by ampersands *)

Lemma writePair_setting (k x buf : string) :
  url.writePair (url.QueryEscape k) buf x = sepPrefix buf +:+ setting (k, x).
Proof.
  unfold url.writePair, sepPrefix, setting. cbn [fst snd].
  destruct (String.eqb_spec buf "") as [->|]; [done|].
  by rewrite !append_assoc.
Qed.

Lemma append_empty (s t : string) : s +:+ t = "" -> s = "" /\ t = "".
Proof. destruct s; [done|]. rewrite append_cons. done. Qed.

Lemma setting_nonempty (kv : string * string) : setting kv <> "".
Proof.
  unfold setting. intros H. apply append_empty in H as [_ H]. discriminate H.
Qed.

Lemma sepPrefix_nonempty (buf : string) : buf <> "" -> sepPrefix buf = buf +:+ "&".
Proof. unfold sepPrefix. by destruct (String.eqb_spec buf ""). Qed.

Lemma writeAll_cons buf kv pairs :
  writeAll buf (kv :: pairs) = writeAll (sepPrefix buf +:+ setting kv) pairs.
Proof. unfold writeAll. cbn [foldl]. destruct kv. by rewrite writePair_setting. Qed.

Lemma writeAll_join (pairs : list (string * string)) (buf : string) :
  pairs <> [] ->
  writeAll buf pairs = sepPrefix buf +:+ joinSettings (setting <$> pairs).
Proof.
  revert buf. induction pairs as [|kv [|kv' pairs] IH]; intros buf Hne; [done| |].
  - by rewrite writeAll_cons.
  - rewrite writeAll_cons, IH by done.
    rewrite sepPrefix_nonempty.
    + change (joinSettings (setting <$> kv :: kv' :: pairs))
        with (setting kv +:+ "&" +:+ joinSettings (setting <$> kv' :: pairs)).
      by rewrite !append_assoc.
    + intros H. apply append_empty in H as [_ H]. by apply setting_nonempty in H.
Qed.

Lemma writeAll_fmap (k : string) (xs : list string) (buf : string) :
  writeAll buf (pair k <$> xs) = foldl (url.writePair (url.QueryEscape k)) buf xs.
Proof. revert buf. induction xs as [|x xs IH]; intros buf; [done|]. cbn. apply IH. Qed.

Lemma writeAll_pairsOf (keys : list string) (v : url.Values) (buf : string) :
  foldl (fun buf k => foldl (url.writePair (url.QueryEscape k)) buf (default [] (v !! k)))
        buf keys
  = writeAll buf (pairsOf keys v).
Proof.
  revert buf. induction keys as [|k keys IH]; intros buf; [done|].
  cbn [foldl]. rewrite IH. unfold pairsOf. rewrite bind_cons.
  unfold writeAll at 2. rewrite foldl_app. fold (writeAll buf (pair k <$> default [] (v !! k))).
  by rewrite writeAll_fmap.
Qed.

Lemma EncodeRange_join (ranged : list string) (v : url.Values) :
  url.EncodeRange ranged v
  = joinSettings (setting <$> pairsOf (merge_sort String.le ranged) v).
Proof.
  unfold url.EncodeRange. rewrite writeAll_pairsOf.
  destruct (pairsOf _ v) as [|kv pairs] eqn:E; [done|].
  by rewrite writeAll_join.
Qed.

(** ** Parsing gives the settings back *)

Lemma setting_separators (kv : string * string) (sep : ascii) :
  sep = "&"%char \/ sep = ";"%char -> url.Contains (setting kv) sep = false.
Proof.
  intros Hsep. unfold setting. rewrite !Contains_append.
  rewrite !QueryEscape_separators by tauto.
  destruct Hsep as [-> | ->]; reflexivity.
Qed.

Lemma Split_joinSettings (pairs : list (string * string)) :
  pairs <> [] ->
  url.Split "&" (joinSettings (setting <$> pairs)) = setting <$> pairs.
Proof.
  induction pairs as [|kv [|kv' pairs] IH]; intros Hne; [done| |].
  - cbn. apply Split_absent, setting_separators. tauto.
  - change (joinSettings (setting <$> kv :: kv' :: pairs))
      with (setting kv +:+ String "&" (joinSettings (setting <$> kv' :: pairs))).
    rewrite Split_append by (apply setting_separators; tauto).
    rewrite IH by done. done.
Qed.

Lemma parseSetting_setting (kv : string * string) :
  url.parseSetting (setting kv) = Some kv.
Proof.
  unfold url.parseSetting. rewrite setting_separators by tauto.
  unfold setting. destruct kv as [k x]. cbn [fst snd].
  change ("=" +:+ url.QueryEscape x) with (String "=" (url.QueryEscape x)).
  rewrite Cut_append by (apply QueryEscape_separators; tauto).
  by rewrite !QueryUnescape_QueryEscape.
Qed.

Lemma filter_settings (pairs : list (string * string)) :
  filter (fun s => s <> EmptyString) (setting <$> pairs) = setting <$> pairs.
Proof.
  induction pairs as [|kv pairs IH]; [done|].
  rewrite fmap_cons, filter_cons_True by apply setting_nonempty. by rewrite IH.
Qed.

Lemma mapM_parseSetting (pairs : list (string * string)) :
  mapM url.parseSetting (setting <$> pairs) = Some pairs.
Proof.
  apply mapM_Some_2. induction pairs as [|kv pairs IH]; constructor; [|done].
  apply parseSetting_setting.
Qed.

Lemma parsePairs_join (pairs : list (string * string)) :
  url.parsePairs (joinSettings (setting <$> pairs)) = Some pairs.
Proof.
  unfold url.parsePairs. destruct (decide (pairs = [])) as [->|Hne]; [done|].
  by rewrite Split_joinSettings, filter_settings, mapM_parseSetting.
Qed.

(** What [parsePairs] reads from an encoded [Values]: the pairs, key by key
    in sorted order. *)
Lemma parsePairs_EncodeRange (ranged : list string) (v : url.Values) :
  url.parsePairs (url.EncodeRange ranged v)
  = Some (pairsOf (merge_sort String.le ranged) v).
Proof. by rewrite EncodeRange_join, parsePairs_join. Qed.

(** ** The values of a key among the pairs *)

Lemma valuesFor_app key (ps qs : list (string * string)) :
  valuesFor key (ps ++ qs) = valuesFor key ps ++ valuesFor key qs.
Proof. unfold valuesFor. by rewrite filter_app, fmap_app. Qed.

Lemma valuesFor_pair key k (xs : list string) :
  valuesFor key (pair k <$> xs) = if decide (k = key) then xs else [].
Proof.
  unfold valuesFor. induction xs as [|x xs IH]; [by case_decide|].
  rewrite fmap_cons, filter_cons. cbn [fst]. case_decide; cbn; [|done].
  by rewrite IH.
Qed.

Lemma valuesFor_pairsOf_absent key (keys : list string) (v : url.Values) :
  key ∉ keys -> valuesFor key (pairsOf keys v) = [].
Proof.
  induction keys as [|k keys IH]; intros Hk; [done|].
  apply not_elem_of_cons in Hk as [Hne Hk].
  unfold pairsOf. rewrite bind_cons, valuesFor_app, valuesFor_pair.
  rewrite decide_False by done. by apply IH.
Qed.

Lemma valuesFor_pairsOf key (keys : list string) (v : url.Values) :
  NoDup keys -> key ∈ keys ->
  valuesFor key (pairsOf keys v) = default [] (v !! key).
Proof.
  induction keys as [|k keys IH]; intros Hnd Hk; [by apply elem_of_nil in Hk|].
  apply NoDup_cons in Hnd as [Hfresh Hnd].
  unfold pairsOf. rewrite bind_cons, valuesFor_app, valuesFor_pair.
  destruct (decide (k = key)) as [->|Hne].
  - fold (pairsOf keys v). rewrite valuesFor_pairsOf_absent by done. apply app_nil_r.
  - apply elem_of_cons in Hk as [->|Hk]; [done|]. by apply IH.
Qed.

(** ** Collecting pairs into a [Values] *)

Lemma lookup_Add key k x (m : url.Values) :
  url.Add k x m !! key
  = if decide (k = key) then Some (default [] (m !! key) ++ [x]) else m !! key.
Proof.
  unfold url.Add. case_decide as Hk.
  - subst. by rewrite lookup_insert_eq.
  - by rewrite lookup_insert_ne.
Qed.

Lemma lookup_addAll key (pairs : list (string * string)) (m : url.Values) :
  addAll m pairs !! key
  = match valuesFor key pairs with
    | [] => m !! key
    | xs => Some (default [] (m !! key) ++ xs)
    end.
Proof.
  revert m. induction pairs as [|[k x] pairs IH]; intros m; [done|].
  unfold addAll. cbn [foldl fst snd]. fold (addAll (url.Add k x m) pairs).
  rewrite IH, lookup_Add. unfold valuesFor. rewrite filter_cons. cbn [fst].
  destruct (decide (k = key)) as [->|Hne]; cbn.
  - destruct (filter _ pairs).*2; cbn; [done|]. by rewrite <- app_assoc.
  - done.
Qed.

Lemma populated_empty : populated ∅.
Proof. intros k xs H. by rewrite lookup_empty in H. Qed.

Lemma populated_Add k x (v : url.Values) : populated v -> populated (url.Add k x v).
Proof.
  intros Hv key xs. rewrite lookup_Add. case_decide; [|apply Hv].
  intros [= <-]. by destruct (default [] (v !! key)).
Qed.

(** Parsing an encoded [Values] gives the same [Values] back. *)
Lemma ParseQuery_EncodeRange (ranged : list string) (v : url.Values) :
  populated v -> ranged ≡ₚ (map_to_list v).*1 ->
  url.ParseQuery (url.EncodeRange ranged v) = Some v.
Proof.
  intros Hv Hperm. unfold url.ParseQuery. rewrite parsePairs_EncodeRange. cbn.
  f_equal. fold (addAll ∅ (pairsOf (merge_sort String.le ranged) v)).
  assert (Hsorted : merge_sort String.le ranged ≡ₚ (map_to_list v).*1).
  { by rewrite merge_sort_Permutation. }
  apply map_eq. intros key. rewrite lookup_addAll, lookup_empty.
  destruct (v !! key) as [xs|] eqn:Hkey.
  - rewrite valuesFor_pairsOf, Hkey.
    + cbn. specialize (Hv _ _ Hkey). by destruct xs.
    + rewrite Hsorted. apply NoDup_fst_map_to_list.
    + rewrite Hsorted. apply list_elem_of_fmap. exists (key, xs).
      split; [done|]. by apply elem_of_map_to_list.
  - rewrite valuesFor_pairsOf_absent; [done|].
    rewrite Hsorted. intros ([k xs] & -> & Hin)%list_elem_of_fmap.
    apply elem_of_map_to_list in Hin. cbn in Hkey. congruence.
Qed.

(** ** The order of [range] does not matter *)

Lemma merge_sort_range (r1 r2 : list string) :
  r1 ≡ₚ r2 -> merge_sort String.le r1 = merge_sort String.le r2.
Proof.
  intros Hperm. apply (Sorted_unique String.le).
  - apply Sorted_merge_sort, _.
  - apply Sorted_merge_sort, _.
  - by rewrite !merge_sort_Permutation.
Qed.

Lemma EncodeRange_range (r1 r2 : list string) (v : url.Values) :
  r1 ≡ₚ r2 -> url.EncodeRange r1 v = url.EncodeRange r2 v.
Proof. intros Hperm. unfold url.EncodeRange. by rewrite (merge_sort_range r1 r2). Qed.

(** ** The values that [query.Values] stores *)

Lemma lookup_addString key name s (v : url.Values) :
  query.addString name s v !! key
  = if decide (name = key)
    then (if String.eqb s "" then v !! key else Some (default [] (v !! key) ++ [s]))
    else v !! key.
Proof.
  unfold query.addString. destruct (String.eqb s ""); [by case_decide|].
  apply lookup_Add.
Qed.

Lemma lookup_addUint key name n (v : url.Values) :
  query.addUint name n v !! key
  = if decide (name = key)
    then (if n =? 0 then v !! key
          else Some (default [] (v !! key) ++ [strconv.FormatUint n]))
    else v !! key.
Proof.
  unfold query.addUint. destruct (n =? 0); [by case_decide|]. apply lookup_Add.
Qed.

Lemma lookup_addBool key name b (v : url.Values) :
  query.addBool name b v !! key
  = if decide (name = key)
    then (if b then Some (default [] (v !! key) ++ ["true"]) else v !! key)
    else v !! key.
Proof.
  unfold query.addBool. destruct b; [|by case_decide]. apply lookup_Add.
Qed.

Lemma addAll_pair k (l : list string) (v : url.Values) :
  foldl (fun v x => url.Add k x v) v l = addAll v (pair k <$> l).
Proof. revert v. induction l as [|x l IH]; intros v; [done|]. cbn. apply IH. Qed.

Lemma lookup_addBrackets key name l (v : url.Values) :
  query.addBrackets name l v !! key
  = if decide (name +:+ "[]" = key)
    then (match l with [] => v !! key | _ => Some (default [] (v !! key) ++ l) end)
    else v !! key.
Proof.
  unfold query.addBrackets. destruct l as [|x l]; [by case_decide|].
  cbn [length Nat.eqb]. rewrite addAll_pair, lookup_addAll, valuesFor_pair.
  by case_decide.
Qed.

Lemma populated_addString name s v : populated v -> populated (query.addString name s v).
Proof. unfold query.addString. destruct (String.eqb s ""); auto using populated_Add. Qed.

Lemma populated_addUint name n v : populated v -> populated (query.addUint name n v).
Proof. unfold query.addUint. destruct (n =? 0); auto using populated_Add. Qed.

Lemma populated_addBool name b v : populated v -> populated (query.addBool name b v).
Proof. unfold query.addBool. destruct b; auto using populated_Add. Qed.

Lemma populated_addBrackets name l v : populated v -> populated (query.addBrackets name l v).
Proof.
  unfold query.addBrackets. destruct (length l =? 0)%nat; [done|].
  revert v. induction l as [|x l IH]; intros v Hv; [done|].
  cbn. apply IH. by apply populated_Add.
Qed.

Lemma populated_reflectAPIListObject p v :
  populated v -> populated (query.reflectAPIListObject p v).
Proof.
  intros Hv. unfold query.reflectAPIListObject.
  auto using populated_addUint, populated_addBool.
Qed.

Lemma populated_ListIncidentsOptions o : populated (query.ValuesListIncidentsOptions o).
Proof.
  unfold query.ValuesListIncidentsOptions. cbv zeta.
  repeat first [ apply populated_reflectAPIListObject | apply populated_addString
               | apply populated_addBrackets | apply populated_empty ].
Qed.

Lemma populated_ListIncidentAlertsOptions o :
  populated (query.ValuesListIncidentAlertsOptions o).
Proof.
  unfold query.ValuesListIncidentAlertsOptions. cbv zeta.
  repeat first [ apply populated_reflectAPIListObject | apply populated_addString
               | apply populated_addBrackets | apply populated_empty ].
Qed.

Lemma populated_ListIncidentLogEntriesOptions o :
  populated (query.ValuesListIncidentLogEntriesOptions o).
Proof.
  unfold query.ValuesListIncidentLogEntriesOptions. cbv zeta.
  repeat first [ apply populated_reflectAPIListObject | apply populated_addString
               | apply populated_addBool | apply populated_addBrackets
               | apply populated_empty ].
Qed.

(** Looking a key up in the result of [query.Values]: every field's step is
    passed, and the steps of other keys drop out. *)
Ltac lookup_step :=
  first [ rewrite lookup_addString | rewrite lookup_addUint | rewrite lookup_addBool
        | rewrite lookup_addBrackets | rewrite lookup_empty ];
  try first [ rewrite decide_False by (vm_compute; discriminate)
            | rewrite decide_True by (vm_compute; reflexivity) ].

Ltac lookup_values := cbv zeta; unfold query.reflectAPIListObject; repeat lookup_step.

Ltac lookup_in values := unfold values; lookup_values; try reflexivity.

(** ** Reading the fields back *)

Lemma FormatUint_nonempty n : strconv.FormatUint n <> "".
Proof.
  unfold strconv.FormatUint. destruct n as [|p]; [done|]. cbn.
  pose proof (DecimalPos.Unsigned.to_uint_nonnil p) as Hp.
  by destruct (Pos.to_uint p).
Qed.

Lemma ParseUint_FormatUint n : n < 2 ^ 64 -> strconv.ParseUint (strconv.FormatUint n) = Some n.
Proof.
  intros Hn. unfold strconv.ParseUint.
  destruct (String.eqb_spec (strconv.FormatUint n) "") as [H|_].
  { by apply FormatUint_nonempty in H. }
  unfold strconv.FormatUint. rewrite NilEmpty.usu. cbn.
  rewrite DecimalN.Unsigned.of_to.
  by apply N.ltb_lt in Hn as ->.
Qed.

Lemma Get_string key (s : string) (v : url.Values) :
  v !! key = (if String.eqb s "" then None else Some [s]) -> url.Get key v = s.
Proof.
  unfold url.Get. intros ->. by destruct (String.eqb_spec s "").
Qed.

Lemma getStrings_sequence key (l : list string) (v : url.Values) :
  v !! key = match l with [] => None | _ => Some (default [] None ++ l) end ->
  getStrings key v = l.
Proof. unfold getStrings. intros ->. by destruct l. Qed.

Lemma getUint_uint key n (v : url.Values) :
  n < 2 ^ 64 ->
  v !! key = (if n =? 0 then None else Some [strconv.FormatUint n]) ->
  getUint key v = Some n.
Proof.
  intros Hn Hv. unfold getUint, url.Get. rewrite Hv.
  destruct (N.eqb_spec n 0) as [->|_]; [done|]. by apply ParseUint_FormatUint.
Qed.

Lemma getBool_bool key (b : bool) (v : url.Values) :
  v !! key = (if b then Some ["true"] else None) -> getBool key v = Some b.
Proof. intros Hv. unfold getBool, url.Get. rewrite Hv. by destruct b. Qed.

Lemma decodeAPIListObject_ListIncidentsOptions o :
  uintRange (ListIncidentsOptions_APIListObject o) ->
  decodeAPIListObject (query.ValuesListIncidentsOptions o)
  = Some (ListIncidentsOptions_APIListObject o).
Proof.
  intros (Hlimit & Hoffset & Htotal). unfold decodeAPIListObject.
  rewrite (getUint_uint "limit" _ _ Hlimit) by lookup_in query.ValuesListIncidentsOptions.
  rewrite (getUint_uint "offset" _ _ Hoffset) by lookup_in query.ValuesListIncidentsOptions.
  rewrite (getBool_bool "more" (APIListObject_More (ListIncidentsOptions_APIListObject o)))
    by lookup_in query.ValuesListIncidentsOptions.
  rewrite (getUint_uint "total" _ _ Htotal) by lookup_in query.ValuesListIncidentsOptions.
  cbn. by destruct (ListIncidentsOptions_APIListObject o).
Qed.

Lemma decodeListIncidentsOptions_Values o :
  uintRange (ListIncidentsOptions_APIListObject o) ->
  decodeListIncidentsOptions (query.ValuesListIncidentsOptions o) = Some o.
Proof.
  intros Hrange. unfold decodeListIncidentsOptions.
  rewrite decodeAPIListObject_ListIncidentsOptions by done. cbn.
  rewrite (Get_string "since" (ListIncidentsOptions_Since o))
    by lookup_in query.ValuesListIncidentsOptions.
  rewrite (Get_string "until" (ListIncidentsOptions_Until o))
    by lookup_in query.ValuesListIncidentsOptions.
  rewrite (Get_string "date_range" (ListIncidentsOptions_DateRange o))
    by lookup_in query.ValuesListIncidentsOptions.
  rewrite (Get_string "incident_key" (ListIncidentsOptions_IncidentKey o))
    by lookup_in query.ValuesListIncidentsOptions.
  rewrite (Get_string "time_zone" (ListIncidentsOptions_TimeZone o))
    by lookup_in query.ValuesListIncidentsOptions.
  rewrite (Get_string "sort_by" (ListIncidentsOptions_SortBy o))
    by lookup_in query.ValuesListIncidentsOptions.
  rewrite (getStrings_sequence "statuses[]" (ListIncidentsOptions_Statuses o))
    by lookup_in query.ValuesListIncidentsOptions.
  rewrite (getStrings_sequence "service_ids[]" (ListIncidentsOptions_ServiceIDs o))
    by lookup_in query.ValuesListIncidentsOptions.
  rewrite (getStrings_sequence "team_ids[]" (ListIncidentsOptions_TeamIDs o))
    by lookup_in query.ValuesListIncidentsOptions.
  rewrite (getStrings_sequence "user_ids[]" (ListIncidentsOptions_UserIDs o))
    by lookup_in query.ValuesListIncidentsOptions.
  rewrite (getStrings_sequence "urgencies[]" (ListIncidentsOptions_Urgencies o))
    by lookup_in query.ValuesListIncidentsOptions.
  rewrite (getStrings_sequence "include[]" (ListIncidentsOptions_Includes o))
    by lookup_in query.ValuesListIncidentsOptions.
  by destruct o.
Qed.

(** The values stored for a sequence filter are the filter's elements. *)
Lemma getStrings_sequenceFilters o name xs :
  (name, xs) ∈ sequenceFilters o ->
  getStrings (name +:+ "[]") (query.ValuesListIncidentsOptions o) = xs.
Proof.
  unfold sequenceFilters. rewrite !elem_of_cons, elem_of_nil.
  intros [H|[H|[H|[H|[H|[H|[]]]]]]]; injection H as -> ->;
    apply getStrings_sequence; lookup_in query.ValuesListIncidentsOptions.
Qed.

(** ** The call each operation makes *)

Section Calls.

Variable gateway : list Request -> Request -> result Response.
Context {unmarshal_Incident : Unmarshal Incident}.
Context {unmarshal_IncidentNote : Unmarshal IncidentNote}.
Context {unmarshal_IncidentAlert : Unmarshal IncidentAlert}.
Context {unmarshal_LogEntry : Unmarshal LogEntry}.
Context {unmarshal_ResponderRequest : Unmarshal ResponderRequest}.

(** A gateway call followed by decoding and unwrapping makes that one call,
    whatever the gateway answers. *)
Lemma call_then {T} (req : Request) (k : Response -> Client T) (calls : list Request) :
  (forall resp calls', (k resp calls').2 = calls') ->
  (bind (call gateway req) k calls).2 = calls ++ [req].
Proof.
  intros Hk. unfold bind, call. destruct (gateway calls req); [apply Hk|done].
Qed.

Lemma decode_then {T U} `{Unmarshal T} (resp : Response) (target : T)
    (k : T -> Client U) (calls : list Request) :
  (forall t calls', (k t calls').2 = calls') ->
  (bind (decodeJSON resp target) k calls).2 = calls.
Proof.
  intros Hk. unfold bind, decodeJSON.
  destruct (Response_Body resp); [|done]. destruct (unmarshal _ _); [apply Hk|done].
Qed.

Ltac one_call :=
  intros; unfold c_get, c_post, c_put;
  apply call_then; intros; apply decode_then; intros;
  try done; by repeat case_match.

Lemma ListIncidentsWithContext_call ctx o calls :
  (ListIncidentsWithContext gateway ctx o calls).2
  = calls ++ [ getCall ctx ("/incidents?"
                              +:+ url.Encode (query.ValuesListIncidentsOptions o)) ].
Proof. one_call. Qed.

Lemma CreateIncidentWithContext_call ctx from o calls :
  (CreateIncidentWithContext gateway ctx from o calls).2
  = calls ++ [ writeCall POST ctx "/incidents"
                 (map_CreateIncidentOptions {[ "incident" := o ]})
                 {[ "From" := from ]} ].
Proof. one_call. Qed.

Lemma ManageIncidentsWithContext_call ctx from incidents calls :
  (ManageIncidentsWithContext gateway ctx from incidents calls).2
  = calls ++ [ writeCall PUT ctx "/incidents"
                 (map_ManageIncidentsOptions {[ "incidents" := incidents ]})
                 {[ "From" := from ]} ].
Proof. one_call. Qed.

Lemma MergeIncidentsWithContext_call ctx from id sources calls :
  (MergeIncidentsWithContext gateway ctx from id sources calls).2
  = calls ++ [ writeCall PUT ctx ("/incidents/" +:+ id +:+ "/merge")
                 (map_MergeIncidentsOptions {[ "source_incidents" := sources ]})
                 {[ "From" := from ]} ].
Proof. one_call. Qed.

Lemma GetIncidentWithContext_call ctx id calls :
  (GetIncidentWithContext gateway ctx id calls).2
  = calls ++ [ getCall ctx ("/incidents/" +:+ id) ].
Proof. one_call. Qed.

Lemma ListIncidentNotesWithContext_call ctx id calls :
  (ListIncidentNotesWithContext gateway ctx id calls).2
  = calls ++ [ getCall ctx ("/incidents/" +:+ id +:+ "/notes") ].
Proof. one_call. Qed.

Lemma ListIncidentAlertsWithContext_call ctx id o calls :
  (ListIncidentAlertsWithContext gateway ctx id o calls).2
  = calls ++ [ getCall ctx ("/incidents/" +:+ id +:+ "/alerts?"
                              +:+ url.Encode (query.ValuesListIncidentAlertsOptions o)) ].
Proof. one_call. Qed.

Lemma CreateIncidentNoteWithContext_call ctx id note calls :
  (CreateIncidentNoteWithContext gateway ctx id note calls).2
  = calls ++ [ writeCall POST ctx ("/incidents/" +:+ id +:+ "/notes")
                 (map_IncidentNote {[ "note" := note ]})
                 {[ "From" := APIObject_Summary (IncidentNote_User note) ]} ].
Proof. one_call. Qed.

Lemma CreateIncidentNote_call id note calls :
  (CreateIncidentNote gateway id note calls).2
  = calls ++ [ writeCall POST Background ("/incidents/" +:+ id +:+ "/notes")
                 (map_IncidentNote {[ "note" := note ]})
                 {[ "From" := APIObject_Summary (IncidentNote_User note) ]} ].
Proof.
  unfold CreateIncidentNote, c_post. rewrite !insert_empty. by apply call_then.
Qed.

Lemma SnoozeIncidentWithContext_call ctx id duration calls :
  (SnoozeIncidentWithContext gateway ctx id duration calls).2
  = calls ++ [ writeCall POST ctx ("/incidents/" +:+ id +:+ "/snooze")
                 (map_uint {[ "duration" := duration ]})
                 ∅ ].
Proof. one_call. Qed.

Lemma SnoozeIncident_call id duration calls :
  (SnoozeIncident gateway id duration calls).2
  = calls ++ [ writeCall POST Background ("/incidents/" +:+ id +:+ "/snooze")
                 (map_uint {[ "duration" := duration ]})
                 ∅ ].
Proof.
  unfold SnoozeIncident, c_post. rewrite !insert_empty. by apply call_then.
Qed.

Lemma ListIncidentLogEntriesWithContext_call ctx id o calls :
  (ListIncidentLogEntriesWithContext gateway ctx id o calls).2
  = calls ++ [ getCall ctx ("/incidents/" +:+ id +:+ "/log_entries?"
                              +:+ url.Encode (query.ValuesListIncidentLogEntriesOptions o)) ].
Proof. one_call. Qed.

Lemma ResponderRequestWithContext_call ctx id o calls :
  (ResponderRequestWithContext gateway ctx id o calls).2
  = calls ++ [ writeCall POST ctx ("/incidents/" +:+ id +:+ "/responder_requests")
                 (struct_ResponderRequestOptions o)
                 {[ "From" := ResponderRequestOptions_From o ]} ].
Proof. one_call. Qed.

Lemma getIncidentAlertWithContext_call ctx incidentID alertID calls :
  (getIncidentAlertWithContext gateway ctx incidentID alertID calls).2
  = calls ++ [ getCall ctx ("/incidents/" +:+ incidentID +:+ "/alerts/" +:+ alertID) ].
Proof. one_call. Qed.

Lemma manageIncidentAlertsWithContext_call ctx incidentID alerts calls :
  (manageIncidentAlertsWithContext gateway ctx incidentID alerts calls).2
  = calls ++ [ writeCall PUT ctx ("/incidents/" +:+ incidentID +:+ "/alerts/")
                 (pointer_IncidentAlertList alerts)
                 ∅ ].
Proof. one_call. Qed.

Lemma bind_ret_calls {A B} (m : Client A) (f : A -> B) (calls : list Request) :
  (bind m (fun a => ret (f a)) calls).2 = (m calls).2.
Proof. unfold bind, ret. by repeat case_match. Qed.

Lemma GetIncidentAlertWithContext_call ctx incidentID alertID calls :
  (GetIncidentAlertWithContext gateway ctx incidentID alertID calls).2
  = calls ++ [ getCall Background ("/incidents/" +:+ incidentID +:+ "/alerts/" +:+ alertID) ].
Proof.
  unfold GetIncidentAlertWithContext.
  by rewrite bind_ret_calls, getIncidentAlertWithContext_call.
Qed.

Lemma ManageIncidentAlertsWithContext_call ctx incidentID alerts calls :
  (ManageIncidentAlertsWithContext gateway ctx incidentID alerts calls).2
  = calls ++ [ writeCall PUT Background ("/incidents/" +:+ incidentID +:+ "/alerts/")
                 (pointer_IncidentAlertList alerts)
                 ∅ ].
Proof.
  unfold ManageIncidentAlertsWithContext.
  by rewrite bind_ret_calls, manageIncidentAlertsWithContext_call.
Qed.

End Calls.

Lemma pathOf_call {T} (m : Client T) (calls : list Request) (req : Request) :
  (m calls).2 = calls ++ [req] -> pathOf m calls = Some (Request_Path req).
Proof. intros Hcall. unfold pathOf. by rewrite Hcall, drop_app_length. Qed.


Lemma callsOf_call {T} (m : Client T) (calls : list Request) (req : Request) :
  (m calls).2 = calls ++ [req] -> callsOf m calls = [req].
Proof. intros Hcall. unfold callsOf. by rewrite Hcall, drop_app_length. Qed.

(** The answer to the call of an operation is the gateway's answer to the
    request that the operation sends. *)
Lemma answerOf_call {T} (gateway : list Request -> Request -> result Response)
    (m : Client T) (calls : list Request) (req : Request) (answer : result Response) :
  (m calls).2 = calls ++ [req] ->
  answerOf gateway m calls = Some answer ->
  gateway calls req = answer.
Proof.
  intros Hcall. unfold answerOf. rewrite (callsOf_call _ _ _ Hcall). by intros [= <-].
Qed.

(** From the answer to the call of an operation, the gateway's answer to
    the request itself. *)
Ltac the_call H :=
  eapply answerOf_call in H;
  [
  | first
      [ apply ListIncidentsWithContext_call
      | apply CreateIncidentWithContext_call
      | apply ManageIncidentsWithContext_call
      | apply MergeIncidentsWithContext_call
      | apply GetIncidentWithContext_call
      | apply ListIncidentNotesWithContext_call
      | apply ListIncidentAlertsWithContext_call
      | apply CreateIncidentNoteWithContext_call
      | apply CreateIncidentNote_call
      | apply SnoozeIncidentWithContext_call
      | apply SnoozeIncident_call
      | apply ListIncidentLogEntriesWithContext_call
      | apply ResponderRequestWithContext_call
      | apply getIncidentAlertWithContext_call
      | apply manageIncidentAlertsWithContext_call
      | apply GetIncidentAlertWithContext_call
      | apply ManageIncidentAlertsWithContext_call ] ];
  unfold getCall, writeCall in H.

(** ** Decoding envelopes *)

Lemma unmarshalEntries_absent {T} `{Zero T, Unmarshal T}
    (members : list (string * json)) (m m' : gmap string T) (key : string) :
  unmarshalEntries members m = Ok m' -> key ∉ members.*1 -> m' !! key = m !! key.
Proof.
  revert m. induction members as [|[k j] members IH]; intros m Hdec Hkey.
  - by injection Hdec as <-.
  - cbn in Hdec. destruct (unmarshal j zero) as [x|e]; [|done]. cbn in Hdec.
    apply not_elem_of_cons in Hkey as [Hne Hkey].
    rewrite (IH _ Hdec Hkey). by rewrite lookup_insert_ne.
Qed.

Lemma unmarshalElements_Forall2 {T} `{Zero T, Unmarshal T}
    (elements : list json) (xs : list T) :
  Forall2 (fun j x => unmarshal j zero = Ok x) elements xs ->
  unmarshalElements elements [] = Ok xs.
Proof.
  induction 1 as [|j x elements xs Hj _ IH]; [done|].
  cbn. rewrite Hj. cbn. by rewrite IH.
Qed.

Lemma sorted_singleton_keys {T} (key : string) (x : T) :
  merge_sort String.le (map_to_list ({[ key := x ]} : gmap string T)).*1 = [key].
Proof. by rewrite map_to_list_singleton. Qed.

Lemma append_longer (s t : string) : t <> "" -> s +:+ t <> s.
Proof.
  intros Ht. induction s as [|c s IH]; [done|].
  rewrite append_cons. intros [= H]. by apply IH.
Qed.

Lemma findField_single {T F} `{Unmarshal F} (name key : string)
    (get : T -> F) (set : F -> T -> T) :
  foldName key <> foldName name ->
  findField [fieldOf name get set] key = None.
Proof.
  intros Hkey. unfold findField. cbn.
  destruct (String.eqb_spec name key) as [->|_]; [done|].
  destruct (String.eqb_spec (foldName name) (foldName key)) as [Heq|_]; [|done].
  by rewrite Heq in Hkey.
Qed.

Lemma unmarshalMembers_skipped {T} (fields : list (fieldDecoder T))
    (members : list (string * json)) (t : T) :
  Forall (fun kv => findField fields kv.1 = None) members ->
  unmarshalMembers fields members t = Ok t.
Proof.
  induction 1 as [|[key j] members Hkey _ IH]; [done|].
  cbn in *. by rewrite Hkey.
Qed.

Lemma unmarshalEntries_fails {T} `{Zero T, Unmarshal T}
    (members : list (string * json)) (m : gmap string T) :
  Exists (fun kv => exists e, unmarshal kv.2 (zero : T) = Err e) members ->
  exists e, unmarshalEntries members m = Err e.
Proof.
  intros Hfail. revert m. induction Hfail as [[k j] members [e He]|[k j] members _ IH];
    intros m; cbn in *.
  - rewrite He. by exists e.
  - destruct (unmarshal j zero) as [x|e]; cbn; [apply IH|by exists e].
Qed.

Lemma findField_found {T} (fields : list (fieldDecoder T)) (key : string)
    (decode : json -> T -> result T) :
  findField fields key = Some decode ->
  exists f, f ∈ fields /\ f.2 = decode /\ foldName f.1 = foldName key.
Proof.
  unfold findField.
  destruct (List.find (fun f => String.eqb f.1 key) fields) as [f|] eqn:Hexact.
  - intros [= <-]. apply List.find_some in Hexact as [Hin Heq].
    apply String.eqb_eq in Heq. exists f. rewrite <- Heq. by rewrite list_elem_of_In.
  - destruct (List.find (fun f => String.eqb (foldName f.1) (foldName key)) fields)
      as [f|] eqn:Hfold; [|done].
    intros [= <-]. apply List.find_some in Hfold as [Hin Heq].
    apply String.eqb_eq in Heq. exists f. by rewrite list_elem_of_In.
Qed.

(** What every field decoder that a member can reach keeps, decoding the
    struct keeps. *)
Lemma unmarshalMembers_keeps {T} (P : T -> Prop) (fields : list (fieldDecoder T))
    (members : list (string * json)) (t t' : T) :
  (forall kv decode t1 t2,
      kv ∈ members -> findField fields kv.1 = Some decode ->
      decode kv.2 t1 = Ok t2 -> P t1 -> P t2) ->
  P t -> unmarshalMembers fields members t = Ok t' -> P t'.
Proof.
  revert t. induction members as [|[key j] members IH]; intros t Hkeep Ht Hdec; cbn in Hdec.
  - by injection Hdec as <-.
  - destruct (findField fields key) as [decode|] eqn:Hfield.
    + destruct (decode j t) as [t1|e] eqn:Hj; [|done]. cbn in Hdec.
      apply (IH t1); [|..|done].
      * intros kv d a b Hin. apply Hkeep. by right.
      * apply (Hkeep (key, j) decode t t1); [by left|done..].
    + apply (IH t); [|done..]. intros kv d a b Hin. apply Hkeep. by right.
Qed.

Lemma findField_one {T F} `{Unmarshal F} (name key : string)
    (get : T -> F) (set : F -> T -> T) :
  findField [fieldOf name get set] key
  = if decide (foldName key = foldName name) then Some (fieldOf name get set).2 else None.
Proof.
  case_decide as Hkey; [|by apply findField_single].
  unfold findField. cbn. destruct (String.eqb_spec name key); [done|].
  rewrite Hkey. by rewrite String.eqb_refl.
Qed.

(** A struct with one field is decoded from the members that name the
    field; the other members are not looked at. *)
Lemma unmarshalMembers_one {T F} `{Unmarshal F} (name : string)
    (get : T -> F) (set : F -> T -> T) (members : list (string * json)) (t : T) :
  unmarshalMembers [fieldOf name get set] members t
  = unmarshalMembers [fieldOf name get set]
      (filter (fun kv => foldName kv.1 = foldName name) members) t.
Proof.
  revert t. induction members as [|[key j] members IH]; intros t; [done|].
  rewrite filter_cons. cbn [fst]. cbn [unmarshalMembers]. rewrite findField_one.
  case_decide.
  - cbn [unmarshalMembers]. rewrite findField_one, decide_True by done.
    destruct ((fieldOf name get set).2 j t); cbn; [apply IH|done].
  - apply IH.
Qed.

(** The pagination fields leave the items of a list response alone. *)
Lemma list_fields_keep {T I} `{Zero I, Unmarshal I} (plural : string)
    (items : T -> list I) (setItems : list I -> T -> T)
    (page : T -> APIListObject) (setPage : APIListObject -> T -> T)
    (members : list (string * json)) (t t' : T) :
  (forall p t, items (setPage p t) = items t) ->
  Forall (fun kv => foldName kv.1 <> foldName plural) members ->
  unmarshalMembers (fieldOf plural items setItems :: paginationFields page setPage)
    members t = Ok t' ->
  items t' = items t.
Proof.
  intros Hframe Hkeys.
  apply (unmarshalMembers_keeps (fun x => items x = items t)); [|done].
  intros kv decode t1 t2 Hin Hfield Hdec Ht1.
  apply findField_found in Hfield as (f & Hf & <- & Hname).
  rewrite Forall_forall in Hkeys. specialize (Hkeys kv Hin).
  unfold paginationFields in Hf. rewrite !elem_of_cons, elem_of_nil in Hf.
  destruct Hf as [->|[->|[->|[->|[->|[]]]]]]; cbn in Hname, Hdec.
  - by rewrite Hname in Hkeys.
  - destruct (unmarshal kv.2 _); [|done]. injection Hdec as <-. by rewrite Hframe.
  - destruct (unmarshal kv.2 _); [|done]. injection Hdec as <-. by rewrite Hframe.
  - destruct (unmarshal kv.2 _); [|done]. injection Hdec as <-. by rewrite Hframe.
  - destruct (unmarshal kv.2 _); [|done]. injection Hdec as <-. by rewrite Hframe.
Qed.

Lemma unmarshalMembers_app {T} (fields : list (fieldDecoder T))
    (before after : list (string * json)) (t : T) :
  unmarshalMembers fields (before ++ after) t
  = andThen (unmarshalMembers fields before t) (unmarshalMembers fields after).
Proof.
  revert t. induction before as [|[key j] before IH]; intros t; [done|].
  cbn. destruct (findField fields key) as [decode|]; [|apply IH].
  destruct (decode j t); cbn; [apply IH|done].
Qed.

(** A key that does not fold to the name of the first field goes to the
    field it has among the others. *)
Lemma findField_later {T F} `{Unmarshal F} (name key : string)
    (get : T -> F) (set : F -> T -> T) (fields : list (fieldDecoder T)) :
  foldName key <> foldName name ->
  findField (fieldOf name get set :: fields) key = findField fields key.
Proof.
  intros Hkey. unfold findField. cbn.
  destruct (String.eqb_spec name key) as [->|_]; [done|].
  destruct (String.eqb_spec (foldName name) (foldName key)) as [Heq|_]; [|done].
  by rewrite Heq in Hkey.
Qed.

(** A key that folds to the name of the first field, and to the name of no
    other, goes to the first field. *)
Lemma findField_first {T F} `{Unmarshal F} (name key : string)
    (get : T -> F) (set : F -> T -> T) (fields : list (fieldDecoder T)) :
  foldName key = foldName name ->
  Forall (fun f => foldName f.1 <> foldName name) fields ->
  findField (fieldOf name get set :: fields) key = Some (fieldOf name get set).2.
Proof.
  intros Hkey Hothers. unfold findField. cbn.
  destruct (String.eqb_spec name key) as [_|_]; [done|].
  destruct (List.find (fun f => String.eqb f.1 key) fields) as [f|] eqn:Hexact.
  - apply List.find_some in Hexact as [Hin Heq]. apply String.eqb_eq in Heq.
    rewrite Forall_forall in Hothers. apply list_elem_of_In in Hin.
    destruct (Hothers f Hin). by rewrite Heq.
  - by rewrite Hkey, String.eqb_refl.
Qed.

(** Decoding the pagination members of a list response commutes with
    setting its items. *)
Lemma pagination_commutes {T I} `{Zero I, Unmarshal I} (plural : string)
    (items : T -> list I) (setItems : list I -> T -> T)
    (page : T -> APIListObject) (setPage : APIListObject -> T -> T)
    (members : list (string * json)) (xs : list I) (t : T) :
  (forall xs t, page (setItems xs t) = page t) ->
  (forall xs p t, setPage p (setItems xs t) = setItems xs (setPage p t)) ->
  Forall (fun kv => foldName kv.1 <> foldName plural) members ->
  unmarshalMembers (fieldOf plural items setItems :: paginationFields page setPage)
    members (setItems xs t)
  = andThen
      (unmarshalMembers (fieldOf plural items setItems :: paginationFields page setPage)
         members t)
      (fun r => Ok (setItems xs r)).
Proof.
  intros Hpage Hcomm Hkeys. revert t.
  induction Hkeys as [|[key j] members Hkey _ IH]; intros t; [done|].
  cbn [unmarshalMembers]. cbn in Hkey. rewrite (findField_later _ _ _ _ _ Hkey).
  destruct (findField (paginationFields page setPage) key) as [decode|] eqn:Hfield;
    [|apply IH].
  assert (Hdecode : decode j (setItems xs t)
                    = andThen (decode j t) (fun r => Ok (setItems xs r))).
  { apply findField_found in Hfield as (f & Hf & <- & _).
    unfold paginationFields in Hf. rewrite !elem_of_cons, elem_of_nil in Hf.
    destruct Hf as [->|[->|[->|[->|[]]]]]; cbn; rewrite !Hpage;
      (destruct (unmarshal j _); cbn; [by rewrite Hcomm|done]). }
  rewrite Hdecode. destruct (decode j t) as [r|e]; cbn; [apply IH|done].
Qed.

(** A list response is decoded from a plural-keyed envelope: the items are
    the elements of the array under the plural key, and the rest of the
    response is what the other members give. *)
Lemma list_envelope_decoded {T I} `{Zero I, Unmarshal I} (plural key : string)
    (items : T -> list I) (setItems : list I -> T -> T)
    (page : T -> APIListObject) (setPage : APIListObject -> T -> T)
    (before after : list (string * json)) (elements : list json) (xs : list I) (t : T) :
  (forall p t, items (setPage p t) = items t) ->
  (forall xs t, page (setItems xs t) = page t) ->
  (forall xs p t, setPage p (setItems xs t) = setItems xs (setPage p t)) ->
  Forall (fun f => foldName f.1 <> foldName plural) (paginationFields page setPage) ->
  items t = [] ->
  foldName key = foldName plural ->
  Forall (fun kv => foldName kv.1 <> foldName plural) (before ++ after) ->
  Forall2 (fun j x => unmarshal j zero = Ok x) elements xs ->
  unmarshalMembers (fieldOf plural items setItems :: paginationFields page setPage)
    (before ++ (key, JArray elements) :: after) t
  = andThen
      (unmarshalMembers (fieldOf plural items setItems :: paginationFields page setPage)
         (before ++ after) t)
      (fun r => Ok (setItems xs r)).
Proof.
  intros Hitems Hpage Hcomm Hfields Hempty Hkey Hothers Helements.
  apply Forall_app in Hothers as [Hbefore Hafter].
  rewrite !unmarshalMembers_app.
  destruct (unmarshalMembers _ before t) as [t1|e] eqn:Ht1; cbn [andThen]; [|done].
  cbn [unmarshalMembers]. rewrite (findField_first _ _ _ _ _ Hkey Hfields).
  cbn [fieldOf snd].
  rewrite (list_fields_keep plural items setItems page setPage before t t1 Hitems Hbefore Ht1).
  rewrite Hempty. unfold unmarshal at 1, unmarshal_slice.
  rewrite (unmarshalElements_Forall2 _ _ Helements). cbn [andThen].
  by apply pagination_commutes.
Qed.

(** The case folding at work: ASCII letters in either case, the long s and
    the Kelvin sign. *)
Lemma foldName_folds :
  foldName "Incidents" = "incidents"
  /\ foldName ("incident" +:+ longS) = "incidents"
  /\ foldName ("re" +:+ longS +:+ "ponder_request") = "responder_request"
  /\ foldName ("bac" +:+ kelvinSign +:+ "log") = "backlog".
Proof. by repeat split. Qed.

(** * The claims *)

Section Claims.

Variable gateway : list Request -> Request -> result Response.
Context {unmarshal_Incident : Unmarshal Incident}.
Context {unmarshal_IncidentNote : Unmarshal IncidentNote}.
Context {unmarshal_IncidentAlert : Unmarshal IncidentAlert}.
Context {unmarshal_LogEntry : Unmarshal LogEntry}.
Context {unmarshal_ResponderRequest : Unmarshal ResponderRequest}.

(** C1, as amended: [GetIncidentWithContext] and
    [ListIncidentNotesWithContext] decode the response into a map and look
    the envelope key up. When the service answers their call with a JSON
    object that decodes and has no member named [incident] (for the notes:
    no member named [notes]), the operation returns the error "JSON
    response does not have incident field" (or "... notes field") and no
    entity. The operations that decode into an envelope struct do not look
    for the key: when the answer to their call is a JSON object with no
    member that names the envelope key, creation, merge and snooze return
    the zero-valued incident, note creation the zero-valued note, the
    responder request and the alert lookup the zero-valued response, each
    with no error. *)
Theorem C1_missing_envelope_key_reported
    (ctx : Context) (from id alertID : string) (create : option CreateIncidentOptions)
    (sources : list MergeIncidentsOptions) (note : IncidentNote) (duration : N)
    (request : ResponderRequestOptions) (calls : list Request)
    (resp : Response) (members : list (string * json)) :
  Response_Body resp = Some (JObject members) ->
  let answered {T} (m : Client T) := answerOf gateway m calls = Some (Ok resp) in
  let unnamed key := Forall (fun kv : string * json => foldName kv.1 <> key) members in
  (forall incidents : gmap string Incident,
      answered (GetIncidentWithContext gateway ctx id) ->
      unmarshal (JObject members) (zero : gmap string Incident) = Ok incidents ->
      "incident" ∉ members.*1 ->
      (GetIncidentWithContext gateway ctx id calls).1
      = Err (Errorf "JSON response does not have incident field"))
  /\ (forall notes : gmap string (list IncidentNote),
      answered (ListIncidentNotesWithContext gateway ctx id) ->
      unmarshal (JObject members) (zero : gmap string (list IncidentNote)) = Ok notes ->
      "notes" ∉ members.*1 ->
      (ListIncidentNotesWithContext gateway ctx id calls).1
      = Err (Errorf "JSON response does not have notes field"))
  /\ (answered (CreateIncidentWithContext gateway ctx from create) ->
      unnamed "incident" ->
      (CreateIncidentWithContext gateway ctx from create calls).1 = Ok zero)
  /\ (answered (MergeIncidentsWithContext gateway ctx from id sources) ->
      unnamed "incident" ->
      (MergeIncidentsWithContext gateway ctx from id sources calls).1 = Ok zero)
  /\ (answered (SnoozeIncidentWithContext gateway ctx id duration) ->
      unnamed "incident" ->
      (SnoozeIncidentWithContext gateway ctx id duration calls).1 = Ok zero)
  /\ (answered (CreateIncidentNoteWithContext gateway ctx id note) ->
      unnamed "note" ->
      (CreateIncidentNoteWithContext gateway ctx id note calls).1 = Ok zero)
  /\ (answered (ResponderRequestWithContext gateway ctx id request) ->
      unnamed "responder_request" ->
      (ResponderRequestWithContext gateway ctx id request calls).1 = Ok zero)
  /\ (answered (getIncidentAlertWithContext gateway ctx id alertID) ->
      unnamed "alert" ->
      (getIncidentAlertWithContext gateway ctx id alertID calls).1 = Ok (zero, resp)).
Proof.
  intros Hbody answered unnamed. unfold answered, unnamed.
  assert (Hskip : forall name T F (U : Unmarshal F) (get : T -> F) (set : F -> T -> T) (t : T),
             foldName name = name ->
             Forall (fun kv : string * json => foldName kv.1 <> name) members ->
             unmarshalMembers [fieldOf name get set] members t = Ok t).
  { intros name T F U get set t Hlower Hkeys. apply unmarshalMembers_skipped.
    eapply Forall_impl; [exact Hkeys|]. intros [key j] Hkey.
    apply findField_single. by rewrite Hlower. }
  repeat split_and.
  - intros incidents Hgw Hdec Hincident. the_call Hgw.
    unfold GetIncidentWithContext, bind, c_get, call.
    rewrite Hgw. unfold decodeJSON. rewrite Hbody, Hdec.
    rewrite (unmarshalEntries_absent members ∅ incidents "incident" Hdec Hincident).
    done.
  - intros notes Hgw Hdec Hnotes. the_call Hgw.
    unfold ListIncidentNotesWithContext, bind, c_get, call.
    rewrite Hgw. unfold decodeJSON. rewrite Hbody, Hdec.
    rewrite (unmarshalEntries_absent members ∅ notes "notes" Hdec Hnotes).
    done.
  - intros Hgw Hkeys. the_call Hgw.
    unfold CreateIncidentWithContext, c_post, bind, call, decodeJSON, ret.
    rewrite Hgw, Hbody. unfold unmarshal, unmarshal_createIncidentResponse, unmarshalStruct.
    by rewrite Hskip.
  - intros Hgw Hkeys. the_call Hgw.
    unfold MergeIncidentsWithContext, c_put, bind, call, decodeJSON, ret.
    rewrite Hgw, Hbody. unfold unmarshal, unmarshal_createIncidentResponse, unmarshalStruct.
    by rewrite Hskip.
  - intros Hgw Hkeys. the_call Hgw.
    unfold SnoozeIncidentWithContext, c_post, bind, call, decodeJSON, ret.
    rewrite Hgw, Hbody. unfold unmarshal, unmarshal_createIncidentResponse, unmarshalStruct.
    by rewrite Hskip.
  - intros Hgw Hkeys. the_call Hgw.
    unfold CreateIncidentNoteWithContext, c_post, bind, call, decodeJSON, ret.
    rewrite Hgw, Hbody.
    unfold unmarshal, unmarshal_CreateIncidentNoteResponse, unmarshalStruct.
    by rewrite Hskip.
  - intros Hgw Hkeys. the_call Hgw.
    unfold ResponderRequestWithContext, c_post, bind, call, decodeJSON, ret.
    rewrite Hgw, Hbody.
    unfold unmarshal, unmarshal_ResponderRequestResponse, unmarshalStruct.
    by rewrite Hskip.
  - intros Hgw Hkeys. the_call Hgw.
    unfold getIncidentAlertWithContext, c_get, bind, call, decodeJSON, ret.
    rewrite Hgw, Hbody.
    unfold unmarshal, unmarshal_IncidentAlertResponse, unmarshalStruct.
    by rewrite Hskip.
Qed.

(** C2, as amended: incident creation, bulk manage, merge, note creation
    and the responder request each make one call whose [From] header names
    the acting user; snoozing and alert management take no acting user and
    make their call without headers. *)
Theorem C2_From_header_of_writes
    (ctx : Context) (from id : string) (o : option CreateIncidentOptions)
    (incidents : list ManageIncidentsOptions) (sources : list MergeIncidentsOptions)
    (note : IncidentNote) (request : ResponderRequestOptions) (duration : N)
    (alerts : option IncidentAlertList) (calls : list Request) :
  (exists req, (CreateIncidentWithContext gateway ctx from o calls).2 = calls ++ [req]
               /\ Request_Headers req !! "From" = Some from)
  /\ (exists req, (ManageIncidentsWithContext gateway ctx from incidents calls).2 = calls ++ [req]
               /\ Request_Headers req !! "From" = Some from)
  /\ (exists req, (MergeIncidentsWithContext gateway ctx from id sources calls).2 = calls ++ [req]
               /\ Request_Headers req !! "From" = Some from)
  /\ (exists req, (CreateIncidentNoteWithContext gateway ctx id note calls).2 = calls ++ [req]
               /\ Request_Headers req !! "From" = Some (APIObject_Summary (IncidentNote_User note)))
  /\ (exists req, (ResponderRequestWithContext gateway ctx id request calls).2 = calls ++ [req]
               /\ Request_Headers req !! "From" = Some (ResponderRequestOptions_From request))
  /\ (exists req, (SnoozeIncidentWithContext gateway ctx id duration calls).2 = calls ++ [req]
               /\ Request_Headers req = ∅)
  /\ (exists req, (manageIncidentAlertsWithContext gateway ctx id alerts calls).2 = calls ++ [req]
               /\ Request_Headers req = ∅).
Proof.
  repeat split_and.
  - eexists. split; [apply CreateIncidentWithContext_call|]. apply lookup_singleton_eq.
  - eexists. split; [apply ManageIncidentsWithContext_call|]. apply lookup_singleton_eq.
  - eexists. split; [apply MergeIncidentsWithContext_call|]. apply lookup_singleton_eq.
  - eexists. split; [apply CreateIncidentNoteWithContext_call|]. apply lookup_singleton_eq.
  - eexists. split; [apply ResponderRequestWithContext_call|]. apply lookup_singleton_eq.
  - eexists. split; [apply SnoozeIncidentWithContext_call|]. done.
  - eexists. split; [apply manageIncidentAlertsWithContext_call|]. done.
Qed.


(** C8: [ManageIncidentsWithContext] makes one call, whatever the gateway
    answers: a PUT to [/incidents] whose payload is the list of mutation
    descriptors under the single key [incidents] (and not under
    [incident]). An error of the gateway is returned as it is. When the
    gateway answers with a JSON object that holds the plural-keyed list
    envelope, one member named [incidents] with an array whose elements
    decode as incidents, the operation returns these incidents as the items
    of its page, and the rest of the page is what the other members of the
    answer (offset, limit, more, total) decode to. *)
Theorem C8_ManageIncidents_bulk_update
    (ctx : Context) (from : string) (incidents : list ManageIncidentsOptions)
    (calls : list Request) :
  let payload := map_ManageIncidentsOptions {[ "incidents" := incidents ]} in
  let req := writeCall PUT ctx "/incidents" payload {[ "From" := from ]} in
  (ManageIncidentsWithContext gateway ctx from incidents calls).2 = calls ++ [req]
  /\ wrappedUnder "incidents" payload
  /\ ~ wrappedUnder "incident" payload
  /\ (forall e, gateway calls req = Err e ->
        (ManageIncidentsWithContext gateway ctx from incidents calls).1 = Err e)
  /\ (forall (resp : Response) (before after : list (string * json)) (key : string)
        (elements : list json) (page : list Incident),
        gateway calls req = Ok resp ->
        Response_Body resp = Some (JObject (before ++ (key, JArray elements) :: after)) ->
        foldName key = "incidents" ->
        Forall (fun kv => foldName kv.1 <> "incidents") (before ++ after) ->
        Forall2 (fun j i => unmarshal j zero = Ok i) elements page ->
        (ManageIncidentsWithContext gateway ctx from incidents calls).1
        = andThen (unmarshal (JObject (before ++ after)) (zero : ListIncidentsResponse))
            (fun rest =>
               Ok {| ListIncidentsResponse_APIListObject :=
                       ListIncidentsResponse_APIListObject rest;
                     ListIncidentsResponse_Incidents := page |})).
Proof.
  intros payload req. repeat split_and.
  - apply ManageIncidentsWithContext_call.
  - unfold wrappedUnder, payload, payloadKeys. by rewrite sorted_singleton_keys.
  - unfold wrappedUnder, payload, payloadKeys. by rewrite sorted_singleton_keys.
  - intros e Hgw. unfold ManageIncidentsWithContext, bind, c_put, call.
    fold payload. fold (writeCall PUT ctx "/incidents" payload {[ "From" := from ]}).
    fold req. by rewrite Hgw.
  - intros resp before after key elements page Hgw Hbody Hkey Hothers Hpage.
    unfold ManageIncidentsWithContext, bind, c_put, call.
    fold payload. fold (writeCall PUT ctx "/incidents" payload {[ "From" := from ]}).
    fold req. rewrite Hgw. unfold decodeJSON. rewrite Hbody.
    unfold unmarshal, unmarshal_ListIncidentsResponse, unmarshalStruct.
    rewrite (list_envelope_decoded "incidents" key _ _ _ _ before after elements page zero);
      [ by destruct (unmarshalMembers _ _ _) | done | done | done
      | by repeat constructor | done | done | done | done ].
Qed.

(** C10: creating a note sends the [From] header taken from the note's own
    [User.Summary], in both variants of the operation; a note whose user
    summary is empty is sent all the same, with an empty [From] header, and
    what the operation returns is then the gateway's verdict and the
    decoding of its answer, with no error of the client's own. *)
Theorem C10_note_From_is_user_summary
    (ctx : Context) (id : string) (note : IncidentNote) (calls : list Request)
    (noteID content createdAt : string) (user : APIObject) :
  let anonymous :=
    Build_IncidentNote noteID
      (Build_APIObject (APIObject_ID user) (APIObject_Type user) ""
         (APIObject_Self user) (APIObject_HTMLURL user))
      content createdAt in
  (exists req, (CreateIncidentNoteWithContext gateway ctx id note calls).2 = calls ++ [req]
       /\ Request_Headers req = {[ "From" := APIObject_Summary (IncidentNote_User note) ]})
  /\ (exists req, (CreateIncidentNote gateway id note calls).2 = calls ++ [req]
       /\ Request_Headers req = {[ "From" := APIObject_Summary (IncidentNote_User note) ]})
  /\ (exists req,
        CreateIncidentNoteWithContext gateway ctx id anonymous calls
        = (andThen (gateway calls req) (fun resp =>
             match Response_Body resp with
             | Some document =>
                 andThen (unmarshal document zero) (fun result =>
                   Ok (CreateIncidentNoteResponse_IncidentNote result))
             | None => Err (DecodeError "invalid character")
             end),
           calls ++ [req])
        /\ Request_Headers req !! "From" = Some "")
  /\ (exists req,
        CreateIncidentNote gateway id anonymous calls
        = (andThen (gateway calls req) (fun _ => Ok tt), calls ++ [req])
        /\ Request_Headers req !! "From" = Some "").
Proof.
  intros anonymous. repeat split_and.
  - eexists. split; [apply CreateIncidentNoteWithContext_call|done].
  - eexists. split; [apply CreateIncidentNote_call|done].
  - exists (writeCall POST ctx ("/incidents/" +:+ id +:+ "/notes")
              (map_IncidentNote {[ "note" := anonymous ]}) {[ "From" := "" ]}).
    split; [|apply lookup_singleton_eq].
    unfold CreateIncidentNoteWithContext, bind, c_post, call, decodeJSON, ret, writeCall.
    cbn. destruct (gateway calls _) as [resp|e]; [|done]. cbn.
    destruct (Response_Body resp); [|done]. by destruct (unmarshal _ _).
  - exists (writeCall POST Background ("/incidents/" +:+ id +:+ "/notes")
              (map_IncidentNote {[ "note" := anonymous ]}) {[ "From" := "" ]}).
    split; [|apply lookup_singleton_eq].
    unfold CreateIncidentNote, bind, c_post, call, ret, writeCall.
    rewrite !insert_empty. cbn. by destruct (gateway calls _).
Qed.

End Claims.

(** ** The claims about the query encoder *)

Lemma isEmpty_nil (l : list string) : isEmpty l = true -> l = [].
Proof. by destruct l. Qed.

Lemma isZeroAPIListObject_zero p : isZeroAPIListObject p = true -> p = zero.
Proof.
  destruct p as [limit offset more total]. unfold isZeroAPIListObject. cbn.
  rewrite !andb_true_iff, !N.eqb_eq, negb_true_iff. by intros [[[-> ->] ->] ->].
Qed.

Lemma isZeroListIncidentsOptions_zero o : isZeroListIncidentsOptions o = true -> o = zero.
Proof.
  destruct o. unfold isZeroListIncidentsOptions. cbn.
  rewrite !andb_true_iff, !String.eqb_eq.
  intros [[[[[[[[[[[[Hp ->] ->] ->] Hs] ->] Hi] Ht] Hu] Hg] ->] ->] Hn].
  apply isZeroAPIListObject_zero in Hp as ->.
  by apply isEmpty_nil in Hs as ->, Hi as ->, Ht as ->, Hu as ->, Hg as ->, Hn as ->.
Qed.

Lemma isZeroListIncidentAlertsOptions_zero o :
  isZeroListIncidentAlertsOptions o = true -> o = zero.
Proof.
  destruct o. unfold isZeroListIncidentAlertsOptions. cbn.
  rewrite !andb_true_iff, !String.eqb_eq. intros [[[Hp Hs] ->] Hn].
  apply isZeroAPIListObject_zero in Hp as ->.
  by apply isEmpty_nil in Hs as ->, Hn as ->.
Qed.

Lemma isZeroListIncidentLogEntriesOptions_zero o :
  isZeroListIncidentLogEntriesOptions o = true -> o = zero.
Proof.
  destruct o. unfold isZeroListIncidentLogEntriesOptions. cbn.
  rewrite !andb_true_iff, !String.eqb_eq, negb_true_iff.
  intros [[[[[Hp Hn] ->] ->] ->] ->].
  apply isZeroAPIListObject_zero in Hp as ->. by apply isEmpty_nil in Hn as ->.
Qed.

Section EmptyOptions.

Variable gateway : list Request -> Request -> result Response.
Context {unmarshal_Incident : Unmarshal Incident}.
Context {unmarshal_IncidentAlert : Unmarshal IncidentAlert}.
Context {unmarshal_LogEntry : Unmarshal LogEntry}.

(** C4: a list-options value with every field at its zero value (empty
    strings, zero offset and limit, empty slices, false booleans) is encoded
    as the empty query string, for each of the three list-options structs;
    the list operation then asks for the bare collection, its path ending
    in the [?] that precedes the (empty) query string. *)
Theorem C4_zero_options_empty_query
    (o : ListIncidentsOptions) (oa : ListIncidentAlertsOptions)
    (ol : ListIncidentLogEntriesOptions)
    (ctx : Context) (id : string) (calls : list Request) :
  isZeroListIncidentsOptions o = true ->
  isZeroListIncidentAlertsOptions oa = true ->
  isZeroListIncidentLogEntriesOptions ol = true ->
  url.Encode (query.ValuesListIncidentsOptions o) = ""
  /\ url.Encode (query.ValuesListIncidentAlertsOptions oa) = ""
  /\ url.Encode (query.ValuesListIncidentLogEntriesOptions ol) = ""
  /\ pathOf (ListIncidentsWithContext gateway ctx o) calls = Some "/incidents?"
  /\ pathOf (ListIncidentAlertsWithContext gateway ctx id oa) calls
     = Some ("/incidents/" +:+ id +:+ "/alerts?")
  /\ pathOf (ListIncidentLogEntriesWithContext gateway ctx id ol) calls
     = Some ("/incidents/" +:+ id +:+ "/log_entries?").
Proof.
  intros ->%isZeroListIncidentsOptions_zero ->%isZeroListIncidentAlertsOptions_zero
    ->%isZeroListIncidentLogEntriesOptions_zero.
  assert (H1 : url.Encode (query.ValuesListIncidentsOptions zero) = "") by reflexivity.
  assert (H2 : url.Encode (query.ValuesListIncidentAlertsOptions zero) = "") by reflexivity.
  assert (H3 : url.Encode (query.ValuesListIncidentLogEntriesOptions zero) = "")
    by reflexivity.
  repeat split_and; try done.
  - rewrite (pathOf_call _ _ _ (ListIncidentsWithContext_call _ _ _ _)).
    cbn [Request_Path getCall]. by rewrite H1.
  - rewrite (pathOf_call _ _ _ (ListIncidentAlertsWithContext_call _ _ _ _ _)).
    cbn [Request_Path getCall]. by rewrite H2.
  - rewrite (pathOf_call _ _ _ (ListIncidentLogEntriesWithContext_call _ _ _ _ _)).
    cbn [Request_Path getCall]. by rewrite H3.
Qed.

End EmptyOptions.

(** C5: for every sequence-valued filter of [ListIncidentsOptions] with n
    elements (n > 0, and n = 0 as well), the settings of the encoded query
    string whose key is the bracketed name are exactly n, with the elements
    as their values in input order; and reading the query string back gives
    the options value that was encoded. *)
Theorem C5_sequence_filters_round_trip
    (o : ListIncidentsOptions) (name : string) (xs : list string) :
  uintRange (ListIncidentsOptions_APIListObject o) ->
  (name, xs) ∈ sequenceFilters o ->
  let q := url.Encode (query.ValuesListIncidentsOptions o) in
  (exists pairs,
      url.parsePairs q = Some pairs
      /\ valuesFor (name +:+ "[]") pairs = xs
      /\ length (filter (fun kv => kv.1 = name +:+ "[]") pairs) = length xs)
  /\ url.ParseQuery q ≫= decodeListIncidentsOptions = Some o.
Proof.
  intros Hrange Hfield q. unfold q, url.Encode. split.
  - eexists. split; [apply parsePairs_EncodeRange|].
    assert (Hvalues : valuesFor (name +:+ "[]")
                        (pairsOf (merge_sort String.le
                                    (map_to_list (query.ValuesListIncidentsOptions o)).*1)
                                 (query.ValuesListIncidentsOptions o)) = xs).
    { rewrite <- (getStrings_sequenceFilters o name xs Hfield). unfold getStrings.
      destruct (query.ValuesListIncidentsOptions o !! (name +:+ "[]")) as [ys|] eqn:Hkey.
      - rewrite valuesFor_pairsOf, Hkey; [done| |].
        + rewrite merge_sort_Permutation. apply NoDup_fst_map_to_list.
        + rewrite merge_sort_Permutation. apply list_elem_of_fmap.
          exists (name +:+ "[]", ys). split; [done|]. by apply elem_of_map_to_list.
      - apply valuesFor_pairsOf_absent. rewrite merge_sort_Permutation.
        intros ([k ys] & Hk & Hin)%list_elem_of_fmap. cbn in Hk. subst k.
        apply elem_of_map_to_list in Hin. congruence. }
    split; [done|]. rewrite <- Hvalues. unfold valuesFor. by rewrite length_fmap.
  - rewrite ParseQuery_EncodeRange; [|apply populated_ListIncidentsOptions|done].
    cbn. by apply decodeListIncidentsOptions_Values.
Qed.

Lemma queryValues_populated v : queryValues v -> populated v.
Proof.
  intros [o|o|o]; auto using populated_ListIncidentsOptions,
    populated_ListIncidentAlertsOptions, populated_ListIncidentLogEntriesOptions.
Qed.

(** C6: the query string of a list-options value does not depend on the run:
    in whatever order two runs of [Encode] range over the keys of the query
    values, they write the same bytes. *)
Theorem C6_encoding_deterministic (v : url.Values) (range1 range2 : list string) :
  queryValues v ->
  range1 ≡ₚ (map_to_list v).*1 ->
  range2 ≡ₚ (map_to_list v).*1 ->
  url.EncodeRange range1 v = url.EncodeRange range2 v
  /\ url.EncodeRange range1 v = url.Encode v.
Proof.
  intros _ H1 H2. split.
  - apply EncodeRange_range. by rewrite H1, H2.
  - by apply EncodeRange_range.
Qed.

(** ** The claims the code departs from *)

Section Departures.

Variable gateway : list Request -> Request -> result Response.
Context {unmarshal_IncidentAlert : Unmarshal IncidentAlert}.

(** The two alert operations that take a context do not pass it on: the
    call is made under [context.Background()], and the result does not
    depend on the context given. *)
Lemma alert_operations_ignore_context
    (ctx : Context) (incidentID alertID : string) (alerts : option IncidentAlertList)
    (calls : list Request) :
  GetIncidentAlertWithContext gateway ctx incidentID alertID calls
  = GetIncidentAlertWithContext gateway Background incidentID alertID calls
  /\ ManageIncidentAlertsWithContext gateway ctx incidentID alerts calls
     = ManageIncidentAlertsWithContext gateway Background incidentID alerts calls
  /\ (GetIncidentAlertWithContext gateway ctx incidentID alertID calls).2
     = calls ++ [getCall Background ("/incidents/" +:+ incidentID +:+ "/alerts/" +:+ alertID)]
  /\ (ManageIncidentAlertsWithContext gateway ctx incidentID alerts calls).2
     = calls ++ [writeCall PUT Background ("/incidents/" +:+ incidentID +:+ "/alerts/")
                   (pointer_IncidentAlertList alerts) ∅].
Proof.
  repeat split_and; [done|done| |].
  - apply GetIncidentAlertWithContext_call.
  - apply ManageIncidentAlertsWithContext_call.
Qed.

(** C9, where the code departs from it: the path of the alert-management
    call is the sub-resource collection path followed by one more
    separator, [/incidents/{id}/alerts/]. *)
Theorem C9_manage_alerts_path_has_trailing_separator
    (ctx : Context) (incidentID : string) (alerts : option IncidentAlertList)
    (calls : list Request) :
  exists req,
    (manageIncidentAlertsWithContext gateway ctx incidentID alerts calls).2 = calls ++ [req]
    /\ Request_Path req = subCollectionPath "incidents" incidentID "alerts" +:+ "/"
    /\ Request_Path req <> subCollectionPath "incidents" incidentID "alerts".
Proof.
  eexists. split; [apply manageIncidentAlertsWithContext_call|].
  assert (Hpath : "/incidents/" +:+ incidentID +:+ "/alerts/"
                  = subCollectionPath "incidents" incidentID "alerts" +:+ "/").
  { unfold subCollectionPath. by rewrite !append_assoc. }
  cbn [Request_Path writeCall]. rewrite Hpath. split; [done|].
  by apply append_longer.
Qed.

End Departures.

Section Paths.

Variable gateway : list Request -> Request -> result Response.
Context {unmarshal_Incident : Unmarshal Incident}.
Context {unmarshal_IncidentNote : Unmarshal IncidentNote}.
Context {unmarshal_IncidentAlert : Unmarshal IncidentAlert}.
Context {unmarshal_LogEntry : Unmarshal LogEntry}.
Context {unmarshal_ResponderRequest : Unmarshal ResponderRequest}.

(** X6: every operation other than alert management follows the path
    scheme: the collection, an item, a sub-resource collection or a
    sub-resource item, a list operation appending [?] and its query
    string. *)
Theorem X6_paths_follow_scheme
    (ctx : Context) (from id alertID : string) (o : ListIncidentsOptions)
    (oa : ListIncidentAlertsOptions) (ol : ListIncidentLogEntriesOptions)
    (create : option CreateIncidentOptions) (incidents : list ManageIncidentsOptions)
    (sources : list MergeIncidentsOptions) (note : IncidentNote) (duration : N)
    (request : ResponderRequestOptions) (calls : list Request) :
  pathOf (ListIncidentsWithContext gateway ctx o) calls
  = Some (collectionPath "incidents" +:+ "?"
          +:+ url.Encode (query.ValuesListIncidentsOptions o))
  /\ pathOf (CreateIncidentWithContext gateway ctx from create) calls
     = Some (collectionPath "incidents")
  /\ pathOf (ManageIncidentsWithContext gateway ctx from incidents) calls
     = Some (collectionPath "incidents")
  /\ pathOf (GetIncidentWithContext gateway ctx id) calls
     = Some (itemPath "incidents" id)
  /\ pathOf (MergeIncidentsWithContext gateway ctx from id sources) calls
     = Some (subCollectionPath "incidents" id "merge")
  /\ pathOf (ListIncidentNotesWithContext gateway ctx id) calls
     = Some (subCollectionPath "incidents" id "notes")
  /\ pathOf (CreateIncidentNoteWithContext gateway ctx id note) calls
     = Some (subCollectionPath "incidents" id "notes")
  /\ pathOf (SnoozeIncidentWithContext gateway ctx id duration) calls
     = Some (subCollectionPath "incidents" id "snooze")
  /\ pathOf (ResponderRequestWithContext gateway ctx id request) calls
     = Some (subCollectionPath "incidents" id "responder_requests")
  /\ pathOf (ListIncidentAlertsWithContext gateway ctx id oa) calls
     = Some (subCollectionPath "incidents" id "alerts" +:+ "?"
             +:+ url.Encode (query.ValuesListIncidentAlertsOptions oa))
  /\ pathOf (ListIncidentLogEntriesWithContext gateway ctx id ol) calls
     = Some (subCollectionPath "incidents" id "log_entries" +:+ "?"
             +:+ url.Encode (query.ValuesListIncidentLogEntriesOptions ol))
  /\ pathOf (getIncidentAlertWithContext gateway ctx id alertID) calls
     = Some (subItemPath "incidents" id "alerts" alertID).
Proof.
  unfold collectionPath, itemPath, subCollectionPath, subItemPath.
  repeat split_and.
  - by rewrite (pathOf_call _ _ _ (ListIncidentsWithContext_call _ _ _ _)).
  - by rewrite (pathOf_call _ _ _ (CreateIncidentWithContext_call _ _ _ _ _)).
  - by rewrite (pathOf_call _ _ _ (ManageIncidentsWithContext_call _ _ _ _ _)).
  - by rewrite (pathOf_call _ _ _ (GetIncidentWithContext_call _ _ _ _)).
  - by rewrite (pathOf_call _ _ _ (MergeIncidentsWithContext_call _ _ _ _ _ _)).
  - by rewrite (pathOf_call _ _ _ (ListIncidentNotesWithContext_call _ _ _ _)).
  - by rewrite (pathOf_call _ _ _ (CreateIncidentNoteWithContext_call _ _ _ _ _)).
  - by rewrite (pathOf_call _ _ _ (SnoozeIncidentWithContext_call _ _ _ _ _)).
  - by rewrite (pathOf_call _ _ _ (ResponderRequestWithContext_call _ _ _ _ _)).
  - rewrite (pathOf_call _ _ _ (ListIncidentAlertsWithContext_call _ _ _ _ _)).
    cbn [Request_Path getCall]. by rewrite !append_assoc.
  - rewrite (pathOf_call _ _ _ (ListIncidentLogEntriesWithContext_call _ _ _ _ _)).
    cbn [Request_Path getCall]. by rewrite !append_assoc.
  - by rewrite (pathOf_call _ _ _ (getIncidentAlertWithContext_call _ _ _ _ _)).
Qed.

End Paths.

(** ** The claims at concrete inputs *)

(** C1, counterexample: the service answers an incident creation with the
    empty object, which has no [incident] member; the operation returns
    the zero-valued incident and no error. *)
Lemma C1_CreateIncident_returns_zero_incident :
  CreateIncidentWithContext emptyObjectService (unmarshal_Incident := sampleIncident)
    Background "ops@example.com" (Some sampleCreateOptions) []
  = (Ok zero,
     [writeCall POST Background "/incidents"
        (map_CreateIncidentOptions {[ "incident" := Some sampleCreateOptions ]})
        {[ "From" := "ops@example.com" ]}]).
Proof. reflexivity. Qed.

(** C1 at the empty object: both map-decoding operations report the missing
    key, and note creation returns the zero-valued note. *)
Lemma C1_missing_envelope_key_witness :
  (GetIncidentWithContext emptyObjectService (unmarshal_Incident := sampleIncident)
     Background "PT4KHLK" []).1
  = Err (Errorf "JSON response does not have incident field")
  /\ (ListIncidentNotesWithContext emptyObjectService
        (unmarshal_IncidentNote := sampleIncidentNote) Background "PT4KHLK" []).1
     = Err (Errorf "JSON response does not have notes field")
  /\ (CreateIncidentNoteWithContext emptyObjectService
        (unmarshal_IncidentNote := sampleIncidentNote) Background "PT4KHLK" sampleNote []).1
     = Ok zero.
Proof.
  destruct (C1_missing_envelope_key_reported emptyObjectService
              (unmarshal_Incident := sampleIncident)
              (unmarshal_IncidentNote := sampleIncidentNote)
              (unmarshal_IncidentAlert := sampleIncidentAlert)
              (unmarshal_ResponderRequest := sampleResponderRequest)
              Background "ops@example.com" "PT4KHLK" "PALERT1" (Some sampleCreateOptions) []
              sampleNote 3600 sampleResponderRequestOptions []
              {| Response_StatusCode := 200; Response_Body := Some (JObject []) |} [])
    as (Hincident & Hnotes & _ & _ & _ & Hnote & _).
  - reflexivity.
  - repeat split_and.
    + apply (Hincident ∅); [reflexivity|reflexivity|apply not_elem_of_nil].
    + apply (Hnotes ∅); [reflexivity|reflexivity|apply not_elem_of_nil].
    + apply Hnote; [reflexivity|constructor].
Defined.

(** C2, counterexample: snoozing an incident makes its call with no [From]
    header. *)
Lemma C2_Snooze_sends_no_From_header :
  (fun req => Request_Headers req !! "From")
    <$> (SnoozeIncidentWithContext emptyObjectService (unmarshal_Incident := sampleIncident)
           Background "PT4KHLK" 3600 []).2
  = [None].
Proof. reflexivity. Qed.

(** C3, where the code departs from it: under a gateway that honours
    cancellation and with a context that is already cancelled,
    [GetIncidentWithContext] fails with [Canceled], while
    [GetIncidentAlertWithContext] and [ManageIncidentAlertsWithContext] make
    their call under [context.Background()] and return a decoded result. *)
Theorem C3_alert_operations_run_under_Background :
  GetIncidentWithContext emptyObjectService (unmarshal_Incident := sampleIncident)
    cancelled "PT4KHLK" []
  = (Err Canceled, [getCall cancelled "/incidents/PT4KHLK"])
  /\ GetIncidentAlertWithContext emptyObjectService
       (unmarshal_IncidentAlert := sampleIncidentAlert) cancelled "PT4KHLK" "PALERT1" []
     = (Ok zero, [getCall Background "/incidents/PT4KHLK/alerts/PALERT1"])
  /\ ManageIncidentAlertsWithContext emptyObjectService
       (unmarshal_IncidentAlert := sampleIncidentAlert) cancelled "PT4KHLK" None []
     = (Ok zero,
        [writeCall PUT Background "/incidents/PT4KHLK/alerts/"
           (pointer_IncidentAlertList None) ∅]).
Proof. repeat split_and; reflexivity. Qed.


(** C8 at a service that answers the bulk update with the incident [Q1]
    and its pagination. *)
Lemma C8_ManageIncidents_bulk_update_witness :
  (ManageIncidentsWithContext incidentService (unmarshal_Incident := sampleIncident)
     Background "ops@example.com" [sampleManageOptions] []).2
  = [writeCall PUT Background "/incidents"
       (map_ManageIncidentsOptions {[ "incidents" := [sampleManageOptions] ]})
       {[ "From" := "ops@example.com" ]}]
  /\ (ManageIncidentsWithContext incidentService (unmarshal_Incident := sampleIncident)
        Background "ops@example.com" [sampleManageOptions] []).1
     = Ok {| ListIncidentsResponse_APIListObject := Build_APIListObject 25 0 false 0;
             ListIncidentsResponse_Incidents := [incidentQ1] |}.
Proof.
  destruct (C8_ManageIncidents_bulk_update incidentService
              (unmarshal_Incident := sampleIncident)
              Background "ops@example.com" [sampleManageOptions] [])
    as (Hcall & _ & _ & _ & Hpage).
  split; [exact Hcall|].
  etrans.
  - apply (Hpage {| Response_StatusCode := 200; Response_Body := Some bulkUpdateAnswer |}
             []
             [("offset", JNumber "0"); ("limit", JNumber "25"); ("more", JBool false)]
             "incidents"
             [JObject [("id", JString "Q1"); ("status", JString "acknowledged")]]
             [incidentQ1]).
    + reflexivity.
    + reflexivity.
    + reflexivity.
    + repeat constructor; discriminate.
    + repeat constructor.
  - reflexivity.
Defined.

(** C4 at the zero values of the three list-options structs. *)
Lemma C4_zero_options_empty_query_witness :
  url.Encode (query.ValuesListIncidentsOptions zero) = ""
  /\ url.Encode (query.ValuesListIncidentAlertsOptions zero) = ""
  /\ url.Encode (query.ValuesListIncidentLogEntriesOptions zero) = ""
  /\ pathOf (ListIncidentsWithContext emptyObjectService
               (unmarshal_Incident := sampleIncident) Background zero) []
     = Some "/incidents?"
  /\ pathOf (ListIncidentAlertsWithContext emptyObjectService
               (unmarshal_IncidentAlert := sampleIncidentAlert) Background "PT4KHLK" zero) []
     = Some ("/incidents/" +:+ "PT4KHLK" +:+ "/alerts?")
  /\ pathOf (ListIncidentLogEntriesWithContext emptyObjectService
               (unmarshal_LogEntry := sampleLogEntry) Background "PT4KHLK" zero) []
     = Some ("/incidents/" +:+ "PT4KHLK" +:+ "/log_entries?").
Proof.
  apply (C4_zero_options_empty_query emptyObjectService
           (unmarshal_Incident := sampleIncident)
           (unmarshal_IncidentAlert := sampleIncidentAlert)
           (unmarshal_LogEntry := sampleLogEntry)
           zero zero zero Background "PT4KHLK" []); reflexivity.
Defined.

(** C5 at the three statuses of the sample options. *)
Lemma C5_sequence_filters_round_trip_witness :
  (exists pairs,
      url.parsePairs (url.Encode (query.ValuesListIncidentsOptions sampleOptions)) = Some pairs
      /\ valuesFor ("statuses" +:+ "[]") pairs = ["triggered"; "acknowledged"; "resolved"]
      /\ length (filter (fun kv => kv.1 = "statuses" +:+ "[]") pairs)
         = length ["triggered"; "acknowledged"; "resolved"])
  /\ url.ParseQuery (url.Encode (query.ValuesListIncidentsOptions sampleOptions))
       ≫= decodeListIncidentsOptions
     = Some sampleOptions.
Proof.
  apply (C5_sequence_filters_round_trip sampleOptions "statuses"
           ["triggered"; "acknowledged"; "resolved"]).
  - unfold uintRange. cbn. lia.
  - unfold sequenceFilters. apply elem_of_cons. by left.
Defined.

(** C6 at the sample options, ranging over the keys forwards and
    backwards. *)
Lemma C6_encoding_deterministic_witness :
  url.EncodeRange (map_to_list (query.ValuesListIncidentsOptions sampleOptions)).*1
    (query.ValuesListIncidentsOptions sampleOptions)
  = url.EncodeRange (reverse (map_to_list (query.ValuesListIncidentsOptions sampleOptions)).*1)
      (query.ValuesListIncidentsOptions sampleOptions)
  /\ url.EncodeRange (map_to_list (query.ValuesListIncidentsOptions sampleOptions)).*1
       (query.ValuesListIncidentsOptions sampleOptions)
     = url.Encode (query.ValuesListIncidentsOptions sampleOptions).
Proof.
  apply (C6_encoding_deterministic (query.ValuesListIncidentsOptions sampleOptions)).
  - constructor.
  - reflexivity.
  - apply reverse_Permutation.
Defined.

(** The sample options on the wire. *)
Example sampleOptions_query :
  url.Encode (query.ValuesListIncidentsOptions sampleOptions)
  = "limit=25&service_ids%5B%5D=PIJ90N7&since=2020-01-01T00%3A00%3A00Z&sort_by=created_at%3Adesc&statuses%5B%5D=triggered&statuses%5B%5D=acknowledged&statuses%5B%5D=resolved".
Proof. vm_compute. reflexivity. Qed.

(** ** Further properties of the operations *)

Section Operations.

Variable gateway : list Request -> Request -> result Response.
Context {unmarshal_Incident : Unmarshal Incident}.
Context {unmarshal_IncidentNote : Unmarshal IncidentNote}.
Context {unmarshal_IncidentAlert : Unmarshal IncidentAlert}.
Context {unmarshal_LogEntry : Unmarshal LogEntry}.
Context {unmarshal_ResponderRequest : Unmarshal ResponderRequest}.

Lemma contextsOf_call {T} (m : Client T) (calls : list Request) (req : Request) :
  (m calls).2 = calls ++ [req] -> contextsOf m calls = [Request_Context req].
Proof. intros Hcall. unfold contextsOf. by rewrite Hcall, drop_app_length. Qed.

(** X1: every operation that takes a context, the two alert operations
    [GetIncidentAlertWithContext] and [ManageIncidentAlertsWithContext]
    apart, makes exactly one gateway call, and makes it under the context
    the caller supplied. *)
Theorem X1_one_call_under_the_callers_context
    (ctx : Context) (from id : string) (o : ListIncidentsOptions)
    (oa : ListIncidentAlertsOptions) (ol : ListIncidentLogEntriesOptions)
    (create : option CreateIncidentOptions) (incidents : list ManageIncidentsOptions)
    (sources : list MergeIncidentsOptions) (note : IncidentNote) (duration : N)
    (request : ResponderRequestOptions) (calls : list Request) :
  contextsOf (ListIncidentsWithContext gateway ctx o) calls = [ctx]
  /\ contextsOf (CreateIncidentWithContext gateway ctx from create) calls = [ctx]
  /\ contextsOf (ManageIncidentsWithContext gateway ctx from incidents) calls = [ctx]
  /\ contextsOf (MergeIncidentsWithContext gateway ctx from id sources) calls = [ctx]
  /\ contextsOf (GetIncidentWithContext gateway ctx id) calls = [ctx]
  /\ contextsOf (ListIncidentNotesWithContext gateway ctx id) calls = [ctx]
  /\ contextsOf (ListIncidentAlertsWithContext gateway ctx id oa) calls = [ctx]
  /\ contextsOf (CreateIncidentNoteWithContext gateway ctx id note) calls = [ctx]
  /\ contextsOf (SnoozeIncidentWithContext gateway ctx id duration) calls = [ctx]
  /\ contextsOf (ListIncidentLogEntriesWithContext gateway ctx id ol) calls = [ctx]
  /\ contextsOf (ResponderRequestWithContext gateway ctx id request) calls = [ctx].
Proof.
  repeat split_and.
  - by rewrite (contextsOf_call _ _ _ (ListIncidentsWithContext_call _ _ _ _)).
  - by rewrite (contextsOf_call _ _ _ (CreateIncidentWithContext_call _ _ _ _ _)).
  - by rewrite (contextsOf_call _ _ _ (ManageIncidentsWithContext_call _ _ _ _ _)).
  - by rewrite (contextsOf_call _ _ _ (MergeIncidentsWithContext_call _ _ _ _ _ _)).
  - by rewrite (contextsOf_call _ _ _ (GetIncidentWithContext_call _ _ _ _)).
  - by rewrite (contextsOf_call _ _ _ (ListIncidentNotesWithContext_call _ _ _ _)).
  - by rewrite (contextsOf_call _ _ _ (ListIncidentAlertsWithContext_call _ _ _ _ _)).
  - by rewrite (contextsOf_call _ _ _ (CreateIncidentNoteWithContext_call _ _ _ _ _)).
  - by rewrite (contextsOf_call _ _ _ (SnoozeIncidentWithContext_call _ _ _ _ _)).
  - by rewrite (contextsOf_call _ _ _ (ListIncidentLogEntriesWithContext_call _ _ _ _ _)).
  - by rewrite (contextsOf_call _ _ _ (ResponderRequestWithContext_call _ _ _ _ _)).
Qed.

Ltac run_operation :=
  unfold ListIncidentsWithContext, CreateIncidentWithContext,
    ManageIncidentsWithContext, MergeIncidentsWithContext, GetIncidentWithContext,
    ListIncidentNotesWithContext, ListIncidentAlertsWithContext,
    CreateIncidentNoteWithContext, CreateIncidentNote, SnoozeIncidentWithContext,
    SnoozeIncident, ListIncidentLogEntriesWithContext, ResponderRequestWithContext,
    GetIncidentAlertWithContext, getIncidentAlertWithContext,
    ManageIncidentAlertsWithContext, manageIncidentAlertsWithContext,
    c_get, c_post, c_put, bind, call, decodeJSON, ret;
  rewrite ?insert_empty.

(** X2: an error of the gateway is returned as it is, with no result: when
    the gateway fails the call that an operation makes with [e], the
    operation returns [e]. *)
Theorem X2_gateway_errors_are_passed_on
    (e : error) (ctx : Context) (from id alertID : string) (o : ListIncidentsOptions)
    (oa : ListIncidentAlertsOptions) (ol : ListIncidentLogEntriesOptions)
    (create : option CreateIncidentOptions) (incidents : list ManageIncidentsOptions)
    (sources : list MergeIncidentsOptions) (note : IncidentNote) (duration : N)
    (request : ResponderRequestOptions) (alerts : option IncidentAlertList)
    (calls : list Request) :
  let passes {T} (m : Client T) :=
    answerOf gateway m calls = Some (Err e) -> (m calls).1 = Err e in
  passes (ListIncidentsWithContext gateway ctx o)
  /\ passes (CreateIncidentWithContext gateway ctx from create)
  /\ passes (ManageIncidentsWithContext gateway ctx from incidents)
  /\ passes (MergeIncidentsWithContext gateway ctx from id sources)
  /\ passes (GetIncidentWithContext gateway ctx id)
  /\ passes (ListIncidentNotesWithContext gateway ctx id)
  /\ passes (ListIncidentAlertsWithContext gateway ctx id oa)
  /\ passes (CreateIncidentNoteWithContext gateway ctx id note)
  /\ passes (CreateIncidentNote gateway id note)
  /\ passes (SnoozeIncidentWithContext gateway ctx id duration)
  /\ passes (SnoozeIncident gateway id duration)
  /\ passes (ListIncidentLogEntriesWithContext gateway ctx id ol)
  /\ passes (ResponderRequestWithContext gateway ctx id request)
  /\ passes (GetIncidentAlertWithContext gateway ctx id alertID)
  /\ passes (ManageIncidentAlertsWithContext gateway ctx id alerts).
Proof.
  intros passes. unfold passes.
  repeat split_and; intros Hgw; the_call Hgw; run_operation; by rewrite Hgw.
Qed.

(** X3: the operations that decode into an envelope struct do not look for
    the envelope key: when the service answers their call with a JSON
    object none of whose keys names the envelope key (under the case
    folding of the decoder), creation, merge and snooze return the
    zero-valued incident, note creation the zero-valued note, the responder
    request and the alert lookup the zero-valued response, each with no
    error. *)
Theorem X3_envelope_structs_ignore_a_missing_key
    (ctx : Context) (from id alertID : string) (create : option CreateIncidentOptions)
    (sources : list MergeIncidentsOptions) (note : IncidentNote) (duration : N)
    (request : ResponderRequestOptions) (calls : list Request)
    (resp : Response) (members : list (string * json)) :
  Response_Body resp = Some (JObject members) ->
  let gives {T} (m : Client T) (key : string) (r : result T) :=
    answerOf gateway m calls = Some (Ok resp) ->
    Forall (fun kv : string * json => foldName kv.1 <> key) members ->
    (m calls).1 = r in
  gives (CreateIncidentWithContext gateway ctx from create) "incident" (Ok zero)
  /\ gives (MergeIncidentsWithContext gateway ctx from id sources) "incident" (Ok zero)
  /\ gives (SnoozeIncidentWithContext gateway ctx id duration) "incident" (Ok zero)
  /\ gives (CreateIncidentNoteWithContext gateway ctx id note) "note" (Ok zero)
  /\ gives (ResponderRequestWithContext gateway ctx id request) "responder_request" (Ok zero)
  /\ gives (getIncidentAlertWithContext gateway ctx id alertID) "alert" (Ok (zero, resp)).
Proof.
  intros Hbody gives. unfold gives.
  assert (Hskip : forall name T F (U : Unmarshal F) (get : T -> F) (set : F -> T -> T) (t : T),
             foldName name = name ->
             Forall (fun kv : string * json => foldName kv.1 <> name) members ->
             unmarshalMembers [fieldOf name get set] members t = Ok t).
  { intros name T F U get set t Hlower Hkeys. apply unmarshalMembers_skipped.
    eapply Forall_impl; [exact Hkeys|]. intros [key j] Hkey.
    apply findField_single. by rewrite Hlower. }
  repeat split_and; intros Hgw Hkeys; the_call Hgw; run_operation;
    rewrite Hgw, Hbody;
    unfold unmarshal, unmarshal_createIncidentResponse, unmarshal_CreateIncidentNoteResponse,
      unmarshal_ResponderRequestResponse, unmarshal_IncidentAlertResponse, unmarshalStruct;
    by rewrite Hskip.
Qed.

(** X4: a single-item response is unwrapped from its singular key: when the
    service answers the call of the operation with the object
    [{"incident": j}] and [j] decodes as the incident [i], creation, merge,
    snooze and lookup return [i]. *)
Theorem X4_incident_is_unwrapped
    (ctx : Context) (from id : string) (create : option CreateIncidentOptions)
    (sources : list MergeIncidentsOptions) (duration : N) (calls : list Request)
    (resp : Response) (j : json) (i : Incident) :
  Response_Body resp = Some (JObject [("incident", j)]) ->
  unmarshal j zero = Ok i ->
  let gives {T} (m : Client T) (r : result T) :=
    answerOf gateway m calls = Some (Ok resp) -> (m calls).1 = r in
  gives (CreateIncidentWithContext gateway ctx from create) (Ok i)
  /\ gives (MergeIncidentsWithContext gateway ctx from id sources) (Ok i)
  /\ gives (SnoozeIncidentWithContext gateway ctx id duration) (Ok i)
  /\ gives (GetIncidentWithContext gateway ctx id) (Ok i).
Proof.
  intros Hbody Hj gives. unfold gives.
  repeat split_and; intros Hgw; the_call Hgw; run_operation;
    rewrite Hgw, Hbody; cbn;
    change (@zero Incident _) with (@zero Incident Incident_zero) in Hj;
    rewrite Hj; cbn; by rewrite ?lookup_insert_eq.
Qed.

End Operations.

(** X5: for a [ListIncidentsOptions] value whose numbers are in range, the
    query string is empty only when every field is at its zero value, and
    two values with the same query string are the same value. *)
Theorem X5_query_string_determines_the_options (o1 o2 : ListIncidentsOptions) :
  uintRange (ListIncidentsOptions_APIListObject o1) ->
  uintRange (ListIncidentsOptions_APIListObject o2) ->
  url.Encode (query.ValuesListIncidentsOptions o1)
  = url.Encode (query.ValuesListIncidentsOptions o2) ->
  o1 = o2
  /\ (url.Encode (query.ValuesListIncidentsOptions o1) = "" -> o1 = zero).
Proof.
  assert (Hinj : forall a b : ListIncidentsOptions,
             uintRange (ListIncidentsOptions_APIListObject a) ->
             uintRange (ListIncidentsOptions_APIListObject b) ->
             url.Encode (query.ValuesListIncidentsOptions a)
             = url.Encode (query.ValuesListIncidentsOptions b) -> a = b).
  { intros a b Ha Hb Heq.
    assert (Hv : Some (query.ValuesListIncidentsOptions a)
                 = Some (query.ValuesListIncidentsOptions b)).
    { rewrite <- (ParseQuery_EncodeRange _ _ (populated_ListIncidentsOptions a)
                    (reflexivity _)).
      rewrite <- (ParseQuery_EncodeRange _ _ (populated_ListIncidentsOptions b)
                    (reflexivity _)).
      by f_equal. }
    injection Hv as Hv.
    pose proof (decodeListIncidentsOptions_Values a Ha) as Hda.
    pose proof (decodeListIncidentsOptions_Values b Hb) as Hdb.
    rewrite Hv in Hda. congruence. }
  intros H1 H2 Heq. split; [by apply Hinj|].
  intros Hempty. apply Hinj; [done| |done].
  unfold uintRange. cbn. lia.
Qed.

(** X2 at the service of the incident [Q1]: looking up an incident that it
    does not know returns the status error. *)
Lemma X2_gateway_errors_are_passed_on_witness :
  (GetIncidentWithContext incidentService (unmarshal_Incident := sampleIncident)
     Background "Q2" []).1
  = Err (HTTPStatusError 404 "Not Found").
Proof.
  destruct (X2_gateway_errors_are_passed_on incidentService
              (unmarshal_Incident := sampleIncident)
              (unmarshal_IncidentNote := sampleIncidentNote)
              (unmarshal_IncidentAlert := sampleIncidentAlert)
              (unmarshal_LogEntry := sampleLogEntry)
              (unmarshal_ResponderRequest := sampleResponderRequest)
              (HTTPStatusError 404 "Not Found") Background "ops@example.com" "Q2" "PALERT1"
              sampleOptions zero zero (Some sampleCreateOptions) [sampleManageOptions] []
              sampleNote 3600 sampleResponderRequestOptions None [])
    as (_ & _ & _ & _ & Hget & _).
  apply Hget. reflexivity.
Defined.

(** X3 at the empty object. *)
Lemma X3_envelope_structs_ignore_a_missing_key_witness :
  (CreateIncidentNoteWithContext emptyObjectService
     (unmarshal_IncidentNote := sampleIncidentNote) Background "PT4KHLK" sampleNote []).1
  = Ok zero.
Proof.
  destruct (X3_envelope_structs_ignore_a_missing_key emptyObjectService
              (unmarshal_Incident := sampleIncident)
              (unmarshal_IncidentNote := sampleIncidentNote)
              (unmarshal_IncidentAlert := sampleIncidentAlert)
              (unmarshal_ResponderRequest := sampleResponderRequest)
              Background "ops@example.com" "PT4KHLK" "PALERT1" (Some sampleCreateOptions) []
              sampleNote 3600 sampleResponderRequestOptions []
              {| Response_StatusCode := 200; Response_Body := Some (JObject []) |} [])
    as (_ & _ & _ & Hnote & _).
  - reflexivity.
  - apply Hnote; [reflexivity|constructor].
Defined.

(** X4 at the service of the incident [Q1]: snoozing and looking up [Q1]
    return it. *)
Lemma X4_incident_is_unwrapped_witness :
  (SnoozeIncidentWithContext incidentService (unmarshal_Incident := sampleIncident)
     Background "Q1" 3600 []).1
  = Ok incidentQ1
  /\ (GetIncidentWithContext incidentService (unmarshal_Incident := sampleIncident)
        Background "Q1" []).1
     = Ok incidentQ1.
Proof.
  destruct (X4_incident_is_unwrapped incidentService
              (unmarshal_Incident := sampleIncident)
              Background "ops@example.com" "Q1" (Some sampleCreateOptions) [] 3600 []
              {| Response_StatusCode := 200; Response_Body := Some incidentEnvelope |}
              (JObject [("id", JString "Q1"); ("status", JString "acknowledged")])
              incidentQ1)
    as (_ & _ & Hsnooze & Hget).
  - reflexivity.
  - reflexivity.
  - split; [apply Hsnooze|apply Hget]; reflexivity.
Defined.

(** X5 at the sample options. *)
Lemma X5_query_string_determines_the_options_witness :
  sampleOptions = sampleOptions
  /\ (url.Encode (query.ValuesListIncidentsOptions sampleOptions) = ""
      -> sampleOptions = zero).
Proof.
  apply (X5_query_string_determines_the_options sampleOptions sampleOptions).
  - unfold uintRange. cbn. lia.
  - unfold uintRange. cbn. lia.
  - reflexivity.
Defined.

(** ** Further properties of the query encoding *)

(** The values that the parsed query string gives a key are the values
    stored under it. *)
Lemma valuesFor_Encode (key : string) (v : url.Values) :
  valuesFor key <$> url.parsePairs (url.Encode v) = Some (default [] (v !! key)).
Proof.
  unfold url.Encode. rewrite parsePairs_EncodeRange. cbn. f_equal.
  destruct (v !! key) as [xs|] eqn:Hkey.
  - rewrite valuesFor_pairsOf, Hkey; [done| |].
    + rewrite merge_sort_Permutation. apply NoDup_fst_map_to_list.
    + rewrite merge_sort_Permutation. apply list_elem_of_fmap.
      exists (key, xs). split; [done|]. by apply elem_of_map_to_list.
  - apply valuesFor_pairsOf_absent. rewrite merge_sort_Permutation.
    intros ([k xs] & Hk & Hin)%list_elem_of_fmap. cbn in Hk. subst k.
    apply elem_of_map_to_list in Hin. congruence.
Qed.

Lemma keys_of_pairsOf (keys : list string) (v : url.Values) (k x : string) :
  (k, x) ∈ pairsOf keys v -> is_Some (v !! k).
Proof.
  unfold pairsOf. intros (key & Hin & _)%list_elem_of_bind.
  apply list_elem_of_fmap in Hin as (y & [= -> ->] & Hy).
  destruct (v !! key); [done|]. by apply elem_of_nil in Hy.
Qed.

Lemma decodeAPIListObject_ListIncidentAlertsOptions o :
  uintRange (ListIncidentAlertsOptions_APIListObject o) ->
  decodeAPIListObject (query.ValuesListIncidentAlertsOptions o)
  = Some (ListIncidentAlertsOptions_APIListObject o).
Proof.
  intros (Hlimit & Hoffset & Htotal). unfold decodeAPIListObject.
  rewrite (getUint_uint "limit" _ _ Hlimit) by lookup_in query.ValuesListIncidentAlertsOptions.
  rewrite (getUint_uint "offset" _ _ Hoffset) by lookup_in query.ValuesListIncidentAlertsOptions.
  rewrite (getBool_bool "more" (APIListObject_More (ListIncidentAlertsOptions_APIListObject o)))
    by lookup_in query.ValuesListIncidentAlertsOptions.
  rewrite (getUint_uint "total" _ _ Htotal) by lookup_in query.ValuesListIncidentAlertsOptions.
  cbn. by destruct (ListIncidentAlertsOptions_APIListObject o).
Qed.

Lemma decodeAPIListObject_ListIncidentLogEntriesOptions o :
  uintRange (ListIncidentLogEntriesOptions_APIListObject o) ->
  decodeAPIListObject (query.ValuesListIncidentLogEntriesOptions o)
  = Some (ListIncidentLogEntriesOptions_APIListObject o).
Proof.
  intros (Hlimit & Hoffset & Htotal). unfold decodeAPIListObject.
  rewrite (getUint_uint "limit" _ _ Hlimit)
    by lookup_in query.ValuesListIncidentLogEntriesOptions.
  rewrite (getUint_uint "offset" _ _ Hoffset)
    by lookup_in query.ValuesListIncidentLogEntriesOptions.
  rewrite (getBool_bool "more"
             (APIListObject_More (ListIncidentLogEntriesOptions_APIListObject o)))
    by lookup_in query.ValuesListIncidentLogEntriesOptions.
  rewrite (getUint_uint "total" _ _ Htotal)
    by lookup_in query.ValuesListIncidentLogEntriesOptions.
  cbn. by destruct (ListIncidentLogEntriesOptions_APIListObject o).
Qed.

(** X7: the query strings of the alert-list and log-entry-list options can
    be read back: parsing the emitted string and reading every field from
    the key of its tag gives the options value that was encoded. *)
Theorem X7_alert_and_log_entry_options_round_trip
    (oa : ListIncidentAlertsOptions) (ol : ListIncidentLogEntriesOptions) :
  uintRange (ListIncidentAlertsOptions_APIListObject oa) ->
  uintRange (ListIncidentLogEntriesOptions_APIListObject ol) ->
  url.ParseQuery (url.Encode (query.ValuesListIncidentAlertsOptions oa))
    ≫= decodeListIncidentAlertsOptions = Some oa
  /\ url.ParseQuery (url.Encode (query.ValuesListIncidentLogEntriesOptions ol))
       ≫= decodeListIncidentLogEntriesOptions = Some ol.
Proof.
  intros Ha Hl. unfold url.Encode. split.
  - rewrite ParseQuery_EncodeRange; [|apply populated_ListIncidentAlertsOptions|done].
    cbn. unfold decodeListIncidentAlertsOptions.
    rewrite decodeAPIListObject_ListIncidentAlertsOptions by done. cbn.
    rewrite (getStrings_sequence "statuses[]" (ListIncidentAlertsOptions_Statuses oa))
      by lookup_in query.ValuesListIncidentAlertsOptions.
    rewrite (Get_string "sort_by" (ListIncidentAlertsOptions_SortBy oa))
      by lookup_in query.ValuesListIncidentAlertsOptions.
    rewrite (getStrings_sequence "include[]" (ListIncidentAlertsOptions_Includes oa))
      by lookup_in query.ValuesListIncidentAlertsOptions.
    by destruct oa.
  - rewrite ParseQuery_EncodeRange; [|apply populated_ListIncidentLogEntriesOptions|done].
    cbn. unfold decodeListIncidentLogEntriesOptions.
    rewrite decodeAPIListObject_ListIncidentLogEntriesOptions by done. cbn.
    rewrite (getBool_bool "is_overview" (ListIncidentLogEntriesOptions_IsOverview ol))
      by lookup_in query.ValuesListIncidentLogEntriesOptions.
    cbn.
    rewrite (getStrings_sequence "include[]" (ListIncidentLogEntriesOptions_Includes ol))
      by lookup_in query.ValuesListIncidentLogEntriesOptions.
    rewrite (Get_string "time_zone" (ListIncidentLogEntriesOptions_TimeZone ol))
      by lookup_in query.ValuesListIncidentLogEntriesOptions.
    rewrite (Get_string "since" (ListIncidentLogEntriesOptions_Since ol))
      by lookup_in query.ValuesListIncidentLogEntriesOptions.
    rewrite (Get_string "until" (ListIncidentLogEntriesOptions_Until ol))
      by lookup_in query.ValuesListIncidentLogEntriesOptions.
    by destruct ol.
Qed.

Lemma lookup_scalar o name (s : string) :
  (name, s) ∈ scalarFilters o ->
  query.ValuesListIncidentsOptions o !! name
  = if String.eqb s "" then None else Some [s].
Proof.
  unfold scalarFilters. rewrite !elem_of_cons, elem_of_nil.
  intros [H|[H|[H|[H|[H|[H|[]]]]]]]; injection H as -> ->;
    lookup_in query.ValuesListIncidentsOptions.
Qed.

Lemma lookup_pageNumber o name (n : N) :
  (name, n) ∈ pageNumbers o ->
  query.ValuesListIncidentsOptions o !! name
  = if n =? 0 then None else Some [strconv.FormatUint n].
Proof.
  unfold pageNumbers. rewrite !elem_of_cons, elem_of_nil.
  intros [H|[H|[H|[]]]]; injection H as -> ->;
    lookup_in query.ValuesListIncidentsOptions.
Qed.

(** Only the keys of the tags are ever added. *)
Ltac key_step :=
  first [ rewrite lookup_addString | rewrite lookup_addUint | rewrite lookup_addBool
        | rewrite lookup_addBrackets ];
  case_decide; [subst; intros _; vm_compute; set_solver|].

Lemma lookup_queryKeys o key :
  is_Some (query.ValuesListIncidentsOptions o !! key) -> key ∈ queryKeys.
Proof.
  unfold query.ValuesListIncidentsOptions, query.reflectAPIListObject. cbv zeta.
  repeat key_step. rewrite lookup_empty. by intros [? ?].
Qed.

(** X8: the string filters and the pagination numbers of
    [ListIncidentsOptions] follow the omit-if-zero policy: in the emitted
    query string a non-empty string filter has exactly one setting, with
    the filter as its value, a non-zero number exactly one setting with its
    decimal digits, and an empty string or a zero has none; and no setting
    has a key other than the keys of the struct's tags. *)
Theorem X8_scalar_filters_are_omitted_when_zero (o : ListIncidentsOptions) :
  exists pairs,
    url.parsePairs (url.Encode (query.ValuesListIncidentsOptions o)) = Some pairs
    /\ (forall name s, (name, s) ∈ scalarFilters o ->
          valuesFor name pairs = if String.eqb s "" then [] else [s])
    /\ (forall name n, (name, n) ∈ pageNumbers o ->
          valuesFor name pairs = if n =? 0 then [] else [strconv.FormatUint n])
    /\ (forall k x, (k, x) ∈ pairs -> k ∈ queryKeys).
Proof.
  pose proof (fun key => valuesFor_Encode key (query.ValuesListIncidentsOptions o)) as Hvalues.
  unfold url.Encode in *. rewrite parsePairs_EncodeRange in *.
  eexists. split; [done|]. repeat split_and.
  - intros name s Hin. specialize (Hvalues name). cbn in Hvalues.
    injection Hvalues as ->. rewrite (lookup_scalar o name s Hin).
    by destruct (String.eqb s "").
  - intros name n Hin. specialize (Hvalues name). cbn in Hvalues.
    injection Hvalues as ->. rewrite (lookup_pageNumber o name n Hin).
    by destruct (n =? 0).
  - intros k x Hin. eapply lookup_queryKeys, keys_of_pairsOf, Hin.
Qed.

(** ** The bytes of a query string *)

Lemma allBytes_append (P : ascii -> bool) (s t : string) :
  allBytes P (s +:+ t) = allBytes P s && allBytes P t.
Proof.
  induction s as [|c s IH]; [done|]. rewrite append_cons. cbn.
  by rewrite IH, andb_assoc.
Qed.

Lemma querySafe_escapeByte (c : ascii) : allBytes querySafe (url.escapeByte c) = true.
Proof. each_byte c; reflexivity. Qed.

Lemma querySafe_QueryEscape (s : string) : allBytes querySafe (url.QueryEscape s) = true.
Proof.
  induction s as [|c s IH]; [done|]. cbn.
  by rewrite allBytes_append, querySafe_escapeByte, IH.
Qed.

Lemma querySafe_joinSettings (pairs : list (string * string)) :
  allBytes querySafe (joinSettings (setting <$> pairs)) = true.
Proof.
  assert (Hsetting : forall kv, allBytes querySafe (setting kv) = true).
  { intros kv. unfold setting. by rewrite !allBytes_append, !querySafe_QueryEscape. }
  induction pairs as [|kv [|kv' pairs] IH]; [done|apply Hsetting|].
  change (joinSettings (setting <$> kv :: kv' :: pairs))
    with (setting kv +:+ "&" +:+ joinSettings (setting <$> kv' :: pairs)).
  by rewrite !allBytes_append, Hsetting, IH.
Qed.

(** X9: whatever the filters hold (spaces, ampersands, question marks,
    slashes, bytes that are no ASCII), the query string that a list
    operation appends to its path is made only of letters, digits, the four
    marks of the unreserved set, the escapes and the two separators of the
    settings; in particular the query string holds no question mark. *)
Theorem X9_query_string_has_only_safe_bytes
    (o : ListIncidentsOptions) (oa : ListIncidentAlertsOptions)
    (ol : ListIncidentLogEntriesOptions) :
  allBytes querySafe (url.Encode (query.ValuesListIncidentsOptions o)) = true
  /\ allBytes querySafe (url.Encode (query.ValuesListIncidentAlertsOptions oa)) = true
  /\ allBytes querySafe (url.Encode (query.ValuesListIncidentLogEntriesOptions ol)) = true
  /\ url.Contains (url.Encode (query.ValuesListIncidentsOptions o)) "?" = false
  /\ url.Contains (url.Encode (query.ValuesListIncidentAlertsOptions oa)) "?" = false
  /\ url.Contains (url.Encode (query.ValuesListIncidentLogEntriesOptions ol)) "?" = false.
Proof.
  assert (Hsafe : forall v : url.Values, allBytes querySafe (url.Encode v) = true).
  { intros v. unfold url.Encode. rewrite EncodeRange_join. apply querySafe_joinSettings. }
  assert (Hmark : forall s, allBytes querySafe s = true -> url.Contains s "?" = false).
  { induction s as [|c s IH]; [done|]. cbn. intros [Hc Hs]%andb_true_iff.
    rewrite (IH Hs), orb_false_r. revert Hc. clear. each_byte c; done. }
  repeat split_and; auto.
Qed.

(** ** Further properties of decoding and of the calls *)

Section Decoding.

Variable gateway : list Request -> Request -> result Response.
Context {unmarshal_Incident : Unmarshal Incident}.
Context {unmarshal_IncidentNote : Unmarshal IncidentNote}.
Context {unmarshal_IncidentAlert : Unmarshal IncidentAlert}.
Context {unmarshal_LogEntry : Unmarshal LogEntry}.
Context {unmarshal_ResponderRequest : Unmarshal ResponderRequest}.

Ltac run_operation :=
  unfold ListIncidentsWithContext, CreateIncidentWithContext,
    ManageIncidentsWithContext, MergeIncidentsWithContext, GetIncidentWithContext,
    ListIncidentNotesWithContext, ListIncidentAlertsWithContext,
    CreateIncidentNoteWithContext, CreateIncidentNote, SnoozeIncidentWithContext,
    SnoozeIncident, ListIncidentLogEntriesWithContext, ResponderRequestWithContext,
    GetIncidentAlertWithContext, getIncidentAlertWithContext,
    ManageIncidentAlertsWithContext, manageIncidentAlertsWithContext,
    c_get, c_post, c_put, bind, call, decodeJSON, ret;
  rewrite ?insert_empty.


(** X11: when the gateway answers the call of an operation and the body of
    the answer is not JSON, the operation returns the decoding error and no
    result; so for every operation that decodes. *)
Theorem X11_undecodable_answers_are_errors
    (ctx : Context) (from id alertID : string) (o : ListIncidentsOptions)
    (oa : ListIncidentAlertsOptions) (ol : ListIncidentLogEntriesOptions)
    (create : option CreateIncidentOptions) (incidents : list ManageIncidentsOptions)
    (sources : list MergeIncidentsOptions) (note : IncidentNote) (duration : N)
    (request : ResponderRequestOptions) (alerts : option IncidentAlertList)
    (calls : list Request) (resp : Response) :
  Response_Body resp = None ->
  exists msg,
    let fails {T} (m : Client T) :=
      answerOf gateway m calls = Some (Ok resp) -> (m calls).1 = Err (DecodeError msg) in
    fails (ListIncidentsWithContext gateway ctx o)
    /\ fails (CreateIncidentWithContext gateway ctx from create)
    /\ fails (ManageIncidentsWithContext gateway ctx from incidents)
    /\ fails (MergeIncidentsWithContext gateway ctx from id sources)
    /\ fails (GetIncidentWithContext gateway ctx id)
    /\ fails (ListIncidentNotesWithContext gateway ctx id)
    /\ fails (ListIncidentAlertsWithContext gateway ctx id oa)
    /\ fails (CreateIncidentNoteWithContext gateway ctx id note)
    /\ fails (SnoozeIncidentWithContext gateway ctx id duration)
    /\ fails (ListIncidentLogEntriesWithContext gateway ctx id ol)
    /\ fails (ResponderRequestWithContext gateway ctx id request)
    /\ fails (GetIncidentAlertWithContext gateway ctx id alertID)
    /\ fails (ManageIncidentAlertsWithContext gateway ctx id alerts).
Proof.
  intros Hbody. exists "invalid character". intros fails. unfold fails.
  repeat split_and; intros Hgw; the_call Hgw; run_operation; rewrite Hgw, Hbody;
    reflexivity.
Qed.

(** X12: [GetIncidentWithContext] and [ListIncidentNotesWithContext] decode
    every member of the answer to their call, not the envelope member
    alone: an answer with a member that does not decode as an incident (as
    a list of notes) makes the operation fail, whether or not the envelope
    key is there. *)
Theorem X12_map_decoding_reads_every_member
    (ctx : Context) (id : string) (calls : list Request) (resp : Response)
    (members : list (string * json)) :
  Response_Body resp = Some (JObject members) ->
  (answerOf gateway (GetIncidentWithContext gateway ctx id) calls = Some (Ok resp) ->
   Exists (fun kv => exists e, unmarshal kv.2 (zero : Incident) = Err e) members ->
   exists e, (GetIncidentWithContext gateway ctx id calls).1 = Err e)
  /\ (answerOf gateway (ListIncidentNotesWithContext gateway ctx id) calls = Some (Ok resp) ->
      Exists (fun kv => exists e, unmarshal kv.2 (zero : list IncidentNote) = Err e) members ->
      exists e, (ListIncidentNotesWithContext gateway ctx id calls).1 = Err e).
Proof.
  intros Hbody. split; intros Hgw Hfail; the_call Hgw; run_operation; rewrite Hgw, Hbody.
  - destruct (unmarshalEntries_fails members ∅ Hfail) as [e He].
    exists e. unfold unmarshal, unmarshal_map.
    change (@zero (gmap string Incident) _) with (∅ : gmap string Incident).
    by rewrite He.
  - destruct (unmarshalEntries_fails members ∅ Hfail) as [e He].
    exists e. unfold unmarshal at 1, unmarshal_map.
    change (@zero (gmap string (list IncidentNote)) _)
      with (∅ : gmap string (list IncidentNote)).
    by rewrite He.
Qed.

End Decoding.

Section Shapes.

Variable gateway : list Request -> Request -> result Response.
Context {unmarshal_Incident : Unmarshal Incident}.
Context {unmarshal_IncidentNote : Unmarshal IncidentNote}.
Context {unmarshal_IncidentAlert : Unmarshal IncidentAlert}.
Context {unmarshal_LogEntry : Unmarshal LogEntry}.
Context {unmarshal_ResponderRequest : Unmarshal ResponderRequest}.

Ltac run_operation :=
  unfold ListIncidentsWithContext, CreateIncidentWithContext,
    ManageIncidentsWithContext, MergeIncidentsWithContext, GetIncidentWithContext,
    ListIncidentNotesWithContext, ListIncidentAlertsWithContext,
    CreateIncidentNoteWithContext, CreateIncidentNote, SnoozeIncidentWithContext,
    SnoozeIncident, ListIncidentLogEntriesWithContext, ResponderRequestWithContext,
    GetIncidentAlertWithContext, getIncidentAlertWithContext,
    ManageIncidentAlertsWithContext, manageIncidentAlertsWithContext,
    c_get, c_post, c_put, bind, call, decodeJSON, ret.

(** X13: the operations that decode into an envelope struct read the
    members that name the envelope key and nothing else: what they return
    on the answer to their call is what decoding the answer without its
    other members gives, so a member under another key never makes them
    fail and never changes the result. *)
Theorem X13_envelope_structs_read_only_their_key
    (ctx : Context) (from id alertID : string) (create : option CreateIncidentOptions)
    (sources : list MergeIncidentsOptions) (note : IncidentNote) (duration : N)
    (request : ResponderRequestOptions) (calls : list Request)
    (resp : Response) (members : list (string * json)) :
  Response_Body resp = Some (JObject members) ->
  let named key := JObject (filter (fun kv => foldName kv.1 = foldName key) members) in
  let gives {T} (m : Client T) (r : result T) :=
    answerOf gateway m calls = Some (Ok resp) -> (m calls).1 = r in
  gives (CreateIncidentWithContext gateway ctx from create)
    (andThen (unmarshal (named "incident") zero)
       (fun r => Ok (createIncidentResponse_Incident r)))
  /\ gives (MergeIncidentsWithContext gateway ctx from id sources)
       (andThen (unmarshal (named "incident") zero)
          (fun r => Ok (createIncidentResponse_Incident r)))
  /\ gives (SnoozeIncidentWithContext gateway ctx id duration)
       (andThen (unmarshal (named "incident") zero)
          (fun r => Ok (createIncidentResponse_Incident r)))
  /\ gives (CreateIncidentNoteWithContext gateway ctx id note)
       (andThen (unmarshal (named "note") zero)
          (fun r => Ok (CreateIncidentNoteResponse_IncidentNote r)))
  /\ gives (ResponderRequestWithContext gateway ctx id request)
       (unmarshal (named "responder_request") zero)
  /\ gives (getIncidentAlertWithContext gateway ctx id alertID)
       (andThen (unmarshal (named "alert") zero) (fun r => Ok (r, resp))).
Proof.
  intros Hbody named gives. unfold named, gives.
  repeat split_and; intros Hgw; the_call Hgw; run_operation; rewrite Hgw, Hbody;
    unfold unmarshal, unmarshal_createIncidentResponse, unmarshal_CreateIncidentNoteResponse,
      unmarshal_ResponderRequestResponse, unmarshal_IncidentAlertResponse, unmarshalStruct;
    rewrite unmarshalMembers_one;
    by destruct (unmarshalMembers _ _ _).
Qed.

(** X14: the verb of every operation: the five reads are GETs that carry
    neither a payload nor headers and name their one argument in the path
    alone; creation, note creation, snoozing and the responder request are
    POSTs; bulk manage, merge and alert management are PUTs. *)
Theorem X14_verbs_of_the_operations
    (ctx : Context) (from id alertID : string) (o : ListIncidentsOptions)
    (oa : ListIncidentAlertsOptions) (ol : ListIncidentLogEntriesOptions)
    (create : option CreateIncidentOptions) (incidents : list ManageIncidentsOptions)
    (sources : list MergeIncidentsOptions) (note : IncidentNote) (duration : N)
    (request : ResponderRequestOptions) (alerts : option IncidentAlertList)
    (calls : list Request) :
  let shape req := (Request_Method req, Request_Payload req, Request_Headers req) in
  shape <$> callsOf (ListIncidentsWithContext gateway ctx o) calls = [(GET, None, ∅)]
  /\ shape <$> callsOf (GetIncidentWithContext gateway ctx id) calls = [(GET, None, ∅)]
  /\ shape <$> callsOf (ListIncidentNotesWithContext gateway ctx id) calls = [(GET, None, ∅)]
  /\ shape <$> callsOf (ListIncidentAlertsWithContext gateway ctx id oa) calls
     = [(GET, None, ∅)]
  /\ shape <$> callsOf (ListIncidentLogEntriesWithContext gateway ctx id ol) calls
     = [(GET, None, ∅)]
  /\ shape <$> callsOf (getIncidentAlertWithContext gateway ctx id alertID) calls
     = [(GET, None, ∅)]
  /\ Request_Method <$> callsOf (CreateIncidentWithContext gateway ctx from create) calls
     = [POST]
  /\ Request_Method <$> callsOf (CreateIncidentNoteWithContext gateway ctx id note) calls
     = [POST]
  /\ Request_Method <$> callsOf (SnoozeIncidentWithContext gateway ctx id duration) calls
     = [POST]
  /\ Request_Method <$> callsOf (ResponderRequestWithContext gateway ctx id request) calls
     = [POST]
  /\ Request_Method <$> callsOf (ManageIncidentsWithContext gateway ctx from incidents) calls
     = [PUT]
  /\ Request_Method <$> callsOf (MergeIncidentsWithContext gateway ctx from id sources) calls
     = [PUT]
  /\ Request_Method <$> callsOf (manageIncidentAlertsWithContext gateway ctx id alerts) calls
     = [PUT].
Proof.
  intros shape. repeat split_and.
  - by rewrite (callsOf_call _ _ _ (ListIncidentsWithContext_call _ _ _ _)).
  - by rewrite (callsOf_call _ _ _ (GetIncidentWithContext_call _ _ _ _)).
  - by rewrite (callsOf_call _ _ _ (ListIncidentNotesWithContext_call _ _ _ _)).
  - by rewrite (callsOf_call _ _ _ (ListIncidentAlertsWithContext_call _ _ _ _ _)).
  - by rewrite (callsOf_call _ _ _ (ListIncidentLogEntriesWithContext_call _ _ _ _ _)).
  - by rewrite (callsOf_call _ _ _ (getIncidentAlertWithContext_call _ _ _ _ _)).
  - by rewrite (callsOf_call _ _ _ (CreateIncidentWithContext_call _ _ _ _ _)).
  - by rewrite (callsOf_call _ _ _ (CreateIncidentNoteWithContext_call _ _ _ _ _)).
  - by rewrite (callsOf_call _ _ _ (SnoozeIncidentWithContext_call _ _ _ _ _)).
  - by rewrite (callsOf_call _ _ _ (ResponderRequestWithContext_call _ _ _ _ _)).
  - by rewrite (callsOf_call _ _ _ (ManageIncidentsWithContext_call _ _ _ _ _)).
  - by rewrite (callsOf_call _ _ _ (MergeIncidentsWithContext_call _ _ _ _ _ _)).
  - by rewrite (callsOf_call _ _ _ (manageIncidentAlertsWithContext_call _ _ _ _ _)).
Qed.


End Shapes.


Section Pages.

Variable gateway : list Request -> Request -> result Response.
Context {unmarshal_Incident : Unmarshal Incident}.
Context {unmarshal_IncidentNote : Unmarshal IncidentNote}.
Context {unmarshal_IncidentAlert : Unmarshal IncidentAlert}.
Context {unmarshal_LogEntry : Unmarshal LogEntry}.
Context {unmarshal_ResponderRequest : Unmarshal ResponderRequest}.

Ltac run_operation :=
  unfold ListIncidentsWithContext, CreateIncidentWithContext,
    ManageIncidentsWithContext, MergeIncidentsWithContext, GetIncidentWithContext,
    ListIncidentNotesWithContext, ListIncidentAlertsWithContext,
    CreateIncidentNoteWithContext, CreateIncidentNote, SnoozeIncidentWithContext,
    SnoozeIncident, ListIncidentLogEntriesWithContext, ResponderRequestWithContext,
    GetIncidentAlertWithContext, getIncidentAlertWithContext,
    ManageIncidentAlertsWithContext, manageIncidentAlertsWithContext,
    c_get, c_post, c_put, bind, call, decodeJSON, ret.


(** X17: the remaining responses are unwrapped from their keys: on the
    answer to its call, the notes of an incident are taken from [notes], a
    created note from [note], the responder request from
    [responder_request] and an alert from [alert], each returned as
    decoded. *)
Theorem X17_sub_resources_are_unwrapped
    (ctx : Context) (id alertID : string) (note : IncidentNote)
    (request : ResponderRequestOptions) (calls : list Request)
    (resp : Response) (j : json) (elements : list json)
    (notes : list IncidentNote) (created : IncidentNote)
    (responder : ResponderRequest) (alert : IncidentAlert) :
  let gives {T} (m : Client T) (r : result T) :=
    answerOf gateway m calls = Some (Ok resp) -> (m calls).1 = r in
  (Response_Body resp = Some (JObject [("notes", JArray elements)]) ->
   Forall2 (fun j n => unmarshal j zero = Ok n) elements notes ->
   gives (ListIncidentNotesWithContext gateway ctx id) (Ok notes))
  /\ (Response_Body resp = Some (JObject [("note", j)]) ->
      unmarshal j zero = Ok created ->
      gives (CreateIncidentNoteWithContext gateway ctx id note) (Ok created))
  /\ (Response_Body resp = Some (JObject [("responder_request", j)]) ->
      unmarshal j zero = Ok responder ->
      gives (ResponderRequestWithContext gateway ctx id request)
        (Ok (Build_ResponderRequestResponse responder)))
  /\ (Response_Body resp = Some (JObject [("alert", j)]) ->
      j <> JNull ->
      unmarshal j zero = Ok alert ->
      gives (getIncidentAlertWithContext gateway ctx id alertID)
        (Ok (Build_IncidentAlertResponse (Some alert), resp))).
Proof.
  intros gives. unfold gives. repeat split_and.
  - intros Hbody Hdec Hgw. the_call Hgw. run_operation. rewrite Hgw, Hbody.
    cbn. change (@zero (list IncidentNote) _) with (@nil IncidentNote).
    rewrite (unmarshalElements_Forall2 _ _ Hdec). cbn. by rewrite lookup_insert_eq.
  - intros Hbody Hdec Hgw. the_call Hgw. run_operation. rewrite Hgw, Hbody.
    cbn. change (@zero IncidentNote _) with (@zero IncidentNote IncidentNote_zero) in Hdec.
    by rewrite Hdec.
  - intros Hbody Hdec Hgw. the_call Hgw. run_operation. rewrite Hgw, Hbody.
    cbn.
    change (@zero ResponderRequest _)
      with (@zero ResponderRequest ResponderRequest_zero) in Hdec.
    by rewrite Hdec.
  - intros Hbody Hj Hdec Hgw. the_call Hgw. run_operation. rewrite Hgw, Hbody.
    cbn. unfold unmarshal at 1, unmarshal_pointer.
    change (@zero IncidentAlert _) with (@zero IncidentAlert IncidentAlert_zero) in Hdec.
    destruct j; try done; cbn; by rewrite Hdec.
Qed.

End Pages.

(** ** The further properties at concrete inputs *)

(** X7 at the sample options of the alert and log-entry lists. *)
Lemma X7_alert_and_log_entry_options_round_trip_witness :
  url.ParseQuery (url.Encode (query.ValuesListIncidentAlertsOptions sampleAlertsOptions))
    ≫= decodeListIncidentAlertsOptions = Some sampleAlertsOptions
  /\ url.ParseQuery
       (url.Encode (query.ValuesListIncidentLogEntriesOptions sampleLogEntriesOptions))
       ≫= decodeListIncidentLogEntriesOptions = Some sampleLogEntriesOptions.
Proof.
  apply (X7_alert_and_log_entry_options_round_trip sampleAlertsOptions
           sampleLogEntriesOptions).
  - unfold uintRange. cbn. lia.
  - unfold uintRange. cbn. lia.
Defined.


(** X11 at the same gateway. *)
Lemma X11_undecodable_answers_are_errors_witness :
  exists msg,
    (GetIncidentWithContext garbled (unmarshal_Incident := sampleIncident)
       Background "PT4KHLK" []).1
    = Err (DecodeError msg).
Proof.
  destruct (X11_undecodable_answers_are_errors garbled
              (unmarshal_Incident := sampleIncident)
              (unmarshal_IncidentNote := sampleIncidentNote)
              (unmarshal_IncidentAlert := sampleIncidentAlert)
              (unmarshal_LogEntry := sampleLogEntry)
              (unmarshal_ResponderRequest := sampleResponderRequest)
              Background "ops@example.com" "PT4KHLK" "PALERT1" sampleOptions zero zero
              (Some sampleCreateOptions) [sampleManageOptions] [] sampleNote 3600
              sampleResponderRequestOptions None []
              {| Response_StatusCode := 200; Response_Body := None |})
    as (msg & _ & _ & _ & _ & Hget & _).
  - reflexivity.
  - exists msg. apply Hget. reflexivity.
Defined.

(** X12 at a service that answers the lookup of [Q1] with the incident and
    a message beside it: the lookup fails on the message. *)
Lemma X12_map_decoding_reads_every_member_witness :
  exists e,
    (GetIncidentWithContext (routed [("/incidents/Q1", incidentAndMessage)])
       (unmarshal_Incident := sampleIncident) Background "Q1" []).1
    = Err e.
Proof.
  destruct (X12_map_decoding_reads_every_member
              (routed [("/incidents/Q1", incidentAndMessage)])
              (unmarshal_Incident := sampleIncident)
              (unmarshal_IncidentNote := sampleIncidentNote)
              Background "Q1" []
              {| Response_StatusCode := 200; Response_Body := Some incidentAndMessage |}
              [("incident", JObject [("id", JString "Q1"); ("status", JString "acknowledged")]);
               ("message", JString "ok")])
    as [Hget _].
  - reflexivity.
  - apply Hget; [reflexivity|].
    apply Exists_cons_tl, Exists_cons_hd. by eexists.
Defined.

(** X13 at a service that answers the creation with the same document:
    creation returns the incident, the message beside it is not looked
    at. *)
Lemma X13_envelope_structs_read_only_their_key_witness :
  (CreateIncidentWithContext (routed [("/incidents", incidentAndMessage)])
     (unmarshal_Incident := sampleIncident)
     Background "ops@example.com" (Some sampleCreateOptions) []).1
  = Ok incidentQ1.
Proof.
  destruct (X13_envelope_structs_read_only_their_key
              (routed [("/incidents", incidentAndMessage)])
              (unmarshal_Incident := sampleIncident)
              (unmarshal_IncidentNote := sampleIncidentNote)
              (unmarshal_IncidentAlert := sampleIncidentAlert)
              (unmarshal_ResponderRequest := sampleResponderRequest)
              Background "ops@example.com" "Q1" "PALERT1" (Some sampleCreateOptions) []
              sampleNote 3600 sampleResponderRequestOptions []
              {| Response_StatusCode := 200; Response_Body := Some incidentAndMessage |}
              [("incident", JObject [("id", JString "Q1"); ("status", JString "acknowledged")]);
               ("message", JString "ok")])
    as [Hcreate _].
  - reflexivity.
  - etrans; [apply Hcreate|]; reflexivity.
Defined.


(** X17 at the service of the incident [Q1]: creating a note returns the
    note of the answer. *)
Lemma X17_sub_resources_are_unwrapped_witness :
  (CreateIncidentNoteWithContext incidentService
     (unmarshal_IncidentNote := sampleIncidentNote) Background "Q1" sampleNote []).1
  = Ok noteN1.
Proof.
  destruct (X17_sub_resources_are_unwrapped incidentService
              (unmarshal_IncidentNote := sampleIncidentNote)
              (unmarshal_IncidentAlert := sampleIncidentAlert)
              (unmarshal_ResponderRequest := sampleResponderRequest)
              Background "Q1" "PALERT1" sampleNote sampleResponderRequestOptions []
              {| Response_StatusCode := 200; Response_Body := Some noteEnvelope |}
              (JObject [("id", JString "N1"); ("content", JString "restarted the primary")])
              [] [] noteN1 zero zero)
    as (_ & Hnote & _).
  apply Hnote; reflexivity.
Defined.
